(** * Fall-detection dataset preparation: extractor and splitter

    A shallow embedding of the three scripts of the repository

    - [src/data.py]  : frame extractor, two output directories (fall / no_fall);
    - [src/utils.py] : frame extractor, one output directory;
    - [src/u1.py]    : train / val / test splitter;

    together with the properties their specification states about them.

    The scripts are sequential Python.  What they compute is modelled by
    executable functions; what they do to the outside world (printing,
    writing image files, copying files) is modelled by an explicit [World]
    threaded through a small state-and-exception monad.  The video decoder,
    the image codec and the directory listing are external collaborators:
    they appear as a read-only environment [Env] of oracles.

    What the model leaves out: text is 7-bit ([str.strip] and [int()] know
    no other white space or digits); a text file is the list of its lines,
    read to its end (a file that exists and cannot be decoded is not
    represented); a path is a string and the disk is keyed by names, two
    names being two files ([same_file] and [names_are_files] say where a
    theorem depends on it); the world records which directories exist but
    no script changes them: [Path.mkdir] and [os.makedirs] (all of
    [create_dataset_structure]) are omitted and [os.listdir] is taken to
    succeed; [video.set] is taken not to raise ([seek_ok] says on which
    lines it does not); images are symbolic, only their shape is computed;
    floats are IEEE 754 binary64 as specified by [SpecFloat]. *)

From Stdlib Require Import ZArith Ascii String.
From Stdlib Require Import Floats.SpecFloat.
From stdpp Require Import base decidable option list gmap strings pretty.

Local Open Scope Z_scope.

(** ** Python built-ins used by the scripts *)

Module Py.

(** [str.isspace] restricted to 7-bit text: TAB..CR, FS..US and SPACE. *)
Definition isspace (a : ascii) : bool :=
  let n := Z.of_nat (nat_of_ascii a) in
  ((9 <=? n) && (n <=? 13)) || ((28 <=? n) && (n <=? 32)).

Fixpoint lstrip (s : string) : string :=
  match s with
  | EmptyString => EmptyString
  | String a s' => if isspace a then lstrip s' else s
  end.

Definition rstrip (s : string) : string :=
  String.rev (lstrip (String.rev s)).

(** [s.strip()] *)
Definition strip (s : string) : string := rstrip (lstrip s).

(** [s.split(sep)] for a one-character separator: never the empty list. *)
Fixpoint split_go (sep : ascii) (cur : string) (s : string) : list string :=
  match s with
  | EmptyString => [String.rev cur]
  | String a s' =>
      if Ascii.eqb a sep
      then String.rev cur :: split_go sep EmptyString s'
      else split_go sep (String a cur) s'
  end.

Definition split (sep : ascii) (s : string) : list string :=
  split_go sep EmptyString s.

Definition digit (a : ascii) : option Z := Z.of_nat <$> Ascii.is_nat a.

(** The digit part of a decimal literal accepted by [int()]: at least one
    digit, single underscores allowed between digits only.  [prev] tells
    whether the previous character was a digit. *)
Fixpoint int_digits (acc : Z) (prev : bool) (s : string) : option Z :=
  match s with
  | EmptyString => if prev then Some acc else None
  | String a s' =>
      match digit a with
      | Some d => int_digits (10 * acc + d) true s'
      | None =>
          if Ascii.eqb a "_"%char && prev
          then int_digits acc false s'
          else None
      end
  end.

(** The white space [int()] skips around a literal: TAB..CR and SPACE.
    Unlike [str.strip], [int()] does not skip FS..US. *)
Definition int_space (a : ascii) : bool :=
  let n := Z.of_nat (nat_of_ascii a) in
  ((9 <=? n) && (n <=? 13)) || (n =? 32).

Fixpoint int_lstrip (s : string) : string :=
  match s with
  | EmptyString => EmptyString
  | String a s' => if int_space a then int_lstrip s' else s
  end.

Definition int_strip (s : string) : string :=
  String.rev (int_lstrip (String.rev (int_lstrip s))).

(** [sys.get_int_max_str_digits()], at its default. *)
Definition max_str_digits : Z := 4300.

(** The number of digits in a string; leading zeros count, signs,
    underscores and white space do not. *)
Fixpoint digit_count (s : string) : Z :=
  match s with
  | EmptyString => 0
  | String a s' =>
      match digit a with
      | Some _ => 1 + digit_count s'
      | None => digit_count s'
      end
  end.

(** [int(s)] on a [str]: surrounding white space is dropped, one optional
    sign, then the digits, at most [max_str_digits] of them.  [None] stands
    for [ValueError]. *)
Definition int (s : string) : option Z :=
  if max_str_digits <? digit_count s then None
  else
    match int_strip s with
    | String "-" ds => Z.opp <$> int_digits 0 false ds
    | String "+" ds => int_digits 0 false ds
    | ds => int_digits 0 false ds
    end.

(** [s.endswith(suffix)]: some tail of [s] is [suffix]. *)
Fixpoint endswith (s suffix : string) : bool :=
  String.eqb s suffix ||
  match s with
  | EmptyString => false
  | String _ s' => endswith s' suffix
  end.

(** [c in s] for a character [c]. *)
Fixpoint contains (c : ascii) (s : string) : bool :=
  match s with
  | EmptyString => false
  | String a s' => Ascii.eqb a c || contains c s'
  end.

Definition lower_char (a : ascii) : ascii :=
  let n := nat_of_ascii a in
  if ((65 <=? n) && (n <=? 90))%nat then ascii_of_nat (n + 32) else a.

(** [s.lower()] on 7-bit text. *)
Fixpoint lower (s : string) : string :=
  match s with
  | EmptyString => EmptyString
  | String a s' => String (lower_char a) (lower s')
  end.

(** Normalisation of one bound of a slice over a sequence of length [n]:
    negative bounds count from the end, everything is clamped to [0..n]. *)
Definition slice_index (n i : Z) : Z :=
  if i <? 0 then Z.max 0 (i + n) else Z.min i n.

(** [l[start:stop]], a missing bound being [None]. *)
Definition slice {A} (l : list A) (start stop : option Z) : list A :=
  let n := Z.of_nat (length l) in
  let a := from_option (slice_index n) 0 start in
  let b := from_option (slice_index n) n stop in
  drop (Z.to_nat a) (take (Z.to_nat b) l).

(** Number of indices selected by [start:stop] over a length [n]. *)
Definition slice_len (n start stop : Z) : Z :=
  Z.max 0 (slice_index n stop - slice_index n start).

(** [os.path.join(a, *p)] (posixpath). *)
Definition join2 (path b : string) : string :=
  if String.prefix "/" b then b
  else if (String.eqb path "" || endswith path "/")%bool then path +:+ b
  else path +:+ "/" +:+ b.

Definition join (a : string) (p : list string) : string :=
  foldl join2 a p.

(** [os.path.basename(p)]: what follows the last separator. *)
Definition basename (p : string) : string :=
  List.last (split "/" p) "".

(** [os.path.splitext(p)]: the extension starts at the last dot of the last
    component, unless only dots precede it there. *)
Fixpoint all_dots (s : string) : bool :=
  match s with
  | EmptyString => true
  | String a s' => Ascii.eqb a "." && all_dots s'
  end.

Fixpoint split_last_dot (s : string) : option (string * string) :=
  match s with
  | EmptyString => None
  | String a s' =>
      match split_last_dot s' with
      | Some (root, ext) => Some (String a root, ext)
      | None => if Ascii.eqb a "." then Some (EmptyString, s) else None
      end
  end.

Definition splitext (p : string) : string * string :=
  let base := basename p in
  let dir := String.substring 0 (String.length p - String.length base) p in
  match split_last_dot base with
  | Some (root, ext) =>
      if all_dots root then (p, EmptyString) else (dir +:+ root, ext)
  | None => (p, EmptyString)
  end.

Fixpoint rstrip_char (c : ascii) (rev_s : string) : string :=
  match rev_s with
  | EmptyString => EmptyString
  | String a s' => if Ascii.eqb a c then rstrip_char c s' else rev_s
  end.

(** [os.path.dirname(p)]: what precedes the last component, without its
    trailing separators unless it consists of separators only. *)
Definition dirname (p : string) : string :=
  let head :=
    String.substring 0 (String.length p - String.length (basename p)) p in
  match rstrip_char "/" (String.rev head) with
  | EmptyString => head
  | rev_head => String.rev rev_head
  end.

(** [f"{n}"] for an [int]. *)
Definition str_of_int (n : Z) : string := pretty n.

End Py.

(** ** Images, as far as the scripts look at them

    Pixel values never influence control flow: the scripts only read the
    shape of a frame, cut a rectangle out of it and hand it to the resizer.
    An image is therefore the record of how it was obtained. *)

Inductive Interpolation := INTER_NEAREST | INTER_LINEAR | INTER_CUBIC.

Inductive Image :=
| Raw (rows cols : Z) (content : Z)
| Slice (src : Image) (y_start y_end x_start x_end : Z)
| Resized (src : Image) (dsize_w dsize_h : Z) (interp : Interpolation).

Global Instance Interpolation_eq_dec : EqDecision Interpolation.
Proof. solve_decision. Defined.

Global Instance Image_eq_dec : EqDecision Image.
Proof. solve_decision. Defined.

(** [img.shape], without the channel count: (rows, cols). *)
Fixpoint shape (img : Image) : Z * Z :=
  match img with
  | Raw rows cols _ => (Z.max 0 rows, Z.max 0 cols)
  | Slice src y0 y1 x0 x1 =>
      let '(rows, cols) := shape src in
      (Py.slice_len rows y0 y1, Py.slice_len cols x0 x1)
  | Resized _ w h _ => (h, w)
  end.

(** ** Effects: diagnostics, the disk, exceptions *)

(** One constructor per [print] of the three scripts, carrying the values
    interpolated into the message. *)
Inductive Message :=
| CannotOpenVideo (video_path : string)
| SkippingEmptyLine (line_num : Z) (annotation_path : string)
| MalformedAnnotation (line_num : Z) (annotation_path line : string)
| InvalidBoxDimensions (width height line_num : Z)
| ErrorParsingLine (line_num : Z) (annotation_path field : string)
| CannotReadFrame (frame_num : Z) (video_path : string)
| InvalidCropDimensions (frame_num : Z)
| ErrorSavingFrame (frame_num : Z)
| ErrorProcessingFrame (frame_num : Z)
| ProcessingVideos (count : Z) (video_path : string)
| AnnotationMissing (video_file annotation_file_path : string)
| ProcessingVideo (video_file annotation_file_path : string)
| FoundImages (count : Z) (directory : string)
| NoFilesNoFall
| NoFilesFall
| TrainingSet (fall no_fall : Z)
| ValidationSet (fall no_fall : Z)
| TestSet (fall no_fall : Z).

Inductive Exn :=
| ValueError | TypeError | OverflowError
| FileNotFoundError | IsADirectoryError | SameFileError | CvError.

(** The part of the outside world the scripts change or depend on: what
    was printed (oldest first), the files on disk, the names that are
    directories (every name of a directory that a run may use), the
    arguments of every [cv.imwrite] call made so far (oldest first), and
    how many numbers were drawn from the random generator. *)
Record World := mkWorld {
  stdout : list Message;
  disk : gmap string Image;
  dirs : gset string;
  imwrite_calls : list (string * Image);
  rng_calls : nat
}.

Definition world0 : World := mkWorld [] ∅ ∅ [] 0.

Definition set_stdout (out : list Message) (w : World) : World :=
  mkWorld out (disk w) (dirs w) (imwrite_calls w) (rng_calls w).
Definition set_disk (d : gmap string Image) (w : World) : World :=
  mkWorld (stdout w) d (dirs w) (imwrite_calls w) (rng_calls w).
Definition set_imwrite_calls (c : list (string * Image)) (w : World) : World :=
  mkWorld (stdout w) (disk w) (dirs w) c (rng_calls w).
Definition set_rng_calls (n : nat) (w : World) : World :=
  mkWorld (stdout w) (disk w) (dirs w) (imwrite_calls w) n.

Inductive Outcome (A : Type) :=
| Normal (a : A) (w : World)
| Raise (e : Exn) (w : World).
Arguments Normal {A} a w.
Arguments Raise {A} e w.

Definition final {A} (o : Outcome A) : World :=
  match o with Normal _ w => w | Raise _ w => w end.

Definition M (A : Type) : Type := World -> Outcome A.

Definition ret {A} (a : A) : M A := fun w => Normal a w.

Definition bind {A B} (m : M A) (k : A -> M B) : M B :=
  fun w => match m w with
           | Normal a w' => k a w'
           | Raise e w' => Raise e w'
           end.

Definition raise {A} (e : Exn) : M A := fun w => Raise e w.

(** [try: m  except Exception as e: handler e] *)
Definition try_except {A} (m : M A) (handler : Exn -> M A) : M A :=
  fun w => match m w with
           | Normal a w' => Normal a w'
           | Raise e w' => handler e w'
           end.

Definition print (msg : Message) : M unit :=
  fun w => Normal tt (set_stdout (stdout w ++ [msg]) w).

Declare Scope py_scope.
Delimit Scope py_scope with py.
Notation "x <- m ;; k" := (bind m (fun x => k))
  (at level 100, m at next level, right associativity) : py_scope.
Notation "m ;; k" := (bind m (fun _ => k))
  (at level 100, right associativity) : py_scope.
Local Open Scope py_scope.

(** [for i, x in enumerate(xs, start): locals = body(locals, i, x)] *)
Fixpoint for_enumerate {A L} (body : L -> Z -> A -> M L)
    (start : Z) (xs : list A) (locals : L) : M L :=
  match xs with
  | [] => ret locals
  | x :: xs' =>
      locals' <- body locals start x ;;
      for_enumerate body (start + 1) xs' locals'
  end.

(** [for x in xs: body(x)] *)
Fixpoint for_each {A} (body : A -> M unit) (xs : list A) : M unit :=
  match xs with
  | [] => ret tt
  | x :: xs' => body x ;; for_each body xs'
  end.

(** ** The external collaborators *)

Inductive ImwriteResult := Saved | NotSaved | ImwriteFailed.

Record Env := mkEnv {
  (** [cv.VideoCapture(path)]: [None] when [isOpened()] is false, otherwise
      what [set(CAP_PROP_POS_FRAMES, pos)] followed by [read()] yields:
      [None] for [ret = False], the decoded frame otherwise. *)
  video_capture : string -> option (Z -> option Image);
  (** The lines of a text file that is read to its end, [None] when it
      does not exist. *)
  text_file : string -> option (list string);
  (** What [cv.imwrite] does with a file name: write it, return [False], or
      raise. *)
  imwrite_result : string -> ImwriteResult;
  (** [os.listdir] of a directory that can be listed. *)
  listdir : string -> list string;
  (** [os.walk(top)], as the list of (root, filenames) it yields. *)
  walk : string -> list (string * list string);
  (** The [k]-th raw number the random generator yields. *)
  random_source : nat -> nat;
  (** Whether [cv.resize] can allocate a destination of the given width
      and height. *)
  resize_fits : Z -> Z -> bool;
  (** [os.path.samefile]: whether two names denote the same file. *)
  samefile : string -> string -> bool
}.

(** [os.path.isfile] *)
Definition isfile (env : Env) (path : string) : bool :=
  bool_decide (is_Some (text_file env path)).

(** A target size [cv.resize] accepts: positive, within a C [int], and
    small enough for the destination to be allocated. *)
Definition resizable (env : Env) (w h : Z) : bool :=
  (0 <? w) && (0 <? h) && (w <? 2 ^ 31) && (h <? 2 ^ 31)
  && resize_fits env w h.

(** [cv.resize(src, (w, h), interpolation=interp)]: fails on an empty source
    and on a target size that is not [resizable]. *)
Definition cv_resize (env : Env) (src : Image) (dsize : Z * Z)
    (interp : Interpolation) : M Image :=
  let '(rows, cols) := shape src in
  let '(w, h) := dsize in
  if (0 <? rows) && (0 <? cols) && resizable env w h
  then ret (Resized src w h interp)
  else raise CvError.

(** [cv.imwrite(path, img)] *)
Definition cv_imwrite (env : Env) (path : string) (img : Image) : M bool :=
  fun w =>
    let w' := set_imwrite_calls (imwrite_calls w ++ [(path, img)]) w in
    match imwrite_result env path with
    | Saved => Normal true (set_disk (<[path := img]> (disk w')) w')
    | NotSaved => Normal false w'
    | ImwriteFailed => Raise CvError w'
    end.

(** ** The frame extractor ([src/data.py], [src/utils.py])

    The two scripts share the body of their per-line loop from the field
    count check on; they differ in what precedes it (the two header lines in
    [data.py], the empty-line test in [utils.py]) and in the directory the
    image goes to.  The shared part is [process_annotation]; the destination
    is the parameter [save_path_for], evaluated where the scripts build
    [img_save_path], inside the [try]. *)

(** Lines 32-36 of [data.py] (25-29 of [utils.py]): the five [int()] calls of
    the [try] block, in order.  [inl field] is the [ValueError] raised on
    the first field that is not an integer literal. *)
Definition parse_record (annotations : list string)
    : string + (Z * Z * Z * Z * Z) :=
  let field i := nth i annotations EmptyString in
  match Py.int (field 0%nat) with
  | None => inl (field 0%nat)
  | Some frame_num =>
  match Py.int (field 2%nat) with
  | None => inl (field 2%nat)
  | Some x_center =>
  match Py.int (field 3%nat) with
  | None => inl (field 3%nat)
  | Some y_center =>
  match Py.int (field 4%nat) with
  | None => inl (field 4%nat)
  | Some width =>
  match Py.int (field 5%nat) with
  | None => inl (field 5%nat)
  | Some height => inr (frame_num, x_center, y_center, width, height)
  end end end end end.

(** Lines 55-59 of [data.py] (48-52 of [utils.py]):
    (x_start, y_start, x_end, y_end).  [//] is Python's floor division. *)
Definition crop_box (x_center y_center width height : Z)
    (height_frame width_frame : Z) : Z * Z * Z * Z :=
  let x_start := Z.max 0 (x_center - width `div` 2) in
  let y_start := Z.max 0 (y_center - height `div` 2) in
  let x_end := Z.min width_frame (x_center + width `div` 2) in
  let y_end := Z.min height_frame (y_center + height `div` 2) in
  (x_start, y_start, x_end, y_end).
Global Arguments crop_box : simpl never.

(** [line.strip().split(",")] *)
Definition fields_of (line : string) : list string :=
  Py.split "," (Py.strip line).

(** The image handed to [cv.imwrite] for a box on a frame: the frame cut to
    the crop box (lines 55-67), resized (line 70). *)
Definition cropped_image (frame : Image) (x_center y_center width height : Z)
    (image_size : Z) : Image :=
  let '(height_frame, width_frame) := shape frame in
  let '(x_start, y_start, x_end, y_end) :=
    crop_box x_center y_center width height height_frame width_frame in
  Resized (Slice frame y_start y_end x_start x_end)
          image_size image_size INTER_LINEAR.

(** A computation that only returns or raises. *)
Definition lift_exn {A} (r : Exn + A) : M A :=
  match r with
  | inl e => raise e
  | inr a => ret a
  end.

Section Extractor.

Variable env : Env.

(** Lines 26-79 of [data.py] and 19-68 of [utils.py].  The seek
    [video.set(cv.CAP_PROP_POS_FRAMES, frame_num - 1)] (line 48 of
    [data.py], 41 of [utils.py]) is taken to return: when [frame_num - 1]
    has no C double it raises [OverflowError] outside the [try], and the
    function below does not follow the scripts on such a line; [seek_ok]
    names the lines on which it does. *)
Definition process_annotation
    (video : Z -> option Image) (video_path annotation_path : string)
    (save_path_for : Z -> Exn + string) (image_size : Z)
    (line_num : Z) (line : string) : M unit :=
  let annotations := fields_of line in
  if (length annotations <? 6)%nat then
    print (MalformedAnnotation line_num annotation_path (Py.strip line))
  else
    match parse_record annotations with
    | inl field => print (ErrorParsingLine line_num annotation_path field)
    | inr (frame_num, x_center, y_center, width, height) =>
        if (width <=? 0) || (height <=? 0) then
          print (InvalidBoxDimensions width height line_num)
        else
          match video (frame_num - 1) with
          | None => print (CannotReadFrame frame_num video_path)
          | Some frame =>
              let '(height_frame, width_frame) := shape frame in
              let '(x_start, y_start, x_end, y_end) :=
                crop_box x_center y_center width height
                         height_frame width_frame in
              if (x_start >=? x_end) || (y_start >=? y_end) then
                print (InvalidCropDimensions frame_num)
              else
                let cropped := Slice frame y_start y_end x_start x_end in
                try_except
                  (cropped <- cv_resize env cropped (image_size, image_size)
                                INTER_LINEAR ;;
                   img_save_path <- lift_exn (save_path_for frame_num) ;;
                   saved <- cv_imwrite env img_save_path cropped ;;
                   if negb saved then print (ErrorSavingFrame frame_num)
                   else ret tt)
                  (fun _ => print (ErrorProcessingFrame frame_num))
          end
    end.

End Extractor.

Module Data.
Section DataDefs.

Variable env : Env.

(** The two locals that outlive one iteration of the loop. *)
Record Locals := mkLocals {
  fall_start_frame : option Z;
  fall_end_frame : option Z
}.

(** [fall_start_frame <= frame_num <= fall_end_frame], evaluated left to
    right; comparing with [None] raises [TypeError]. *)
Definition in_fall_interval (loc : Locals) (frame_num : Z) : Exn + bool :=
  match fall_start_frame loc with
  | None => inl TypeError
  | Some fall_start =>
      if fall_start <=? frame_num then
        match fall_end_frame loc with
        | None => inl TypeError
        | Some fall_end => inr (frame_num <=? fall_end)
        end
      else inr false
  end.

(** Lines 71-74: the file name the frame is saved under. *)
Definition img_save_path (fall_save_path no_fall_save_path : string)
    (loc : Locals) (frame_num : Z) : Exn + string :=
  match in_fall_interval loc frame_num with
  | inl e => inl e
  | inr true =>
      inr (Py.join fall_save_path [Py.str_of_int frame_num +:+ ".jpg"])
  | inr false =>
      inr (Py.join no_fall_save_path [Py.str_of_int frame_num +:+ ".jpg"])
  end.

(** The body of the [for line_num, line in enumerate(file, start=1)]
    loop. *)
Definition loop_body (video : Z -> option Image)
    (video_path annotation_path fall_save_path no_fall_save_path : string)
    (image_size : Z) (loc : Locals) (line_num : Z) (line : string)
    : M Locals :=
  if line_num =? 1 then
    match Py.int (Py.strip line) with
    | Some n => ret (mkLocals (Some n) (fall_end_frame loc))
    | None => raise ValueError
    end
  else if line_num =? 2 then
    match Py.int (Py.strip line) with
    | Some n => ret (mkLocals (fall_start_frame loc) (Some n))
    | None => raise ValueError
    end
  else
    process_annotation env video video_path annotation_path
      (img_save_path fall_save_path no_fall_save_path loc)
      image_size line_num line ;;
    ret loc.

Definition crop_frames_using_annotations
    (video_path annotation_path fall_save_path no_fall_save_path : string)
    (image_size : Z) : M unit :=
  match video_capture env video_path with
  | None => print (CannotOpenVideo video_path)
  | Some video =>
      match text_file env annotation_path with
      | None => raise FileNotFoundError
      | Some file =>
          for_enumerate
            (loop_body video video_path annotation_path fall_save_path
               no_fall_save_path image_size)
            1 file (mkLocals None None) ;;
          ret tt
      end
  end.

(** One element of [video_and_annotation_paths]. *)
Definition Room : Type := string * string * string * string.

Definition process_video (fall_save_path no_fall_save_path annotation_path
    video_path : string) (image_size : Z) (video_file : string) : M unit :=
  let video_file_path := Py.join video_path [video_file] in
  let video_name := fst (Py.splitext video_file) in
  let annotation_file_path :=
    Py.join annotation_path [video_name +:+ ".txt"] in
  if negb (isfile env annotation_file_path) then
    print (AnnotationMissing video_file annotation_file_path)
  else
    let fall_frames_save_path := Py.join fall_save_path [video_name] in
    let no_fall_frames_save_path :=
      Py.join no_fall_save_path [video_name] in
    print (ProcessingVideo video_file annotation_file_path) ;;
    crop_frames_using_annotations video_file_path annotation_file_path
      fall_frames_save_path no_fall_frames_save_path image_size.

(** Lines 83-110 of [data.py], for folders that [os.listdir] lists and
    save folders that [Path.mkdir] (lines 104-105) can make. *)
Definition process_all_rooms (video_and_annotation_paths : list Room)
    (image_size : Z) : M unit :=
  for_each
    (fun '(video_path, fall_save_path, no_fall_save_path, annotation_path) =>
       let video_files :=
         filter (fun f => Py.endswith f ".avi" = true)
                (listdir env video_path) in
       print (ProcessingVideos (Z.of_nat (length video_files)) video_path) ;;
       for_each
         (process_video fall_save_path no_fall_save_path annotation_path
            video_path image_size)
         video_files)
    video_and_annotation_paths.

End DataDefs.
End Data.

Module Utils.
Section UtilsDefs.

Variable env : Env.

(** Line 64: the file name the frame is saved under. *)
Definition img_save_path (save_path : string) (frame_num : Z)
    : Exn + string :=
  inr (Py.join save_path [Py.str_of_int frame_num +:+ ".jpg"]).

(** The body of the [for line_num, line in enumerate(file, start=1)]
    loop; there are no locals to carry over. *)
Definition loop_body (video : Z -> option Image)
    (video_path annotation_path save_path : string) (image_size : Z)
    (_ : unit) (line_num : Z) (line : string) : M unit :=
  if String.eqb (Py.strip line) "" then
    print (SkippingEmptyLine line_num annotation_path)
  else
    process_annotation env video video_path annotation_path
      (img_save_path save_path) image_size line_num line.

Definition crop_frames_using_annotations
    (video_path annotation_path save_path : string) (image_size : Z)
    : M unit :=
  match video_capture env video_path with
  | None => print (CannotOpenVideo video_path)
  | Some video =>
      match text_file env annotation_path with
      | None => raise FileNotFoundError
      | Some file =>
          for_enumerate
            (loop_body video video_path annotation_path save_path
               image_size)
            1 file tt
      end
  end.

Definition process_video (frame_save_path annotation_path video_path
    : string) (image_size : Z) (video_file : string) : M unit :=
  let video_file_path := Py.join video_path [video_file] in
  let video_name := fst (Py.splitext video_file) in
  let annotation_file_path :=
    Py.join annotation_path [video_name +:+ ".txt"] in
  if negb (isfile env annotation_file_path) then
    print (AnnotationMissing video_file annotation_file_path)
  else
    let rgb_save_path := Py.join frame_save_path [video_name] in
    print (ProcessingVideo video_file annotation_file_path) ;;
    crop_frames_using_annotations video_file_path annotation_file_path
      rgb_save_path image_size.

(** Lines 71-100 of [utils.py], for folders that [os.listdir] lists and
    save folders that [Path.mkdir] (line 95) can make. *)
Definition process_all_rooms
    (video_and_annotation_paths : list (string * string))
    (image_size : Z) : M unit :=
  for_each
    (fun '(video_path, frame_save_path) =>
       let annotation_path :=
         Py.join (Py.dirname video_path) ["Annotation_files"] in
       let video_files :=
         filter (fun f => Py.endswith f ".avi" = true)
                (listdir env video_path) in
       print (ProcessingVideos (Z.of_nat (length video_files)) video_path) ;;
       for_each
         (process_video frame_save_path annotation_path video_path
            image_size)
         video_files)
    video_and_annotation_paths.

End UtilsDefs.
End Utils.

(** ** Python [float]: IEEE 754 binary64, round to nearest even *)

Module Float.

Definition prec : Z := 53.
Definition emax : Z := 1024.

(** [float(n)] for an [int]; [None] stands for [OverflowError]. *)
Definition of_int (n : Z) : option spec_float :=
  match binary_normalize prec emax n 0 false with
  | S754_infinity _ => None
  | f => Some f
  end.

(** [x * y] on two floats. *)
Definition mul (x y : spec_float) : spec_float := SFmul prec emax x y.

(** [int(x)]: truncation toward zero. *)
Definition to_int (x : spec_float) : Exn + Z :=
  match x with
  | S754_zero _ => inr 0
  | S754_infinity _ => inl OverflowError
  | S754_nan => inl ValueError
  | S754_finite s m e =>
      let magnitude :=
        if 0 <=? e then Z.pos m * 2 ^ e else Z.pos m `div` 2 ^ (- e) in
      inr (if s then - magnitude else magnitude)
  end.

(** [math.floor(x)], for comparison with [int(x)]. *)
Definition floor (x : spec_float) : Exn + Z :=
  match x with
  | S754_zero _ => inr 0
  | S754_infinity _ => inl OverflowError
  | S754_nan => inl ValueError
  | S754_finite s m e =>
      let signed := if s then Z.neg m else Z.pos m in
      inr (if 0 <=? e then signed * 2 ^ e else signed `div` 2 ^ (- e))
  end.

(** The literals [0.7], [0.15], [0.8] and [0.5]. *)
Definition f0_7 : spec_float := S754_finite false 6305039478318694 (-53).
Definition f0_15 : spec_float := S754_finite false 5404319552844595 (-55).
Definition f0_8 : spec_float := S754_finite false 7205759403792794 (-53).
Definition f0_5 : spec_float := S754_finite false 4503599627370496 (-53).

End Float.

(** ** The splitter ([src/u1.py]) *)

Module U1.
Section U1Defs.

Variable env : Env.

(** [self._randbelow(n)] *)
Definition randbelow (n : nat) : M nat :=
  fun w =>
    Normal (random_source env (rng_calls w) `mod` n)%nat
           (set_rng_calls (S (rng_calls w)) w).

(** [x[i], x[j] = x[j], x[i]] *)
Definition swap {A} (x : list A) (i j : nat) : list A :=
  match x !! i, x !! j with
  | Some xi, Some xj => <[j := xi]> (<[i := xj]> x)
  | _, _ => x
  end.

(** [random.shuffle(x)]:
    [for i in reversed(range(1, len(x))): j = randbelow(i + 1); swap]. *)
Fixpoint shuffle_from {A} (i : nat) (x : list A) : M (list A) :=
  match i with
  | O => ret x
  | S i' =>
      j <- randbelow (i + 1) ;;
      shuffle_from i' (swap x i j)
  end.

Definition shuffle {A} (x : list A) : M (list A) :=
  shuffle_from (length x - 1) x.

(** Whether the directory [d] exists; the empty name stands for the
    current directory. *)
Definition isdir (w : World) (d : string) : bool :=
  String.eqb d "" || bool_decide (d ∈ dirs w).

(** [shutil.copy(src, dst)]: into [dst] when it is a directory, else to the
    file [dst], whose directory has to exist.  Files are told apart by
    name here; [same_file] and [names_are_files] carry the case of two
    names of one file.  A file that exists can be read, and a file can be
    written where its directory exists. *)
Definition shutil_copy (src dst : string) : M unit :=
  fun w =>
    let target :=
      if bool_decide (dst ∈ dirs w) then Py.join dst [Py.basename src]
      else dst in
    if bool_decide (src ∈ dirs w) then Raise IsADirectoryError w
    else
      match disk w !! src with
      | None => Raise FileNotFoundError w
      | Some content =>
          if decide (src = target) then Raise SameFileError w
          else if bool_decide (target ∈ dirs w)
          then Raise IsADirectoryError w
          else if bool_decide (dst ∈ dirs w) || isdir w (Py.dirname target)
          then Normal tt (set_disk (<[target := content]> (disk w)) w)
          else Raise FileNotFoundError w
      end.

Definition extensions : list string := [".jpg"; ".png"].

Definition has_extension (file : string) : bool :=
  existsb (Py.endswith (Py.lower file)) extensions.

(** What one directory adds to [files]. *)
Definition images_under (directory : string) : list string :=
  '(root, filenames) ← walk env directory;
  file ← filter (fun file => has_extension file = true) filenames;
  [Py.join root [file]].

Fixpoint collect_into (files : list string) (directories : list string)
    : M (list string) :=
  match directories with
  | [] => ret files
  | directory :: rest =>
      let files := files ++ images_under directory in
      print (FoundImages (Z.of_nat (length files)) directory) ;;
      collect_into files rest
  end.

Definition collect_images_from_dirs (directories : list string)
    : M (list string) :=
  collect_into [] directories.

(** [int(ratio * total)]; [inl] is the exception it raises. *)
Definition count_of (ratio : spec_float) (total : Z) : Exn + Z :=
  match Float.of_int total with
  | None => inl OverflowError
  | Some t => Float.to_int (Float.mul ratio t)
  end.

(** The three slices taken of one label's list. *)
Definition train_slice {A} (files : list A) (train : Z) : list A :=
  Py.slice files None (Some train).
Definition val_slice {A} (files : list A) (train val : Z) : list A :=
  Py.slice files (Some train) (Some (train + val)).
Definition test_slice {A} (files : list A) (train val : Z) : list A :=
  Py.slice files (Some (train + val)) None.

(** The splits and the categories of [create_dataset_structure], which are
    those of the six copy loops. *)
Definition splits : list string := ["train"; "val"; "test"].
Definition categories : list string := ["fall"; "no_fall"].

(** The file a copy goes to. *)
Definition destination (dest_base_dir split label file : string) : string :=
  Py.join dest_base_dir [split; label; Py.basename file].

(** One of the six copy loops. *)
Definition copy_all (dest_base_dir split label : string)
    (files : list string) : M unit :=
  for_each
    (fun file =>
       shutil_copy file (destination dest_base_dir split label file))
    files.

Definition len {A} (l : list A) : Z := Z.of_nat (length l).

(** Lines 61-103 of [split_data]: the sizes, the slices, the three
    summary lines and the six copy loops, on the two shuffled lists. *)
Definition split_and_copy (dest_base_dir : string)
    (train_ratio val_ratio : spec_float)
    (fall_files no_fall_files : list string) : M unit :=
  let total_fall := len fall_files in
  let total_no_fall := len no_fall_files in
  train_fall <- lift_exn (count_of train_ratio total_fall) ;;
  val_fall <- lift_exn (count_of val_ratio total_fall) ;;
  train_no_fall <- lift_exn (count_of train_ratio total_no_fall) ;;
  val_no_fall <- lift_exn (count_of val_ratio total_no_fall) ;;
  let train_fall_files := train_slice fall_files train_fall in
  let val_fall_files := val_slice fall_files train_fall val_fall in
  let test_fall_files := test_slice fall_files train_fall val_fall in
  let train_no_fall_files := train_slice no_fall_files train_no_fall in
  let val_no_fall_files :=
    val_slice no_fall_files train_no_fall val_no_fall in
  let test_no_fall_files :=
    test_slice no_fall_files train_no_fall val_no_fall in
  print (TrainingSet (len train_fall_files) (len train_no_fall_files)) ;;
  print (ValidationSet (len val_fall_files) (len val_no_fall_files)) ;;
  print (TestSet (len test_fall_files) (len test_no_fall_files)) ;;
  copy_all dest_base_dir "train" "fall" train_fall_files ;;
  copy_all dest_base_dir "val" "fall" val_fall_files ;;
  copy_all dest_base_dir "test" "fall" test_fall_files ;;
  copy_all dest_base_dir "train" "no_fall" train_no_fall_files ;;
  copy_all dest_base_dir "val" "no_fall" val_no_fall_files ;;
  copy_all dest_base_dir "test" "no_fall" test_no_fall_files.

Definition split_data (source_fall_dirs source_no_fall_dirs : list string)
    (dest_base_dir : string) (train_ratio val_ratio : spec_float)
    : M unit :=
  fall_files <- collect_images_from_dirs source_fall_dirs ;;
  no_fall_files <- collect_images_from_dirs source_no_fall_dirs ;;
  if len no_fall_files =? 0 then print NoFilesNoFall
  else if len fall_files =? 0 then print NoFilesFall
  else
    fall_files <- shuffle fall_files ;;
    no_fall_files <- shuffle no_fall_files ;;
    split_and_copy dest_base_dir train_ratio val_ratio
      fall_files no_fall_files.

End U1Defs.
End U1.

(** ** Notions used to state the properties *)

(** The [cv.imwrite] calls made between two states of the world. *)
Definition calls_since (w w' : World) : list (string * Image) :=
  drop (length (imwrite_calls w)) (imwrite_calls w').

(** The messages printed between two states of the world. *)
Definition printed_since (w w' : World) : list Message :=
  drop (length (stdout w)) (stdout w').

(** The frame number a record line carries in its first field. *)
Definition frame_number (line : string) : option Z :=
  Py.int (nth 0 (fields_of line) EmptyString).

(** A valid annotation record: at least six fields, the five used ones
    integers, width and height positive. *)
Definition valid_record (line : string) : option (Z * Z * Z * Z * Z) :=
  if (length (fields_of line) <? 6)%nat then None
  else match parse_record (fields_of line) with
       | inr (frame_num, x_center, y_center, width, height) =>
           if (width <=? 0) || (height <=? 0) then None
           else Some (frame_num, x_center, y_center, width, height)
       | inl _ => None
       end.

(** The crop box is not empty. *)
Definition proper_box (frame : Image) (x_center y_center width height : Z)
    : bool :=
  let '(height_frame, width_frame) := shape frame in
  let '(x_start, y_start, x_end, y_end) :=
    crop_box x_center y_center width height height_frame width_frame in
  negb ((x_start >=? x_end) || (y_start >=? y_end)).

(** The crop box as the specification words it, [/] truncating toward
    zero. *)
Definition spec_crop_box (center_x center_y width height : Z)
    (frame_height frame_width : Z) : Z * Z * Z * Z :=
  (Z.max 0 (center_x - width ÷ 2),
   Z.max 0 (center_y - height ÷ 2),
   Z.min frame_width (center_x + width ÷ 2),
   Z.min frame_height (center_y + height ÷ 2)).

(** The world after the lines [xs], numbered from [start], when each line
    changes the world by [step]. *)
Fixpoint steps (step : Z -> string -> World -> World)
    (start : Z) (xs : list string) (w : World) : World :=
  match xs with
  | [] => w
  | x :: xs' => steps step (start + 1) xs' (step start x w)
  end.

(** The paths [collect_images_from_dirs] returns. *)
Definition found_images (env : Env) (directories : list string)
    : list string :=
  directories ≫= U1.images_under env.

(** A float that is not negative: a zero, a NaN, or a number or infinity
    without the sign. *)
Definition nonneg (x : spec_float) : bool :=
  match x with
  | S754_zero _ => true
  | S754_finite s _ _ => negb s
  | S754_infinity s => negb s
  | S754_nan => true
  end.

(** [math.floor(ratio * total)], as the specification words the sizes. *)
Definition spec_count (ratio : spec_float) (total : Z) : Exn + Z :=
  match Float.of_int total with
  | None => inl OverflowError
  | Some t => Float.floor (Float.mul ratio t)
  end.

(** What a record line can do to the world.  It never raises; either it
    prints one diagnostic and does nothing else, or the record is valid, its
    frame was read, its box is proper, the resize succeeded and exactly one
    [cv.imwrite] call was made, whose outcome decides between a new file, the
    save-error message and the processing-error message. *)
Definition skipped (w w' : World) : Prop :=
  exists msg, w' = set_stdout (stdout w ++ [msg]) w.

Definition wrote (env : Env) (frame_num : Z) (path : string) (img : Image)
    (w w' : World) : Prop :=
  let wc := set_imwrite_calls (imwrite_calls w ++ [(path, img)]) w in
  match imwrite_result env path with
  | Saved => w' = set_disk (<[path := img]> (disk w)) wc
  | NotSaved => w' = set_stdout (stdout w ++ [ErrorSavingFrame frame_num]) wc
  | ImwriteFailed =>
      w' = set_stdout (stdout w ++ [ErrorProcessingFrame frame_num]) wc
  end.

Definition record_outcome (env : Env) (video : Z -> option Image)
    (save_path_for : Z -> Exn + string) (image_size : Z) (line : string)
    (w w' : World) : Prop :=
  skipped w w'
  \/ exists frame_num x_center y_center width height frame path,
       valid_record line = Some (frame_num, x_center, y_center, width, height)
       /\ video (frame_num - 1) = Some frame
       /\ proper_box frame x_center y_center width height = true
       /\ 0 < image_size
       /\ save_path_for frame_num = inr path
       /\ wrote env frame_num path
            (cropped_image frame x_center y_center width height image_size)
            w w'.

(** An image that comes out of [cv.resize(_, (image_size, image_size),
    interpolation=cv.INTER_LINEAR)], hence of that size. *)
Definition resized_to (image_size : Z) (img : Image) : Prop :=
  shape img = (image_size, image_size)
  /\ exists src, img = Resized src image_size image_size INTER_LINEAR.

(** Between [w] and [w'] the [cv.imwrite] calls only grew, by calls whose
    image satisfies [P], and every file of the disk is either as it was or
    holds such an image. *)
Definition grows (P : Image -> Prop) (w w' : World) : Prop :=
  (exists new, imwrite_calls w' = imwrite_calls w ++ new
               /\ Forall (fun call => P call.2) new)
  /\ (forall path img, disk w' !! path = Some img ->
                       disk w !! path = Some img \/ P img).

(** Every image written between [w] and [w'] is [image_size] by
    [image_size]: those handed to [cv.imwrite], and those found in a file
    that is new or changed. *)
Definition writes_resized (image_size : Z) (w w' : World) : Prop :=
  (forall path img, (path, img) ∈ calls_since w w' ->
                    resized_to image_size img)
  /\ (forall path img, disk w' !! path = Some img ->
                       disk w !! path = Some img \/ resized_to image_size img).

(** The world after one iteration of the loop of [data.py], with the fall
    interval already read, and of the loop of [utils.py]. *)
Definition data_line (env : Env) (video : Z -> option Image)
    (video_path annotation_path fall_save_path no_fall_save_path : string)
    (image_size fall_start fall_end : Z)
    (line_num : Z) (line : string) (w : World) : World :=
  final (Data.loop_body env video video_path annotation_path fall_save_path
           no_fall_save_path image_size
           (Data.mkLocals (Some fall_start) (Some fall_end)) line_num line w).

Definition utils_line (env : Env) (video : Z -> option Image)
    (video_path annotation_path save_path : string) (image_size : Z)
    (line_num : Z) (line : string) (w : World) : World :=
  final (Utils.loop_body env video video_path annotation_path save_path
           image_size tt line_num line w).

(** Nothing was printed between [w] and [w']. *)
Definition same_stdout (w w' : World) : Prop := stdout w' = stdout w.

(** The three slices of [files] cut at [train] and [train + val] have
    exactly [train], [val] and the remaining number of elements, and are
    [files] cut in three. *)
Definition exact_cut (files : list string) (train val : Z) : Prop :=
  U1.len (U1.train_slice files train) = train
  /\ U1.len (U1.val_slice files train val) = val
  /\ U1.len (U1.test_slice files train val) = U1.len files - train - val
  /\ U1.len (U1.train_slice files train)
     + U1.len (U1.val_slice files train val)
     + U1.len (U1.test_slice files train val) = U1.len files
  /\ U1.train_slice files train ++ U1.val_slice files train val
       ++ U1.test_slice files train val = files.

(** The files [files] are on the disk of [w'] what they are on the disk of
    [w]: present with the same content, or absent. *)
Definition keeps (files : list string) (w w' : World) : Prop :=
  forall f, f ∈ files -> disk w' !! f = disk w !! f.

(** ** A small world to run the scripts on *)

(** Thirty frames of 480 rows by 640 columns. *)
Definition demo_video (pos : Z) : option Image :=
  if (0 <=? pos) && (pos <? 30) then Some (Raw 480 640 pos) else None.

(** An annotation file: fall interval 10..20, then a record inside the
    interval, a record of width 0, a second record for frame 15, a record
    outside the interval and a box that lies right of the frame. *)
Definition demo_annotations : list string :=
  ["10"; "20";
   "15,0,100,100,50,60";
   "5,0,100,100,0,60";
   "15,1,300,200,80,90";
   "25,0,100,100,50,60";
   "7,0,700,100,50,60"].

Definition demo_env : Env := {|
  video_capture p :=
    if String.eqb p "videos/a.avi" then Some demo_video else None;
  text_file p :=
    if String.eqb p "ann/a.txt" then Some demo_annotations else None;
  imwrite_result _ := Saved;
  listdir d := if String.eqb d "videos/" then ["a.avi"; "b.avi"] else [];
  walk d :=
    if String.eqb d "falls" then [("falls/a", ["15.jpg"; "16.jpg"; "notes.txt"]);
                                  ("falls/b", ["15.jpg"; "17.PNG"])]
    else if String.eqb d "walks" then [("walks/a", ["25.jpg"; "26.jpg"])]
    else [];
  random_source k := k;
  resize_fits _ _ := true;
  samefile := String.eqb
|}.

(** The disk the splitter of [demo_env] starts from. *)
Definition demo_disk : gmap string Image :=
  list_to_map
    [("falls/a/15.jpg", Raw 224 224 1); ("falls/a/16.jpg", Raw 224 224 2);
     ("falls/b/15.jpg", Raw 224 224 3); ("falls/b/17.PNG", Raw 224 224 4);
     ("walks/a/25.jpg", Raw 224 224 5); ("walks/a/26.jpg", Raw 224 224 6)].

(** The six folders of the destination tree [out]. *)
Definition demo_dirs : gset string :=
  list_to_set
    ["out/train/fall"; "out/train/no_fall"; "out/val/fall"; "out/val/no_fall";
     "out/test/fall"; "out/test/no_fall"].

Definition demo_world : World := mkWorld [] demo_disk demo_dirs [] 0.

(** Two videos; the annotation file of the first starts with a line that is
    no integer, that of the second is [demo_annotations]. *)
Definition bad_header_env : Env := {|
  video_capture _ := Some demo_video;
  text_file p :=
    if String.eqb p "ann/a.txt" then Some ["abc"; "20"; "15,0,100,100,50,60"]
    else if String.eqb p "ann/b.txt" then Some demo_annotations
    else None;
  imwrite_result _ := Saved;
  listdir d := if String.eqb d "videos/" then ["a.avi"; "b.avi"] else [];
  walk _ := [];
  random_source k := k;
  resize_fits _ _ := true;
  samefile := String.eqb
|}.

(** A source directory that lies inside the destination tree: a second run
    over the output of a first one. *)
Definition overlap_env : Env := {|
  video_capture _ := None;
  text_file _ := None;
  imwrite_result _ := Saved;
  listdir _ := [];
  walk d :=
    if String.eqb d "x" then [("x", ["a.jpg"])]
    else if String.eqb d "out/train/fall" then [("out/train/fall", ["a.jpg"])]
    else if String.eqb d "y" then [("y", ["b.jpg"])]
    else [];
  random_source _ := 1%nat;
  resize_fits _ _ := true;
  samefile := String.eqb
|}.

Definition overlap_world : World :=
  mkWorld []
    (list_to_map
       [("x/a.jpg", Raw 224 224 1); ("out/train/fall/a.jpg", Raw 224 224 2);
        ("y/b.jpg", Raw 224 224 3)])
    demo_dirs [] 0.

(** ** The inputs on which the embedding follows the scripts

    Where the embedding is coarser than the scripts, the inputs on which
    the two agree are preconditions of the theorems about whole runs. *)

(** [video.set(cv.CAP_PROP_POS_FRAMES, frame_num - 1)] converts the position
    to a C double and raises [OverflowError], outside every [try], when the
    position is beyond its range.  [process_annotation] takes the call to
    succeed.  It is reached by the valid records only: a line is fine when
    it is no valid record or its position is in range. *)
Definition seek_ok (line : string) : bool :=
  match valid_record line with
  | Some (frame_num, _, _, _, _) =>
      bool_decide (is_Some (Float.of_int (frame_num - 1)))
  | None => true
  end.


(** The same file: the same name, or two names of one file. *)
Definition same_file (env : Env) (a b : string) : Prop :=
  a = b \/ samefile env a b = true.

(** The disk of the model is keyed by names.  Among [paths] a name is a
    file: two of them that are the same file are the same name. *)
Definition names_are_files (env : Env) (paths : list string) : Prop :=
  forall a b, a ∈ paths -> b ∈ paths -> same_file env a b -> a = b.

(** Where the splitter may copy files of [files] to. *)
Definition destinations (dest_base_dir : string) (files : list string)
    : list string :=
  split ← U1.splits;
  label ← U1.categories;
  U1.destination dest_base_dir split label <$> files.

(** The copy of [src] to the file [dst] can be made: neither is a
    directory, and the directory of [dst] exists. *)
Definition copy_ready (w : World) (src dst : string) : Prop :=
  (src ∉ dirs w) /\ (dst ∉ dirs w) /\ U1.isdir w (Py.dirname dst) = true.

(** ** Notions used for the further properties *)

(** The header of an annotation file, as far as it is there, holds
    integers: lines 1 and 2 of [data.py] do not raise. *)
Definition header_ok (file : list string) : bool :=
  match file with
  | [] => true
  | head1 :: rest =>
      bool_decide (is_Some (Py.int (Py.strip head1)))
      && match rest with
         | [] => true
         | head2 :: _ => bool_decide (is_Some (Py.int (Py.strip head2)))
         end
  end.

(** The lines [collect_images_from_dirs] prints: for each directory the
    length of [files] so far, the images of earlier directories included
    ([n] are those collected before). *)
Fixpoint found_lines (env : Env) (n : nat) (directories : list string)
    : list Message :=
  match directories with
  | [] => []
  | directory :: rest =>
      let n := (n + length (U1.images_under env directory))%nat in
      FoundImages (Z.of_nat n) directory :: found_lines env n rest
  end.

(** Between [w] and [w'] files were written under names that satisfy [P]
    only: the new [cv.imwrite] calls have such names, and every other file
    is what it was. *)
Definition touches (P : string -> Prop) (w w' : World) : Prop :=
  (exists new, imwrite_calls w' = imwrite_calls w ++ new
               /\ Forall (fun call => P call.1) new)
  /\ (forall path, ~ P path -> disk w' !! path = disk w !! path).

(** The file [{frame_num}.jpg] of the directory [save_path], for some
    frame number. *)
Definition frame_file (save_path path : string) : Prop :=
  exists frame_num : Z,
    path = Py.join save_path [Py.str_of_int frame_num +:+ ".jpg"].

(** A frame file of the directory [{save_path}/{video_name}], for some
    [.avi] file of the listing whose name without extension is
    [video_name]. *)
Definition frame_file_of (env : Env) (video_path save_path path : string)
    : Prop :=
  exists video_file,
    video_file ∈ listdir env video_path
    /\ Py.endswith video_file ".avi" = true
    /\ frame_file (Py.join save_path [fst (Py.splitext video_file)]) path.

(** What a record line puts on the disk, if anything: the file name and the
    image.  [None] for a line that is skipped and for an image that is not
    saved. *)
Definition record_write (env : Env) (video : Z -> option Image)
    (save_path_for : Z -> Exn + string) (image_size : Z) (line : string)
    : option (string * Image) :=
  match valid_record line with
  | Some (frame_num, x_center, y_center, width, height) =>
      match video (frame_num - 1), save_path_for frame_num with
      | Some frame, inr path =>
          if proper_box frame x_center y_center width height
             && resizable env image_size image_size
          then match imwrite_result env path with
               | Saved =>
                   Some (path, cropped_image frame x_center y_center width
                                 height image_size)
               | _ => None
               end
          else None
      | _, _ => None
      end
  | None => None
  end.

Definition apply_write (write : option (string * Image))
    (d : gmap string Image) : gmap string Image :=
  match write with
  | Some (path, img) => <[path := img]> d
  | None => d
  end.

(** The disk after the writes of the lines [lines], in order. *)
Definition apply_writes (write : string -> option (string * Image))
    (lines : list string) (d : gmap string Image) : gmap string Image :=
  foldl (fun d line => apply_write (write line) d) d lines.

(** The folder [data.py] saves the frame of a record line in, with the
    fall interval read from the header. *)
Definition selected_folder (fall_save_path no_fall_save_path : string)
    (fall_start fall_end : Z) (line : string) : string :=
  match frame_number line with
  | Some frame_num =>
      if (fall_start <=? frame_num) && (frame_num <=? fall_end)
      then fall_save_path else no_fall_save_path
  | None => no_fall_save_path
  end.

(** Two annotation files for one video that hold the same lines in another
    order. *)
Definition reordered_env : Env := {|
  video_capture p :=
    if String.eqb p "videos/a.avi" then Some demo_video else None;
  text_file p :=
    if String.eqb p "ann/a.txt"
    then Some ["15,0,100,100,50,60"; "25,0,100,100,50,60"; "7,0,700,100,50,60"]
    else if String.eqb p "ann/b.txt"
    then Some ["25,0,100,100,50,60"; "15,0,100,100,50,60"; "7,0,700,100,50,60"]
    else None;
  imwrite_result _ := Saved;
  listdir _ := [];
  walk _ := [];
  random_source k := k;
  resize_fits _ _ := true;
  samefile := String.eqb
|}.

(** The slice of [files] that goes to the folder [split]. *)
Definition slice_of {A} (files : list A) (train val : Z) (split : string)
    : list A :=
  if String.eqb split "train" then U1.train_slice files train
  else if String.eqb split "val" then U1.val_slice files train val
  else U1.test_slice files train val.

(** The copies of the six loops of [split_data], in order: source and
    destination. *)
Definition copy_pairs (dest_base_dir : string)
    (fall_files no_fall_files : list string)
    (train_fall val_fall train_no_fall val_no_fall : Z)
    : list (string * string) :=
  '(label, files, train, val) ←
    [("fall", fall_files, train_fall, val_fall);
     ("no_fall", no_fall_files, train_no_fall, val_no_fall)];
  split ← U1.splits;
  (fun file => (file, U1.destination dest_base_dir split label file))
    <$> slice_of files train val split.

(** Source folders whose images have pairwise distinct names, and the disk
    that holds them. *)
Definition tidy_env : Env := {|
  video_capture _ := None;
  text_file _ := None;
  imwrite_result _ := Saved;
  listdir _ := [];
  walk d :=
    if String.eqb d "falls" then [("falls/a", ["15.jpg"; "16.jpg"; "notes.txt"]);
                                  ("falls/b", ["17.PNG"])]
    else if String.eqb d "walks" then [("walks/a", ["25.jpg"; "26.jpg"])]
    else [];
  random_source k := k;
  resize_fits _ _ := true;
  samefile := String.eqb
|}.

Definition tidy_world : World :=
  mkWorld []
    (list_to_map
       [("falls/a/15.jpg", Raw 224 224 1); ("falls/a/16.jpg", Raw 224 224 2);
        ("falls/b/17.PNG", Raw 224 224 4); ("walks/a/25.jpg", Raw 224 224 5);
        ("walks/a/26.jpg", Raw 224 224 6)])
    demo_dirs [] 0.

(** * Properties *)

(** ** The built-ins and the scripts on concrete inputs *)

Example strip_ex : Py.strip "  15,0 ,1
" = "15,0 ,1".
Proof. reflexivity. Qed.

(** [str.strip] drops a trailing US (0x1F), [int()] does not accept it. *)
Example int_space_ex :
  let field := "15" +:+ String (ascii_of_nat 31) EmptyString in
  Py.strip field = "15" /\ Py.int field = None
  /\ Py.int (String (ascii_of_nat 11) "15 ") = Some 15.
Proof. vm_compute. repeat split; reflexivity. Qed.

Example split_ex : Py.split "," "15,0,,100" = ["15"; "0"; ""; "100"].
Proof. reflexivity. Qed.

Example split_empty_ex : Py.split "," "" = [""].
Proof. reflexivity. Qed.

Example int_ex :
  Py.int " -1_5 " = Some (-15) /\ Py.int "+7" = Some 7 /\ Py.int "007" = Some 7
  /\ Py.int "" = None /\ Py.int "1__0" = None /\ Py.int "1_" = None
  /\ Py.int "- 5" = None /\ Py.int "abc" = None /\ Py.int "1.5" = None.
Proof. repeat split; reflexivity. Qed.

Example join_ex :
  Py.join "out" ["train"; "fall"; "3.jpg"] = "out/train/fall/3.jpg"
  /\ Py.join "a/" ["3.jpg"] = "a/3.jpg" /\ Py.join "" ["3.jpg"] = "3.jpg".
Proof. repeat split; reflexivity. Qed.

Example splitext_ex :
  Py.splitext "video (1).avi" = ("video (1)", ".avi")
  /\ Py.splitext ".avi" = (".avi", "") /\ Py.splitext "a.b/c" = ("a.b/c", "")
  /\ Py.splitext "d/..x.avi" = ("d/..x", ".avi").
Proof. repeat split; reflexivity. Qed.

Example slice_ex :
  Py.slice [1;2;3;4;5] None (Some 2) = [1;2]
  /\ Py.slice [1;2;3;4;5] (Some 2) (Some 9) = [3;4;5]
  /\ Py.slice [1;2;3;4;5] (Some (-1)) (Some 2) = []
  /\ Py.slice [1;2;3;4;5] None (Some (-1)) = [1;2;3;4].
Proof. repeat split; reflexivity. Qed.

Example endswith_ex :
  Py.endswith "a.avi" ".avi" = true /\ Py.endswith "a.txt" ".avi" = false
  /\ Py.endswith (Py.lower "17.PNG") ".png" = true
  /\ Py.endswith "abc" "" = true.
Proof. repeat split; reflexivity. Qed.

Example dirname_ex :
  Py.dirname "datasets/FDD/Videos/" = "datasets/FDD/Videos"
  /\ Py.dirname "a/b" = "a" /\ Py.dirname "/a" = "/" /\ Py.dirname "a" = "".
Proof. repeat split; reflexivity. Qed.

Example float_ex :
  U1.count_of Float.f0_7 10 = inr 7 /\ U1.count_of Float.f0_7 3 = inr 2
  /\ U1.count_of Float.f0_15 10 = inr 1 /\ U1.count_of Float.f0_15 20 = inr 3.
Proof. vm_compute. repeat split; reflexivity. Qed.

(** The batch driver of [data.py] on [demo_env]: one video with its
    annotation file, one without. *)
Example demo_batch :
  let w := final (Data.process_all_rooms demo_env
                    [("videos/", "out/fall/", "out/no_fall/", "ann/")]
                    224 world0) in
  stdout w = [ProcessingVideos 2 "videos/";
              ProcessingVideo "a.avi" "ann/a.txt";
              InvalidBoxDimensions 0 60 4; InvalidCropDimensions 7;
              AnnotationMissing "b.avi" "ann/b.txt"]
  /\ fst <$> imwrite_calls w
     = ["out/fall/a/15.jpg"; "out/fall/a/15.jpg"; "out/no_fall/a/25.jpg"]
  /\ disk w !! "out/fall/a/15.jpg"
     = Some (Resized (Slice (Raw 480 640 14) 155 245 260 340) 224 224
               INTER_LINEAR).
Proof. vm_compute. repeat split; reflexivity. Qed.

(** The splitter on [demo_env] with the default ratios: the two files named
    [15.jpg] meet in one group and one destination. *)
Example demo_split :
  let o := U1.split_data demo_env ["falls"] ["walks"] "out" Float.f0_7
             Float.f0_15 demo_world in
  stdout (final o) = [FoundImages 4 "falls"; FoundImages 2 "walks";
                      TrainingSet 2 1; ValidationSet 0 0; TestSet 2 1]
  /\ disk (final o) !! "out/train/fall/15.jpg" = Some (Raw 224 224 3)
  /\ disk (final o) !! "out/test/fall/15.jpg" = Some (Raw 224 224 1)
  /\ disk (final o) !! "falls/a/15.jpg" = Some (Raw 224 224 1).
Proof. vm_compute. repeat split; reflexivity. Qed.


(** ** The monad *)

Lemma print_eq msg w :
  print msg w = Normal tt (set_stdout (stdout w ++ [msg]) w).
Proof. reflexivity. Qed.

Lemma bind_normal {A B} (m : M A) (k : A -> M B) w a w' :
  m w = Normal a w' -> bind m k w = k a w'.
Proof. unfold bind. by intros ->. Qed.

Lemma bind_raise {A B} (m : M A) (k : A -> M B) w e w' :
  m w = Raise e w' -> bind m k w = Raise e w'.
Proof. unfold bind. by intros ->. Qed.

(** ** One annotation line *)

Lemma resizable_pos env w h : resizable env w h = true -> 0 < w /\ 0 < h.
Proof.
  unfold resizable. rewrite !andb_true_iff. intros [[[[?%Z.ltb_lt ?%Z.ltb_lt] _] _] _].
  done.
Qed.

Lemma process_annotation_inv env video video_path annotation_path
    save_path_for image_size line_num line w :
  exists w',
    process_annotation env video video_path annotation_path save_path_for
      image_size line_num line w = Normal tt w'
    /\ record_outcome env video save_path_for image_size line w w'.
Proof.
  unfold record_outcome, process_annotation, valid_record, skipped.
  destruct (length (fields_of line) <? 6)%nat eqn:Hlen.
  { eexists; split; [apply print_eq|]. left; by eexists. }
  destruct (parse_record (fields_of line))
    as [bad|[[[[frame_num x_center] y_center] width] height]] eqn:Hparse.
  { eexists; split; [apply print_eq|]. left; by eexists. }
  destruct ((width <=? 0) || (height <=? 0)) eqn:Hdim.
  { eexists; split; [apply print_eq|]. left; by eexists. }
  destruct (video (frame_num - 1)) as [frame|] eqn:Hvideo.
  2:{ eexists; split; [apply print_eq|]. left; by eexists. }
  destruct (shape frame) as [height_frame width_frame] eqn:Hshape.
  destruct (crop_box x_center y_center width height height_frame width_frame)
    as [[[x_start y_start] x_end] y_end] eqn:Hbox.
  destruct ((x_start >=? x_end) || (y_start >=? y_end)) eqn:Hdeg.
  { eexists; split; [apply print_eq|]. left; by eexists. }
  unfold try_except, bind, cv_resize. cbn [shape]. rewrite Hshape.
  destruct (_ && _ && resizable env image_size image_size) eqn:Hsize.
  2:{ eexists; split; [reflexivity|]. left; by eexists. }
  cbn [ret].
  destruct (save_path_for frame_num) as [e|path] eqn:Hpath; cbn.
  { eexists; split; [reflexivity|]. left; by eexists. }
  assert (0 < image_size) by
    (apply andb_true_iff in Hsize as [_ [? _]%resizable_pos]; done).
  unfold cv_imwrite.
  destruct (imwrite_result env path) eqn:Hres; cbn;
    (eexists; split; [reflexivity|]; right;
     exists frame_num, x_center, y_center, width, height, frame, path;
     unfold wrote, proper_box, cropped_image;
     rewrite Hres, Hshape, Hbox, Hdeg; repeat split; done).
Qed.

Lemma parse_record_inr annotations frame_num x_center y_center width height :
  parse_record annotations = inr (frame_num, x_center, y_center, width, height)
  <-> Py.int (nth 0 annotations EmptyString) = Some frame_num
      /\ Py.int (nth 2 annotations EmptyString) = Some x_center
      /\ Py.int (nth 3 annotations EmptyString) = Some y_center
      /\ Py.int (nth 4 annotations EmptyString) = Some width
      /\ Py.int (nth 5 annotations EmptyString) = Some height.
Proof.
  unfold parse_record. split.
  - repeat case_match; intros [= <- <- <- <- <-]; done.
  - intros (-> & -> & -> & -> & ->). done.
Qed.

Lemma valid_record_Some line frame_num x_center y_center width height :
  valid_record line = Some (frame_num, x_center, y_center, width, height)
  <-> (6 <= length (fields_of line))%nat
      /\ parse_record (fields_of line)
         = inr (frame_num, x_center, y_center, width, height)
      /\ 0 < width /\ 0 < height.
Proof.
  unfold valid_record.
  destruct (Nat.ltb_spec (length (fields_of line)) 6).
  { split; [done|]. intros [? _]. lia. }
  destruct (parse_record (fields_of line)) as [bad|[[[[f x] y] wd] ht]].
  { split; [done|]. by intros (_ & ? & _). }
  destruct (Z.leb_spec wd 0), (Z.leb_spec ht 0); cbn;
    (split; [try done; intros [= -> -> -> -> ->]; repeat split; (done || lia)
            |intros (_ & [= -> -> -> -> ->] & ? & ?); (done || lia)]).
Qed.

Lemma valid_record_frame_number line frame_num x_center y_center width height :
  valid_record line = Some (frame_num, x_center, y_center, width, height) ->
  frame_number line = Some frame_num.
Proof.
  intros (_ & Hparse & _)%valid_record_Some.
  apply parse_record_inr in Hparse as (? & _). done.
Qed.

(** A line whose width or height field is an integer that is not positive
    is no valid record, whatever its other fields are. *)
Lemma nonpositive_not_valid line width height :
  (Py.int (nth 4 (fields_of line) EmptyString) = Some width /\ width <= 0)
  \/ (Py.int (nth 5 (fields_of line) EmptyString) = Some height
      /\ height <= 0) ->
  valid_record line = None.
Proof.
  intros Hbad.
  destruct (valid_record line) as [[[[[f x] y] wd] ht]|] eqn:Hvalid; [|done].
  apply valid_record_Some in Hvalid as (_ & Hparse & ? & ?).
  apply parse_record_inr in Hparse as (_ & _ & _ & Hw & Hh).
  destruct Hbad as [[Hw' ?]|[Hh' ?]]; simplify_eq; lia.
Qed.

Lemma valid_record_not_empty line r :
  valid_record line = Some r -> String.eqb (Py.strip line) "" = false.
Proof.
  intros Hvalid. destruct (String.eqb_spec (Py.strip line) "") as [Hempty|];
    [|done].
  unfold valid_record, fields_of in Hvalid. by rewrite Hempty in Hvalid.
Qed.

(** A line that is no valid record only prints one diagnostic. *)
Lemma process_annotation_invalid env video video_path annotation_path
    save_path_for image_size line_num line w :
  valid_record line = None ->
  exists msg,
    process_annotation env video video_path annotation_path save_path_for
      image_size line_num line w
    = Normal tt (set_stdout (stdout w ++ [msg]) w).
Proof.
  intros Hnone.
  destruct (process_annotation_inv env video video_path annotation_path
              save_path_for image_size line_num line w)
    as (w' & -> & [[msg ->]|Hwrote]); [by exists msg|].
  destruct Hwrote as (? & ? & ? & ? & ? & ? & ? & Hvalid & _). congruence.
Qed.

(** A valid record whose frame is read. *)
Lemma process_annotation_read env video video_path annotation_path
    save_path_for image_size line_num line w
    frame_num x_center y_center width height frame :
  valid_record line = Some (frame_num, x_center, y_center, width, height) ->
  video (frame_num - 1) = Some frame ->
  process_annotation env video video_path annotation_path save_path_for
    image_size line_num line w
  = if proper_box frame x_center y_center width height then
      try_except
        (cropped <- cv_resize env
                      (let '(height_frame, width_frame) := shape frame in
                       let '(x_start, y_start, x_end, y_end) :=
                         crop_box x_center y_center width height
                                  height_frame width_frame in
                       Slice frame y_start y_end x_start x_end)
                      (image_size, image_size) INTER_LINEAR ;;
         img_save_path <- lift_exn (save_path_for frame_num) ;;
         saved <- cv_imwrite env img_save_path cropped ;;
         if negb saved then print (ErrorSavingFrame frame_num) else ret tt)
        (fun _ => print (ErrorProcessingFrame frame_num)) w
    else print (InvalidCropDimensions frame_num) w.
Proof.
  intros (Hlen & Hparse & Hw & Hh)%valid_record_Some Hvideo.
  unfold process_annotation, proper_box.
  destruct (Nat.ltb_spec (length (fields_of line)) 6); [lia|].
  rewrite Hparse, Hvideo.
  destruct (Z.leb_spec width 0); [lia|].
  destruct (Z.leb_spec height 0); [lia|]. cbn [orb].
  destruct (shape frame) as [height_frame width_frame].
  destruct (crop_box _ _ _ _ _ _) as [[[x_start y_start] x_end] y_end].
  by destruct (_ || _).
Qed.

Lemma slice_len_clamped n a b :
  0 <= a -> a < b -> b <= n -> Py.slice_len n a b = b - a.
Proof.
  intros. unfold Py.slice_len, Py.slice_index.
  destruct (Z.ltb_spec b 0), (Z.ltb_spec a 0); lia.
Qed.

(** A valid record, read, with a proper box, a target size [cv.resize]
    accepts and a file name: exactly one [cv.imwrite] call. *)
Lemma process_annotation_valid env video video_path annotation_path
    save_path_for image_size line_num line w
    frame_num x_center y_center width height frame path :
  valid_record line = Some (frame_num, x_center, y_center, width, height) ->
  video (frame_num - 1) = Some frame ->
  proper_box frame x_center y_center width height = true ->
  resizable env image_size image_size = true ->
  save_path_for frame_num = inr path ->
  exists w',
    process_annotation env video video_path annotation_path save_path_for
      image_size line_num line w = Normal tt w'
    /\ wrote env frame_num path
         (cropped_image frame x_center y_center width height image_size) w w'.
Proof.
  intros Hvalid Hvideo Hbox Hsize Hpath.
  rewrite (process_annotation_read _ _ _ _ _ _ _ _ _ _ _ _ _ _ _
             Hvalid Hvideo), Hbox.
  unfold proper_box in Hbox. unfold cropped_image, wrote.
  unfold try_except, bind, cv_resize.
  destruct (shape frame) as [height_frame width_frame] eqn:Hshape.
  destruct (crop_box _ _ _ _ _ _) as [[[x_start y_start] x_end] y_end]
    eqn:Hcrop.
  apply negb_true_iff, orb_false_iff in Hbox as [Hx Hy].
  rewrite Z.geb_leb in Hx, Hy. apply Z.leb_gt in Hx, Hy.
  assert (0 <= x_start /\ x_end <= width_frame
          /\ 0 <= y_start /\ y_end <= height_frame) as (? & ? & ? & ?).
  { unfold crop_box in Hcrop. injection Hcrop as <- <- <- <-. lia. }
  cbn [shape]. rewrite Hshape.
  rewrite !slice_len_clamped by lia.
  assert ((0 <? y_end - y_start) = true) as -> by (apply Z.ltb_lt; lia).
  assert ((0 <? x_end - x_start) = true) as -> by (apply Z.ltb_lt; lia).
  rewrite Hsize.
  cbn. rewrite Hpath. cbn. unfold cv_imwrite.
  destruct (imwrite_result env path); cbn; eexists; split; reflexivity.
Qed.

(** ** The loop bodies of the two extractors *)

(** [data.py], line 3 onwards: the record is processed with the interval
    read so far, and the locals are left alone. *)
Lemma Data_loop_body_record env video video_path annotation_path
    fall_save_path no_fall_save_path image_size loc line_num line :
  line_num <> 1 -> line_num <> 2 ->
  Data.loop_body env video video_path annotation_path fall_save_path
    no_fall_save_path image_size loc line_num line
  = (process_annotation env video video_path annotation_path
       (Data.img_save_path fall_save_path no_fall_save_path loc)
       image_size line_num line ;;
     ret loc).
Proof.
  intros H1%Z.eqb_neq H2%Z.eqb_neq. unfold Data.loop_body.
  by rewrite H1, H2.
Qed.

(** [data.py], lines 1 and 2: the world is left alone, whatever the line. *)
Lemma Data_loop_body_header env video video_path annotation_path
    fall_save_path no_fall_save_path image_size loc line_num line w :
  line_num = 1 \/ line_num = 2 ->
  final (Data.loop_body env video video_path annotation_path fall_save_path
           no_fall_save_path image_size loc line_num line w) = w.
Proof.
  unfold Data.loop_body. intros [-> | ->]; cbn;
    by destruct (Py.int (Py.strip line)).
Qed.

(** [utils.py]: a line that is not blank is processed as a record. *)
Lemma Utils_loop_body_record env video video_path annotation_path save_path
    image_size line_num line :
  String.eqb (Py.strip line) "" = false ->
  Utils.loop_body env video video_path annotation_path save_path image_size
    tt line_num line
  = process_annotation env video video_path annotation_path
      (Utils.img_save_path save_path) image_size line_num line.
Proof. unfold Utils.loop_body. by intros ->. Qed.

Lemma blank_not_valid line :
  String.eqb (Py.strip line) "" = true -> valid_record line = None.
Proof.
  intros Hblank. destruct (valid_record line) eqn:Hvalid; [|done].
  apply valid_record_not_empty in Hvalid. congruence.
Qed.

(** A line that is no valid record only prints one diagnostic, in both
    extractors. *)
Lemma Data_loop_body_invalid env video video_path annotation_path
    fall_save_path no_fall_save_path image_size loc line_num line w :
  line_num <> 1 -> line_num <> 2 -> valid_record line = None ->
  exists msg,
    Data.loop_body env video video_path annotation_path fall_save_path
      no_fall_save_path image_size loc line_num line w
    = Normal loc (set_stdout (stdout w ++ [msg]) w).
Proof.
  intros ? ? Hnone. rewrite Data_loop_body_record by done.
  edestruct process_annotation_invalid as [msg Heq]; [exact Hnone|].
  exists msg. by erewrite bind_normal by exact Heq.
Qed.

Lemma Utils_loop_body_invalid env video video_path annotation_path save_path
    image_size line_num line w :
  valid_record line = None ->
  exists msg,
    Utils.loop_body env video video_path annotation_path save_path image_size
      tt line_num line w
    = Normal tt (set_stdout (stdout w ++ [msg]) w).
Proof.
  intros Hnone. destruct (String.eqb (Py.strip line) "") eqn:Hblank.
  - unfold Utils.loop_body. rewrite Hblank. eexists. apply print_eq.
  - rewrite Utils_loop_body_record by done.
    by apply process_annotation_invalid.
Qed.

(** C5.  A line whose width field or whose height field is an integer that
    is not positive writes no image: in [data.py] and in [utils.py] the loop
    body makes no [cv.imwrite] call and leaves the disk alone; where the line
    is read as a record (every line of [utils.py], line 3 onwards of
    [data.py]) it prints exactly one diagnostic and returns, so that the loop
    goes on with the next line. *)
Theorem C5_nonpositive_box_writes_nothing env video video_path annotation_path
    fall_save_path no_fall_save_path save_path image_size loc line_num line w
    width height :
  (Py.int (nth 4 (fields_of line) EmptyString) = Some width /\ width <= 0)
  \/ (Py.int (nth 5 (fields_of line) EmptyString) = Some height
      /\ height <= 0) ->
  (let o := Data.loop_body env video video_path annotation_path
              fall_save_path no_fall_save_path image_size loc line_num line w
   in imwrite_calls (final o) = imwrite_calls w
      /\ disk (final o) = disk w
      /\ (line_num <> 1 -> line_num <> 2 ->
          exists msg, o = Normal loc (set_stdout (stdout w ++ [msg]) w)))
  /\ (let o := Utils.loop_body env video video_path annotation_path save_path
                 image_size tt line_num line w
      in imwrite_calls (final o) = imwrite_calls w
         /\ disk (final o) = disk w
         /\ exists msg, o = Normal tt (set_stdout (stdout w ++ [msg]) w)).
Proof.
  intros Hnone%nonpositive_not_valid. split; cbv zeta.
  - destruct (decide (line_num = 1 \/ line_num = 2)) as [Hhead|Hrec].
    + rewrite Data_loop_body_header by done. repeat split; try done.
      intros. lia.
    + edestruct Data_loop_body_invalid as [msg ->]; [| |exact Hnone|];
        [lia..|]. repeat split; try done. intros. by exists msg.
  - edestruct Utils_loop_body_invalid as [msg ->]; [exact Hnone|].
    repeat split; try done. by exists msg.
Qed.

Lemma C5_nonpositive_box_writes_nothing_witness :
  let line := "5,0,100,100,0,60" in
  let loc := Data.mkLocals (Some 10) (Some 20) in
  (let o := Data.loop_body demo_env demo_video "videos/a.avi" "ann/a.txt"
              "out/fall/a" "out/no_fall/a" 224 loc 4 line world0
   in imwrite_calls (final o) = imwrite_calls world0
      /\ disk (final o) = disk world0
      /\ (4 <> 1 -> 4 <> 2 ->
          exists msg, o = Normal loc (set_stdout (stdout world0 ++ [msg]) world0)))
  /\ (let o := Utils.loop_body demo_env demo_video "videos/a.avi" "ann/a.txt"
                 "out/a" 224 tt 4 line world0
      in imwrite_calls (final o) = imwrite_calls world0
         /\ disk (final o) = disk world0
         /\ exists msg, o = Normal tt (set_stdout (stdout world0 ++ [msg]) world0)).
Proof.
  apply (C5_nonpositive_box_writes_nothing demo_env demo_video "videos/a.avi"
           "ann/a.txt" "out/fall/a" "out/no_fall/a" "out/a" 224
           (Data.mkLocals (Some 10) (Some 20)) 4 "5,0,100,100,0,60" world0
           0 60).
  left. split; [reflexivity | lia].
Defined.

(** The scenario of the specification: the width-0 line prints the box
    diagnostic. *)
Example width_zero_line :
  Utils.loop_body demo_env demo_video "videos/a.avi" "ann/a.txt" "out/a" 224
    tt 4 "5,0,100,100,0,60" world0
  = Normal tt (set_stdout [InvalidBoxDimensions 0 60 4] world0).
Proof. reflexivity. Qed.

(** ** What a line adds to the [cv.imwrite] calls and to the disk *)

Lemma calls_since_refl w : calls_since w w = [].
Proof. unfold calls_since. by rewrite drop_all. Qed.

Lemma skipped_effect w w' :
  skipped w w' ->
  imwrite_calls w' = imwrite_calls w /\ disk w' = disk w
  /\ rng_calls w' = rng_calls w /\ calls_since w w' = [].
Proof.
  intros [msg ->]. repeat split. unfold calls_since; cbn. by rewrite drop_all.
Qed.

Lemma wrote_effect env frame_num path img w w' :
  wrote env frame_num path img w w' ->
  imwrite_calls w' = imwrite_calls w ++ [(path, img)]
  /\ calls_since w w' = [(path, img)]
  /\ rng_calls w' = rng_calls w
  /\ disk w' = match imwrite_result env path with
               | Saved => <[path := img]> (disk w)
               | _ => disk w
               end.
Proof.
  unfold wrote, calls_since.
  destruct (imwrite_result env path); intros ->; cbn;
    by rewrite drop_app_length.
Qed.

Lemma Data_loop_body_inv env video video_path annotation_path fall_save_path
    no_fall_save_path image_size loc line_num line w :
  line_num <> 1 -> line_num <> 2 ->
  exists w',
    Data.loop_body env video video_path annotation_path fall_save_path
      no_fall_save_path image_size loc line_num line w = Normal loc w'
    /\ record_outcome env video
         (Data.img_save_path fall_save_path no_fall_save_path loc)
         image_size line w w'.
Proof.
  intros. rewrite Data_loop_body_record by done.
  edestruct process_annotation_inv as (w' & Heq & Hout).
  exists w'. split; [|exact Hout]. by erewrite bind_normal by exact Heq.
Qed.

Lemma Utils_loop_body_inv env video video_path annotation_path save_path
    image_size line_num line w :
  exists w',
    Utils.loop_body env video video_path annotation_path save_path image_size
      tt line_num line w = Normal tt w'
    /\ record_outcome env video (Utils.img_save_path save_path) image_size
         line w w'.
Proof.
  destruct (String.eqb (Py.strip line) "") eqn:Hblank.
  - unfold Utils.loop_body. rewrite Hblank. eexists. split; [apply print_eq|].
    left. by eexists.
  - rewrite Utils_loop_body_record by done. apply process_annotation_inv.
Qed.

(** The calls a record line makes: none, or the one with the cropped and
    resized frame. *)
Lemma record_outcome_calls env video save_path_for image_size line w w'
    path img :
  record_outcome env video save_path_for image_size line w w' ->
  (path, img) ∈ calls_since w w' ->
  exists frame_num x_center y_center width height frame,
    valid_record line = Some (frame_num, x_center, y_center, width, height)
    /\ video (frame_num - 1) = Some frame
    /\ proper_box frame x_center y_center width height = true
    /\ 0 < image_size
    /\ save_path_for frame_num = inr path
    /\ img = cropped_image frame x_center y_center width height image_size.
Proof.
  intros [Hskip|(f & x & y & wd & ht & frame & p & ? & ? & ? & ? & ? & Hw)].
  - apply skipped_effect in Hskip as (_ & _ & _ & ->). by intros ?%elem_of_nil.
  - apply wrote_effect in Hw as (_ & -> & _).
    intros [= -> ->]%list_elem_of_singleton.
    by exists f, x, y, wd, ht, frame.
Qed.

Lemma crop_box_spec x_center y_center width height frame_height frame_width :
  0 < width -> 0 < height ->
  crop_box x_center y_center width height frame_height frame_width
  = spec_crop_box x_center y_center width height frame_height frame_width.
Proof.
  intros. unfold crop_box, spec_crop_box.
  by rewrite !Z.quot_div_nonneg by lia.
Qed.



(** The box of the specification's scenario: centre (100, 100), 50 by 60,
    on a 640 by 480 frame. *)
Example crop_box_scenario :
  crop_box 100 100 50 60 480 640 = (75, 70, 125, 130).
Proof. reflexivity. Qed.

(** ** The destination of a frame in [data.py] *)

Lemma Data_img_save_path_interval fall_save_path no_fall_save_path
    fall_start fall_end frame_num :
  Data.img_save_path fall_save_path no_fall_save_path
    (Data.mkLocals (Some fall_start) (Some fall_end)) frame_num
  = inr (Py.join
           (if (fall_start <=? frame_num) && (frame_num <=? fall_end)
            then fall_save_path else no_fall_save_path)
           [Py.str_of_int frame_num +:+ ".jpg"]).
Proof.
  unfold Data.img_save_path, Data.in_fall_interval. cbn.
  destruct (fall_start <=? frame_num); [|done].
  by destruct (frame_num <=? fall_end).
Qed.

(** C1.  In [data.py], with the fall interval [fall_start, fall_end] read,
    every [cv.imwrite] call a record line makes goes to a file name that is a
    function of the interval and of the record's frame number alone: inside
    the interval the file [{frame_num}.jpg] of the fall directory, and not
    the file of that name in the no_fall directory; outside it the file of
    the no_fall directory, and not the one of the fall directory.  Any other
    record with the same frame number, whatever its bounding box, the video
    it is cut from and the image size, is written to the same file. *)
Theorem C1_directory_by_interval env video video_path annotation_path
    fall_save_path no_fall_save_path image_size fall_start fall_end
    line_num line w path img :
  let loc := Data.mkLocals (Some fall_start) (Some fall_end) in
  line_num <> 1 -> line_num <> 2 ->
  (path, img) ∈
    calls_since w
      (final (Data.loop_body env video video_path annotation_path
                fall_save_path no_fall_save_path image_size loc line_num
                line w)) ->
  exists frame_num,
    let in_fall := Py.join fall_save_path [Py.str_of_int frame_num +:+ ".jpg"]
    in
    let in_no_fall :=
      Py.join no_fall_save_path [Py.str_of_int frame_num +:+ ".jpg"] in
    frame_number line = Some frame_num
    /\ (fall_start <= frame_num <= fall_end ->
        path = in_fall /\ (in_fall <> in_no_fall -> path <> in_no_fall))
    /\ (~ (fall_start <= frame_num <= fall_end) ->
        path = in_no_fall /\ (in_fall <> in_no_fall -> path <> in_fall))
    /\ (forall video' video_path' annotation_path' image_size' line_num'
               line' w' path' img',
          line_num' <> 1 -> line_num' <> 2 ->
          frame_number line' = Some frame_num ->
          (path', img') ∈
            calls_since w'
              (final (Data.loop_body env video' video_path' annotation_path'
                        fall_save_path no_fall_save_path image_size' loc
                        line_num' line' w')) ->
          path' = path).
Proof.
  intros loc ? ? Hin.
  edestruct Data_loop_body_inv as (w1 & Heq & Hout); [done..|].
  rewrite Heq in Hin. cbn in Hin.
  eapply record_outcome_calls in Hin
    as (f & x & y & wd & ht & fr & Hv & _ & _ & _ & Hpath & _); [|done].
  unfold loc in Hpath. rewrite Data_img_save_path_interval in Hpath.
  injection Hpath as Hpath.
  exists f. cbv zeta.
  split; [by eapply valid_record_frame_number|].
  split; [|split].
  - intros [? ?]. subst path.
    destruct (Z.leb_spec fall_start f), (Z.leb_spec f fall_end); try lia.
    cbn. split; [done|]. intros Hne Heq'. by apply Hne.
  - intros Hout'. subst path.
    assert (((fall_start <=? f) && (f <=? fall_end)) = false) as ->.
    { destruct (Z.leb_spec fall_start f), (Z.leb_spec f fall_end);
        try done; lia. }
    split; [done|]. intros Hne Heq'. by apply Hne.
  - intros video' vp' ap' size' ln' line' w' path' img' ? ? Hf' Hin'.
    edestruct Data_loop_body_inv as (w2 & Heq2 & Hout2); [done..|].
    rewrite Heq2 in Hin'. cbn in Hin'.
    eapply record_outcome_calls in Hin'
      as (f' & x' & y' & wd' & ht' & fr' & Hv' & _ & _ & _ & Hpath' & _);
      [|done].
    apply valid_record_frame_number in Hv'. rewrite Hf' in Hv'.
    injection Hv' as <-. unfold loc in Hpath'.
    rewrite Data_img_save_path_interval in Hpath'. injection Hpath' as <-.
    done.
Qed.

Lemma C1_directory_by_interval_witness :
  exists frame_num,
    frame_number "15,0,100,100,50,60" = Some frame_num
    /\ (10 <= frame_num <= 20 ->
        "out/fall/a/15.jpg" = Py.join "out/fall/a" [Py.str_of_int frame_num +:+ ".jpg"]).
Proof.
  destruct (C1_directory_by_interval demo_env demo_video "videos/a.avi"
              "ann/a.txt" "out/fall/a" "out/no_fall/a" 224 10 20 3
              "15,0,100,100,50,60" world0 "out/fall/a/15.jpg"
              (cropped_image (Raw 480 640 14) 100 100 50 60 224))
    as (frame_num & Hnum & Hin & _).
  - lia.
  - lia.
  - vm_compute. apply list_elem_of_here.
  - exists frame_num. split; [exact Hnum|]. intros H. by apply Hin.
Defined.

(** The scenario of the specification: interval [10, 20] and the line
    [15,0,100,100,50,60] give one 224 by 224 image, in the fall directory,
    named [15.jpg]. *)
Example fall_scenario :
  let w := final (Data.loop_body demo_env demo_video "videos/a.avi"
                    "ann/a.txt" "out/fall/a" "out/no_fall/a" 224
                    (Data.mkLocals (Some 10) (Some 20)) 3
                    "15,0,100,100,50,60" world0) in
  imwrite_calls w
  = [("out/fall/a/15.jpg",
      Resized (Slice (Raw 480 640 14) 70 130 75 125) 224 224 INTER_LINEAR)]
  /\ shape <$> disk w !! "out/fall/a/15.jpg" = Some (224, 224)
  /\ stdout w = [].
Proof. vm_compute. done. Qed.

(** ** File names *)

Lemma app_nil_string (s : string) : EmptyString +:+ s = s.
Proof. reflexivity. Qed.

Lemma app_cons_string a (s t : string) : String a s +:+ t = String a (s +:+ t).
Proof. reflexivity. Qed.

Lemma contains_app c a b :
  Py.contains c (a +:+ b) = Py.contains c a || Py.contains c b.
Proof.
  induction a as [|x a IH]; [done|].
  rewrite app_cons_string. cbn. rewrite IH. by rewrite orb_assoc.
Qed.

Lemma app_assoc_string (a b c : string) : (a +:+ b) +:+ c = a +:+ (b +:+ c).
Proof.
  induction a as [|x a IH]; [done|]. rewrite !app_cons_string. by rewrite IH.
Qed.

Lemma length_app_string (a b : string) :
  String.length (a +:+ b) = (String.length a + String.length b)%nat.
Proof.
  induction a as [|x a IH]; [done|]. rewrite app_cons_string. cbn.
  by rewrite IH.
Qed.

(** Appending the same tail is injective. *)
Lemma app_inv_tail_string (a b c : string) : a +:+ c = b +:+ c -> a = b.
Proof.
  revert b. induction a as [|x a IH]; intros [|y b] Heq.
  - done.
  - apply (f_equal String.length) in Heq.
    rewrite app_nil_string, app_cons_string in Heq. cbn in Heq.
    rewrite length_app_string in Heq. lia.
  - apply (f_equal String.length) in Heq.
    rewrite app_nil_string, app_cons_string in Heq. cbn in Heq.
    rewrite length_app_string in Heq. lia.
  - rewrite !app_cons_string in Heq. injection Heq as -> Heq.
    f_equal. by apply IH.
Qed.

(** A string without the separator is one field. *)
Lemma split_go_no_sep sep cur s :
  Py.contains sep s = false ->
  Py.split_go sep cur s = [String.rev_app cur s].
Proof.
  revert cur. induction s as [|a s IH]; intros cur Hno; cbn; [done|].
  cbn in Hno. apply orb_false_iff in Hno as [-> Hno]. by rewrite IH.
Qed.

Lemma split_go_not_nil sep cur s : Py.split_go sep cur s <> [].
Proof.
  revert cur. induction s as [|a s IH]; intros cur; cbn; [done|].
  destruct (Ascii.eqb a sep); [done|apply IH].
Qed.

(** What follows the last separator is the last field. *)
Lemma last_split_go_app sep cur x s d :
  List.last (Py.split_go sep cur (x +:+ String sep s)) d
  = List.last (Py.split_go sep EmptyString s) d.
Proof.
  revert cur. induction x as [|a x IH]; intros cur;
    rewrite ?app_nil_string, ?app_cons_string; cbn.
  - rewrite Ascii.eqb_refl.
    pose proof (split_go_not_nil sep EmptyString s).
    by destruct (Py.split_go sep EmptyString s).
  - destruct (Ascii.eqb a sep); [|apply IH].
    specialize (IH EmptyString).
    pose proof (split_go_not_nil sep EmptyString (x +:+ String sep s)).
    by destruct (Py.split_go sep EmptyString (x +:+ String sep s)).
Qed.

Lemma basename_no_sep s : Py.contains "/" s = false -> Py.basename s = s.
Proof.
  intros Hno. unfold Py.basename, Py.split. by rewrite split_go_no_sep.
Qed.

Lemma basename_app x s :
  Py.contains "/" s = false -> Py.basename (x +:+ String "/" s) = s.
Proof.
  intros Hno. unfold Py.basename, Py.split.
  rewrite last_split_go_app. by rewrite split_go_no_sep.
Qed.

Lemma endswith_slash d :
  Py.endswith d "/" = true -> exists x, d = x +:+ "/".
Proof.
  induction d as [|a d IH]; cbn; [done|].
  intros [Heq|Hend]%orb_true_iff.
  - exists EmptyString. rewrite app_nil_string.
    destruct (Ascii.eqb_spec a "/"); [|done]. subst.
    destruct (String.eqb_spec d ""); [|done]. by subst.
  - destruct (IH Hend) as [x ->]. by exists (String a x).
Qed.

Lemma prefix_slash_no_sep s :
  Py.contains "/" s = false -> String.prefix "/" s = false.
Proof.
  destruct s as [|a s]; [done|]. cbn [Py.contains].
  intros [Ha _]%orb_false_iff. cbn [String.prefix].
  destruct (ascii_dec "/" a) as [<-|]; [|done]. by rewrite Ascii.eqb_refl in Ha.
Qed.

(** [os.path.basename(os.path.join(d, name)) == name] for a name without
    separator. *)
Lemma basename_join2 d name :
  Py.contains "/" name = false -> Py.basename (Py.join2 d name) = name.
Proof.
  intros Hno. unfold Py.join2. rewrite prefix_slash_no_sep by done.
  destruct (String.eqb_spec d "") as [->|Hd]; cbn [orb].
  { by apply basename_no_sep. }
  destruct (Py.endswith d "/") eqn:Hend.
  - apply endswith_slash in Hend as [x ->].
    rewrite app_assoc_string. by apply basename_app.
  - by apply basename_app.
Qed.

Lemma basename_join d ps name :
  Py.contains "/" name = false ->
  Py.basename (Py.join d (ps ++ [name])) = name.
Proof.
  intros. unfold Py.join. rewrite foldl_app. cbn. by apply basename_join2.
Qed.

Lemma pretty_N_go_no_slash x s :
  Py.contains "/" s = false -> Py.contains "/" (pretty_N_go x s) = false.
Proof.
  revert s. induction (N.lt_wf_0 x) as [x _ IH]; intros s Hs.
  assert (x = 0 \/ 0 < x)%N as [->|?] by lia.
  - by rewrite pretty_N_go_0.
  - rewrite pretty_N_go_step by done. apply IH.
    { by apply N.div_lt. }
    cbn. rewrite Hs. unfold pretty_N_char. by repeat case_match.
Qed.

Lemma pretty_N_no_slash (x : N) : Py.contains "/" (pretty x) = false.
Proof.
  unfold pretty, pretty_N. case_decide; [done|].
  by apply pretty_N_go_no_slash.
Qed.

Lemma str_of_int_no_slash (n : Z) : Py.contains "/" (Py.str_of_int n) = false.
Proof.
  unfold Py.str_of_int, pretty, pretty_Z. destruct n as [|p|p].
  - done.
  - apply pretty_N_no_slash.
  - rewrite contains_app. cbn. apply pretty_N_no_slash.
Qed.

(** The file name of a frame, [f"{frame_num}.jpg"]. *)
Lemma frame_file_no_slash n :
  Py.contains "/" (Py.str_of_int n +:+ ".jpg") = false.
Proof. rewrite contains_app, str_of_int_no_slash. done. Qed.

Lemma frame_file_inj n m :
  Py.str_of_int n +:+ ".jpg" = Py.str_of_int m +:+ ".jpg" -> n = m.
Proof.
  intros Heq%app_inv_tail_string. by apply (inj (pretty : Z -> string)).
Qed.

(** Frames with different numbers never share a file, whatever the
    directories. *)
Lemma frame_path_inj d d' n m :
  Py.join d [Py.str_of_int n +:+ ".jpg"]
  = Py.join d' [Py.str_of_int m +:+ ".jpg"] ->
  n = m.
Proof.
  intros Heq. apply (f_equal Py.basename) in Heq.
  unfold Py.join in Heq. cbn [foldl] in Heq.
  rewrite !basename_join2 in Heq by apply frame_file_no_slash.
  by apply frame_file_inj.
Qed.

(** ** Whole runs: every written image has the requested size *)

Lemma grows_refl P w : grows P w w.
Proof.
  split; [|by left]. exists []. by rewrite app_nil_r.
Qed.

Lemma grows_trans P w1 w2 w3 : grows P w1 w2 -> grows P w2 w3 -> grows P w1 w3.
Proof.
  intros [(new1 & Hc1 & Hn1) Hd1] [(new2 & Hc2 & Hn2) Hd2]. split.
  - exists (new1 ++ new2). rewrite Hc2, Hc1, app_assoc. split; [done|].
    by apply Forall_app.
  - intros path img [Hold|?]%Hd2; [by apply Hd1|by right].
Qed.

Lemma grows_writes_resized image_size w w' :
  grows (resized_to image_size) w w' -> writes_resized image_size w w'.
Proof.
  intros [(new & Hc & Hnew) Hd]. split; [|done].
  intros path img. unfold calls_since. rewrite Hc, drop_app_length.
  intros Hin. by apply (proj1 (Forall_forall _ _) Hnew (path, img)).
Qed.

Lemma grows_print P msg w : grows P w (final (print msg w)).
Proof.
  split; [|by left]. exists []. by rewrite app_nil_r.
Qed.

Lemma grows_bind {A B} P (m : M A) (k : A -> M B) w :
  grows P w (final (m w)) ->
  (forall a w', grows P w' (final (k a w'))) ->
  grows P w (final (bind m k w)).
Proof.
  intros Hm Hk. unfold bind. destruct (m w) as [a w'|e w']; [|done].
  eapply grows_trans; [exact Hm|apply Hk].
Qed.

Lemma grows_for_enumerate {A L} P (body : L -> Z -> A -> M L) :
  (forall loc n x w, grows P w (final (body loc n x w))) ->
  forall xs start loc w,
    grows P w (final (for_enumerate body start xs loc w)).
Proof.
  intros Hbody. induction xs as [|x xs IH]; intros start loc w; cbn.
  - apply grows_refl.
  - apply grows_bind; [apply Hbody|]. intros. apply IH.
Qed.

Lemma grows_for_each {A} P (body : A -> M unit) :
  (forall x w, grows P w (final (body x w))) ->
  forall xs w, grows P w (final (for_each body xs w)).
Proof.
  intros Hbody. induction xs as [|x xs IH]; intros w; cbn.
  - apply grows_refl.
  - apply grows_bind; [apply Hbody|]. intros. apply IH.
Qed.

Lemma cropped_image_resized frame x_center y_center width height image_size :
  resized_to image_size
    (cropped_image frame x_center y_center width height image_size).
Proof.
  unfold cropped_image. destruct (shape frame) as [h w].
  destruct (crop_box _ _ _ _ _ _) as [[[x_start y_start] x_end] y_end].
  split; [done|]. by eexists.
Qed.

Lemma record_outcome_grows env video save_path_for image_size line w w' :
  record_outcome env video save_path_for image_size line w w' ->
  grows (resized_to image_size) w w'.
Proof.
  intros [[msg ->]|(f & x & y & wd & ht & frame & p & _ & _ & _ & _ & _ & Hw)].
  - apply (grows_print _ msg).
  - apply wrote_effect in Hw as (Hcalls & _ & _ & Hdisk). split.
    + eexists. split; [exact Hcalls|].
      apply Forall_cons_2; [|apply Forall_nil_2].
      apply cropped_image_resized.
    + intros path img. rewrite Hdisk.
      destruct (imwrite_result env p); try by left.
      destruct (decide (p = path)) as [->|].
      * rewrite lookup_insert_eq. intros [= <-]. right.
        apply cropped_image_resized.
      * rewrite lookup_insert_ne by done. by left.
Qed.

Lemma Data_loop_body_grows env video video_path annotation_path
    fall_save_path no_fall_save_path image_size loc line_num line w :
  grows (resized_to image_size) w
    (final (Data.loop_body env video video_path annotation_path
              fall_save_path no_fall_save_path image_size loc line_num
              line w)).
Proof.
  destruct (decide (line_num = 1 \/ line_num = 2)) as [Hhead|Hrec].
  - rewrite Data_loop_body_header by done. apply grows_refl.
  - edestruct Data_loop_body_inv as (w' & -> & Hout); [lia..|].
    by eapply record_outcome_grows.
Qed.

Lemma Utils_loop_body_grows env video video_path annotation_path save_path
    image_size u line_num line w :
  grows (resized_to image_size) w
    (final (Utils.loop_body env video video_path annotation_path save_path
              image_size u line_num line w)).
Proof.
  destruct u. edestruct Utils_loop_body_inv as (w' & -> & Hout).
  by eapply record_outcome_grows.
Qed.

Lemma Data_crop_frames_grows env video_path annotation_path fall_save_path
    no_fall_save_path image_size w :
  grows (resized_to image_size) w
    (final (Data.crop_frames_using_annotations env video_path annotation_path
              fall_save_path no_fall_save_path image_size w)).
Proof.
  unfold Data.crop_frames_using_annotations.
  destruct (video_capture env video_path) as [video|]; [|apply grows_print].
  destruct (text_file env annotation_path) as [file|]; [|apply grows_refl].
  apply grows_bind; [|intros; apply grows_refl].
  apply grows_for_enumerate. intros. apply Data_loop_body_grows.
Qed.

Lemma Utils_crop_frames_grows env video_path annotation_path save_path
    image_size w :
  grows (resized_to image_size) w
    (final (Utils.crop_frames_using_annotations env video_path annotation_path
              save_path image_size w)).
Proof.
  unfold Utils.crop_frames_using_annotations.
  destruct (video_capture env video_path) as [video|]; [|apply grows_print].
  destruct (text_file env annotation_path) as [file|]; [|apply grows_refl].
  apply grows_for_enumerate. intros. apply Utils_loop_body_grows.
Qed.

Lemma Data_process_all_rooms_grows env rooms image_size w :
  grows (resized_to image_size) w
    (final (Data.process_all_rooms env rooms image_size w)).
Proof.
  unfold Data.process_all_rooms. apply grows_for_each.
  intros [[[video_path fall_save_path] no_fall_save_path] annotation_path] w1.
  apply grows_bind; [apply grows_print|]. intros _ w2.
  apply grows_for_each. intros video_file w3. unfold Data.process_video.
  destruct (negb _); [apply grows_print|].
  apply grows_bind; [apply grows_print|]. intros _ w4.
  apply Data_crop_frames_grows.
Qed.

Lemma Utils_process_all_rooms_grows env rooms image_size w :
  grows (resized_to image_size) w
    (final (Utils.process_all_rooms env rooms image_size w)).
Proof.
  unfold Utils.process_all_rooms. apply grows_for_each.
  intros [video_path frame_save_path] w1.
  apply grows_bind; [apply grows_print|]. intros _ w2.
  apply grows_for_each. intros video_file w3. unfold Utils.process_video.
  destruct (negb _); [apply grows_print|].
  apply grows_bind; [apply grows_print|]. intros _ w4.
  apply Utils_crop_frames_grows.
Qed.

(** C8.  Every image an extractor writes is [image_size] by [image_size]:
    in both variants, for one video ([crop_frames_using_annotations]) and
    for a whole batch ([process_all_rooms]), every [cv.imwrite] call of the
    run is passed the result of [cv.resize(_, (image_size, image_size),
    interpolation=cv.INTER_LINEAR)], and every file on the disk that the run
    created or changed holds such an image. *)
Theorem C8_written_images_resized env video_path annotation_path
    fall_save_path no_fall_save_path save_path data_rooms utils_rooms
    image_size w :
  writes_resized image_size w
    (final (Data.crop_frames_using_annotations env video_path annotation_path
              fall_save_path no_fall_save_path image_size w))
  /\ writes_resized image_size w
       (final (Utils.crop_frames_using_annotations env video_path
                 annotation_path save_path image_size w))
  /\ writes_resized image_size w
       (final (Data.process_all_rooms env data_rooms image_size w))
  /\ writes_resized image_size w
       (final (Utils.process_all_rooms env utils_rooms image_size w)).
Proof.
  split; [|split; [|split]]; apply grows_writes_resized.
  - apply Data_crop_frames_grows.
  - apply Utils_crop_frames_grows.
  - apply Data_process_all_rooms_grows.
  - apply Utils_process_all_rooms_grows.
Qed.

(** ** Whole runs: two records for one frame *)

Lemma for_enumerate_steps {L} (body : L -> Z -> string -> M L)
    (step : Z -> string -> World -> World) (loc : L) (lo : Z) :
  (forall n x w, lo <= n -> body loc n x w = Normal loc (step n x w)) ->
  forall xs start w,
    lo <= start ->
    for_enumerate body start xs loc w = Normal loc (steps step start xs w).
Proof.
  intros Hbody. induction xs as [|x xs IH]; intros start w Hlo; cbn; [done|].
  erewrite bind_normal by by apply Hbody. apply IH. lia.
Qed.

Lemma steps_app step start xs ys w :
  steps step start (xs ++ ys) w
  = steps step (start + Z.of_nat (length xs)) ys (steps step start xs w).
Proof.
  revert start w. induction xs as [|x xs IH]; intros start w; cbn.
  - by rewrite Z.add_0_r.
  - rewrite IH. f_equal. lia.
Qed.

Section LastRecord.

Variable env : Env.
Variable video : Z -> option Image.
Variables video_path annotation_path : string.
Variable save_path_for : Z -> Exn + string.
Variable image_size : Z.
Variable step : Z -> string -> World -> World.
Variable lo : Z.

Hypothesis step_outcome : forall n line w,
  lo <= n -> record_outcome env video save_path_for image_size line w (step n line w).
Hypothesis step_valid : forall n line w r,
  lo <= n -> valid_record line = Some r ->
  step n line w
  = final (process_annotation env video video_path annotation_path
             save_path_for image_size n line w).
Hypothesis save_path_inj : forall n m path,
  save_path_for n = inr path -> save_path_for m = inr path -> n = m.

Lemma step_calls n line w :
  lo <= n -> exists new, imwrite_calls (step n line w) = imwrite_calls w ++ new.
Proof.
  intros Hlo. destruct (step_outcome n line w Hlo)
    as [Hskip|(f & x & y & wd & ht & fr & p & _ & _ & _ & _ & _ & Hw)].
  - apply skipped_effect in Hskip as (-> & _). exists []. by rewrite app_nil_r.
  - apply wrote_effect in Hw as (-> & _). by eexists.
Qed.

Lemma steps_calls xs : forall start w,
  lo <= start ->
  exists new, imwrite_calls (steps step start xs w) = imwrite_calls w ++ new.
Proof.
  induction xs as [|x xs IH]; intros start w Hlo; cbn.
  - exists []. by rewrite app_nil_r.
  - destruct (IH (start + 1) (step start x w)) as [new2 ->]; [lia|].
    destruct (step_calls start x w Hlo) as [new1 ->].
    exists (new1 ++ new2). by rewrite app_assoc.
Qed.

(** A record of another frame leaves the file of this frame alone. *)
Lemma step_other_frame n line w frame_num path :
  lo <= n ->
  frame_number line <> Some frame_num ->
  save_path_for frame_num = inr path ->
  disk (step n line w) !! path = disk w !! path.
Proof.
  intros Hlo Hother Hpath. destruct (step_outcome n line w Hlo)
    as [Hskip|(f & x & y & wd & ht & fr & p & Hv & _ & _ & _ & Hp & Hw)].
  - by apply skipped_effect in Hskip as (_ & -> & _).
  - apply wrote_effect in Hw as (_ & _ & _ & ->).
    destruct (imwrite_result env p); try done.
    apply lookup_insert_ne. intros ->.
    apply valid_record_frame_number in Hv.
    rewrite (save_path_inj _ _ _ Hp Hpath) in Hv. done.
Qed.

Lemma steps_other_frames xs frame_num path : forall start w,
  lo <= start ->
  Forall (fun line => frame_number line <> Some frame_num) xs ->
  save_path_for frame_num = inr path ->
  disk (steps step start xs w) !! path = disk w !! path.
Proof.
  induction xs as [|x xs IH]; intros start w Hlo Hxs Hpath; cbn; [done|].
  apply Forall_cons_1 in Hxs as [Hx Hxs].
  rewrite IH by (done || lia). by eapply step_other_frame.
Qed.

(** A valid record whose frame is read, whose box is proper and whose file
    can be written puts its image into the file. *)
Lemma step_valid_saved n line w frame_num x_center y_center width height
    frame path :
  lo <= n ->
  valid_record line = Some (frame_num, x_center, y_center, width, height) ->
  video (frame_num - 1) = Some frame ->
  proper_box frame x_center y_center width height = true ->
  resizable env image_size image_size = true ->
  save_path_for frame_num = inr path ->
  imwrite_result env path = Saved ->
  let img := cropped_image frame x_center y_center width height image_size in
  imwrite_calls (step n line w) = imwrite_calls w ++ [(path, img)]
  /\ disk (step n line w) = <[path := img]> (disk w).
Proof.
  intros Hlo Hvalid Hvideo Hbox Hsize Hpath Hsaved img.
  rewrite (step_valid _ _ _ _ Hlo Hvalid).
  destruct (process_annotation_valid env video video_path annotation_path
              save_path_for image_size n line w _ _ _ _ _ _ _
              Hvalid Hvideo Hbox Hsize Hpath) as (w' & Heq & Hw).
  rewrite Heq. cbn [final].
  apply wrote_effect in Hw as (-> & _ & _ & ->). by rewrite Hsaved.
Qed.

(** Two valid records for the same frame, the later one followed by records
    of other frames only: both are handed to [cv.imwrite] under the same
    name, in file order, and the file ends up holding the later image. *)
Lemma steps_last_record start pre earlier mid later post w
    frame_num x1 y1 w1 h1 x2 y2 w2 h2 frame path :
  lo <= start ->
  valid_record earlier = Some (frame_num, x1, y1, w1, h1) ->
  valid_record later = Some (frame_num, x2, y2, w2, h2) ->
  video (frame_num - 1) = Some frame ->
  proper_box frame x1 y1 w1 h1 = true ->
  proper_box frame x2 y2 w2 h2 = true ->
  resizable env image_size image_size = true ->
  save_path_for frame_num = inr path ->
  imwrite_result env path = Saved ->
  Forall (fun line => frame_number line <> Some frame_num) post ->
  let w' := steps step start (pre ++ earlier :: mid ++ later :: post) w in
  disk w' !! path = Some (cropped_image frame x2 y2 w2 h2 image_size)
  /\ exists before between after,
       calls_since w w'
       = before ++ (path, cropped_image frame x1 y1 w1 h1 image_size)
           :: between ++ (path, cropped_image frame x2 y2 w2 h2 image_size)
           :: after.
Proof.
  intros Hlo Hv1 Hv2 Hvideo Hb1 Hb2 Hsize Hpath Hsaved Hpost. cbv zeta.
  rewrite steps_app. cbn [steps]. rewrite steps_app. cbn [steps].
  set (wa := steps step start pre w).
  set (na := start + Z.of_nat (length pre)).
  set (wb := step na earlier wa).
  set (wc := steps step (na + 1) mid wb).
  set (nc := na + 1 + Z.of_nat (length mid)).
  set (wd := step nc later wc).
  assert (lo <= na) by (unfold na; lia).
  assert (lo <= nc) by (unfold nc; lia).
  destruct (step_valid_saved nc later wc _ _ _ _ _ _ _ ltac:(done) Hv2 Hvideo
              Hb2 Hsize Hpath Hsaved) as [Hcd Hdd].
  destruct (step_valid_saved na earlier wa _ _ _ _ _ _ _ ltac:(done) Hv1 Hvideo
              Hb1 Hsize Hpath Hsaved) as [Hcb _].
  fold wb in Hcb. fold wd in Hcd, Hdd. split.
  - rewrite (steps_other_frames post frame_num path) by (done || lia).
    rewrite Hdd. apply lookup_insert_eq.
  - destruct (steps_calls pre start w Hlo) as [before Ha]. fold wa in Ha.
    destruct (steps_calls mid (na + 1) wb ltac:(lia)) as [between Hc].
    fold wc in Hc.
    destruct (steps_calls post (nc + 1) wd ltac:(lia)) as [after He].
    exists before, between, after. unfold calls_since.
    rewrite He, Hcd, Hc, Hcb, Ha.
    rewrite <- !app_assoc. by rewrite drop_app_length.
Qed.

End LastRecord.

(** A run of [data.py] over a file whose two header lines are integers: the
    records are processed in order, from line 3 on, with that interval. *)
Lemma Data_crop_frames_run env video_path annotation_path fall_save_path
    no_fall_save_path image_size video head1 head2 records fall_start
    fall_end w :
  video_capture env video_path = Some video ->
  text_file env annotation_path = Some (head1 :: head2 :: records) ->
  Py.int (Py.strip head1) = Some fall_start ->
  Py.int (Py.strip head2) = Some fall_end ->
  Data.crop_frames_using_annotations env video_path annotation_path
    fall_save_path no_fall_save_path image_size w
  = Normal tt
      (steps (data_line env video video_path annotation_path fall_save_path
                no_fall_save_path image_size fall_start fall_end)
         3 records w).
Proof.
  intros Hvideo Hfile Hh1 Hh2. unfold Data.crop_frames_using_annotations.
  rewrite Hvideo, Hfile. cbn [for_enumerate].
  unfold Data.loop_body at 1. cbn [Z.eqb Pos.eqb]. rewrite Hh1.
  unfold bind at 2. cbn [ret].
  unfold Data.loop_body at 1. cbn [Z.eqb Pos.eqb Z.add Pos.add]. rewrite Hh2.
  unfold bind at 2. cbn [ret Data.fall_start_frame Data.fall_end_frame].
  erewrite bind_normal; [reflexivity|].
  apply (for_enumerate_steps _ _ _ 3); [|done].
  intros n x w' Hn. unfold data_line.
  edestruct Data_loop_body_inv as (w2 & -> & _); [lia..|done].
Qed.

Lemma Utils_crop_frames_run env video_path annotation_path save_path
    image_size video file w :
  video_capture env video_path = Some video ->
  text_file env annotation_path = Some file ->
  Utils.crop_frames_using_annotations env video_path annotation_path
    save_path image_size w
  = Normal tt
      (steps (utils_line env video video_path annotation_path save_path
                image_size)
         1 file w).
Proof.
  intros Hvideo Hfile. unfold Utils.crop_frames_using_annotations.
  rewrite Hvideo, Hfile.
  apply (for_enumerate_steps _ _ _ 1); [|done].
  intros n x w' Hn. unfold utils_line.
  by edestruct Utils_loop_body_inv as (w2 & -> & _).
Qed.

Lemma data_line_outcome env video video_path annotation_path fall_save_path
    no_fall_save_path image_size fall_start fall_end n line w :
  3 <= n ->
  record_outcome env video
    (Data.img_save_path fall_save_path no_fall_save_path
       (Data.mkLocals (Some fall_start) (Some fall_end)))
    image_size line w
    (data_line env video video_path annotation_path fall_save_path
       no_fall_save_path image_size fall_start fall_end n line w).
Proof.
  intros. unfold data_line.
  by edestruct Data_loop_body_inv as (w2 & -> & ?); [lia..|].
Qed.

Lemma data_line_valid env video video_path annotation_path fall_save_path
    no_fall_save_path image_size fall_start fall_end n line w r :
  3 <= n -> valid_record line = Some r ->
  data_line env video video_path annotation_path fall_save_path
    no_fall_save_path image_size fall_start fall_end n line w
  = final (process_annotation env video video_path annotation_path
             (Data.img_save_path fall_save_path no_fall_save_path
                (Data.mkLocals (Some fall_start) (Some fall_end)))
             image_size n line w).
Proof.
  intros. unfold data_line. rewrite Data_loop_body_record by lia.
  edestruct process_annotation_inv as (w' & Heq & _).
  erewrite bind_normal by exact Heq. by rewrite Heq.
Qed.

Lemma Data_img_save_path_inj fall_save_path no_fall_save_path fall_start
    fall_end n m path :
  let loc := Data.mkLocals (Some fall_start) (Some fall_end) in
  Data.img_save_path fall_save_path no_fall_save_path loc n = inr path ->
  Data.img_save_path fall_save_path no_fall_save_path loc m = inr path ->
  n = m.
Proof.
  cbv zeta. rewrite !Data_img_save_path_interval.
  intros [= <-] [= Heq]. symmetry. by eapply frame_path_inj.
Qed.

Lemma utils_line_outcome env video video_path annotation_path save_path
    image_size n line w :
  record_outcome env video (Utils.img_save_path save_path) image_size line w
    (utils_line env video video_path annotation_path save_path image_size
       n line w).
Proof.
  unfold utils_line. by edestruct Utils_loop_body_inv as (w2 & -> & ?).
Qed.

Lemma utils_line_valid env video video_path annotation_path save_path
    image_size n line w r :
  valid_record line = Some r ->
  utils_line env video video_path annotation_path save_path image_size
    n line w
  = final (process_annotation env video video_path annotation_path
             (Utils.img_save_path save_path) image_size n line w).
Proof.
  intros Hvalid. unfold utils_line.
  by rewrite Utils_loop_body_record by by eapply valid_record_not_empty.
Qed.

Lemma Utils_img_save_path_inj save_path n m path :
  Utils.img_save_path save_path n = inr path ->
  Utils.img_save_path save_path m = inr path ->
  n = m.
Proof.
  unfold Utils.img_save_path. intros [= <-] [= Heq]. symmetry.
  by eapply frame_path_inj.
Qed.



(** ** Header lines *)

(** The line number of a record only shows in the diagnostics. *)
Lemma process_annotation_line_num env video video_path annotation_path
    save_path_for image_size n m line w :
  let o := process_annotation env video video_path annotation_path
             save_path_for image_size n line w in
  let o' := process_annotation env video video_path annotation_path
              save_path_for image_size m line w in
  imwrite_calls (final o) = imwrite_calls (final o')
  /\ disk (final o) = disk (final o').
Proof.
  cbv zeta. unfold process_annotation. repeat case_match; done.
Qed.

Lemma Utils_loop_body_line_num env video video_path annotation_path save_path
    image_size n m line w :
  let o := Utils.loop_body env video video_path annotation_path save_path
             image_size tt n line w in
  let o' := Utils.loop_body env video video_path annotation_path save_path
              image_size tt m line w in
  imwrite_calls (final o) = imwrite_calls (final o')
  /\ disk (final o) = disk (final o').
Proof.
  cbv zeta. unfold Utils.loop_body.
  destruct (String.eqb (Py.strip line) ""); [done|].
  apply process_annotation_line_num.
Qed.

(** A line without a comma is no record. *)
Lemma no_comma_not_valid line :
  Py.contains "," (Py.strip line) = false -> valid_record line = None.
Proof.
  intros Hno. unfold valid_record, fields_of, Py.split.
  by rewrite split_go_no_sep.
Qed.



(** ** Errors *)

(** [utils.py] never raises on an annotation file that exists. *)
Lemma Utils_crop_frames_returns env video_path annotation_path save_path
    image_size w :
  is_Some (text_file env annotation_path) ->
  exists w',
    Utils.crop_frames_using_annotations env video_path annotation_path
      save_path image_size w = Normal tt w'.
Proof.
  intros [file Hfile].
  destruct (video_capture env video_path) as [video|] eqn:Hvideo.
  - eexists. by eapply Utils_crop_frames_run.
  - unfold Utils.crop_frames_using_annotations. rewrite Hvideo. by eexists.
Qed.

(** A video that cannot be opened is reported and skipped, in both
    extractors. *)
Lemma unopenable_video_skipped env video_path annotation_path fall_save_path
    no_fall_save_path save_path image_size w :
  video_capture env video_path = None ->
  Data.crop_frames_using_annotations env video_path annotation_path
    fall_save_path no_fall_save_path image_size w
  = Normal tt (set_stdout (stdout w ++ [CannotOpenVideo video_path]) w)
  /\ Utils.crop_frames_using_annotations env video_path annotation_path
       save_path image_size w
     = Normal tt (set_stdout (stdout w ++ [CannotOpenVideo video_path]) w).
Proof.
  intros Hvideo.
  unfold Data.crop_frames_using_annotations,
    Utils.crop_frames_using_annotations.
  by rewrite Hvideo.
Qed.

(** In [data.py], no record line raises: from line 3 on the loop body
    returns. *)
Lemma Data_loop_body_returns env video video_path annotation_path
    fall_save_path no_fall_save_path image_size loc line_num line w :
  line_num <> 1 -> line_num <> 2 ->
  exists w',
    Data.loop_body env video video_path annotation_path fall_save_path
      no_fall_save_path image_size loc line_num line w = Normal loc w'.
Proof.
  intros. edestruct Data_loop_body_inv as (w' & Heq & _); [done..|].
  by exists w'.
Qed.

(** C3 fails in [data.py] on a header line that is no integer: the two
    [int(line.strip())] of lines 19 and 22 stand outside every [try], unlike
    the five [int()] of the record fields.  With two videos, the first of
    which has an annotation file that starts with [abc], the batch driver
    stops in the first video with an uncaught [ValueError]: nothing is
    logged for the line, no image is written, and the second video is never
    looked at.  [utils.py] skips the same line as malformed and goes on. *)
Theorem C3_bad_header_aborts_batch :
  Data.process_all_rooms bad_header_env
    [("videos/", "out/fall/", "out/no_fall/", "ann/")] 224 world0
  = Raise ValueError
      (set_stdout [ProcessingVideos 2 "videos/";
                   ProcessingVideo "a.avi" "ann/a.txt"] world0)
  /\ exists w',
       Utils.crop_frames_using_annotations bad_header_env "videos/a.avi"
         "ann/a.txt" "out/a" 224 world0 = Normal tt w'
       /\ stdout w' = [MalformedAnnotation 1 "ann/a.txt" "abc";
                       MalformedAnnotation 2 "ann/a.txt" "20"]
       /\ fst <$> imwrite_calls w' = ["out/a/15.jpg"].
Proof.
  split; [by vm_compute|]. eexists. split; [by vm_compute|]. by vm_compute.
Qed.

(** ** The splitter: collecting and shuffling *)

Lemma set_stdout_set_stdout out out' w :
  set_stdout out (set_stdout out' w) = set_stdout out w.
Proof. reflexivity. Qed.

Lemma found_images_cons env directory rest :
  found_images env (directory :: rest)
  = U1.images_under env directory ++ found_images env rest.
Proof. reflexivity. Qed.

(** Collecting only prints: one line per directory. *)
Lemma collect_into_spec env directories : forall files w,
  exists msgs,
    U1.collect_into env files directories w
    = Normal (files ++ found_images env directories)
             (set_stdout (stdout w ++ msgs) w).
Proof.
  induction directories as [|directory rest IH]; intros files w;
    cbn [U1.collect_into].
  - exists []. unfold ret, found_images. cbn. rewrite !app_nil_r.
    by destruct w.
  - erewrite bind_normal by apply print_eq.
    edestruct IH as [msgs ->]. eexists.
    rewrite found_images_cons, set_stdout_set_stdout.
    cbn [stdout set_stdout]. by rewrite <- !app_assoc.
Qed.

(** A collection prints nothing but the counts of what it found. *)
Lemma collect_into_found env directories : forall files w,
  exists msgs,
    U1.collect_into env files directories w
    = Normal (files ++ found_images env directories)
             (set_stdout (stdout w ++ msgs) w)
    /\ Forall (fun msg => exists count directory,
                            msg = FoundImages count directory) msgs.
Proof.
  induction directories as [|directory rest IH]; intros files w;
    cbn [U1.collect_into].
  - exists []. unfold ret, found_images. cbn. rewrite !app_nil_r.
    split; [by destruct w|done].
  - erewrite bind_normal by apply print_eq.
    edestruct IH as (msgs & -> & Hall). eexists. split.
    + rewrite found_images_cons, set_stdout_set_stdout.
      cbn [stdout set_stdout]. by rewrite <- !app_assoc.
    + apply Forall_cons_2; [by eexists _, _|done].
Qed.

Lemma collect_images_from_dirs_spec env directories w :
  exists msgs,
    U1.collect_images_from_dirs env directories w
    = Normal (found_images env directories) (set_stdout (stdout w ++ msgs) w).
Proof. apply (collect_into_spec env directories []). Qed.

Lemma swap_Permutation {A} (x : list A) i j : U1.swap x i j ≡ₚ x.
Proof.
  unfold U1.swap. destruct (x !! i) as [xi|] eqn:Hi; [|done].
  destruct (x !! j) as [xj|] eqn:Hj; [|done].
  by apply Permutation_insert_swap.
Qed.

(** Shuffling draws random numbers and returns a permutation. *)
Lemma shuffle_from_spec {A} env i : forall (x : list A) w,
  exists x' n,
    U1.shuffle_from env i x w = Normal x' (set_rng_calls n w) /\ x' ≡ₚ x.
Proof.
  induction i as [|i IH]; intros x w; cbn.
  - exists x, (rng_calls w). split; [by destruct w|done].
  - unfold bind, U1.randbelow.
    edestruct IH as (x' & n & -> & Hperm).
    exists x', n. split; [done|]. by rewrite Hperm, swap_Permutation.
Qed.

Lemma shuffle_spec {A} env (x : list A) w :
  exists x' n,
    U1.shuffle env x w = Normal x' (set_rng_calls n w) /\ x' ≡ₚ x.
Proof. apply shuffle_from_spec. Qed.

(** A run with an empty list: only the diagnostics are printed, the last
    one for the list found empty first, no_fall before fall. *)
Lemma split_data_empty env source_fall_dirs source_no_fall_dirs
    dest_base_dir train_ratio val_ratio w :
  found_images env source_fall_dirs = []
  \/ found_images env source_no_fall_dirs = [] ->
  exists msgs,
    U1.split_data env source_fall_dirs source_no_fall_dirs dest_base_dir
      train_ratio val_ratio w
    = Normal tt
        (set_stdout
           (stdout w ++ msgs
              ++ [if decide (found_images env source_no_fall_dirs = [])
                  then NoFilesNoFall else NoFilesFall]) w).
Proof.
  intros Hempty. unfold U1.split_data.
  destruct (collect_images_from_dirs_spec env source_fall_dirs w)
    as [msgs1 Heq1].
  erewrite bind_normal by exact Heq1.
  destruct (collect_images_from_dirs_spec env source_no_fall_dirs
              (set_stdout (stdout w ++ msgs1) w)) as [msgs2 Heq2].
  erewrite bind_normal by exact Heq2.
  rewrite set_stdout_set_stdout. cbn [stdout set_stdout].
  unfold U1.len. exists (msgs1 ++ msgs2).
  destruct (found_images env source_no_fall_dirs) as [|g no_fall].
  - rewrite decide_True by done. change (Z.of_nat (length [])) with 0.
    cbn [Z.eqb]. rewrite print_eq. cbn. by rewrite <- !app_assoc.
  - rewrite decide_False by done.
    destruct Hempty as [Hfall|?]; [|done]. rewrite Hfall.
    destruct (Z.eqb_spec (Z.of_nat (length (g :: no_fall))) 0) as [Hz|_];
      [done|].
    change (Z.of_nat (length [])) with 0. cbn [Z.eqb].
    rewrite print_eq. cbn. by rewrite <- !app_assoc.
Qed.

(** C6.  If the collected fall list or the collected no_fall list is
    empty, [split_data] is over after the two collections: it prints the
    diagnostic of the empty list (that of no_fall when both are empty) and
    returns.  No file is copied and the disk is as before, whatever the
    other list holds; nothing is shuffled either, and no image is
    written. *)
Theorem C6_empty_list_aborts env source_fall_dirs source_no_fall_dirs
    dest_base_dir train_ratio val_ratio w :
  found_images env source_fall_dirs = []
  \/ found_images env source_no_fall_dirs = [] ->
  exists w',
    U1.split_data env source_fall_dirs source_no_fall_dirs dest_base_dir
      train_ratio val_ratio w = Normal tt w'
    /\ disk w' = disk w
    /\ rng_calls w' = rng_calls w
    /\ imwrite_calls w' = imwrite_calls w
    /\ exists msgs,
         printed_since w w'
         = msgs ++ [if decide (found_images env source_no_fall_dirs = [])
                    then NoFilesNoFall else NoFilesFall]
         /\ Forall (fun msg => exists count directory,
                                 msg = FoundImages count directory) msgs.
Proof.
  intros Hempty. unfold U1.split_data, U1.collect_images_from_dirs.
  destruct (collect_into_found env source_fall_dirs [] w)
    as (msgs1 & Heq1 & Hall1).
  erewrite bind_normal by exact Heq1.
  set (w1 := set_stdout _ w).
  destruct (collect_into_found env source_no_fall_dirs [] w1)
    as (msgs2 & Heq2 & Hall2).
  erewrite bind_normal by exact Heq2.
  set (w2 := set_stdout _ w1). cbn [app].
  set (last_msg := if decide (found_images env source_no_fall_dirs = [])
                   then NoFilesNoFall else NoFilesFall).
  assert ((if U1.len (found_images env source_no_fall_dirs) =? 0
           then print NoFilesNoFall
           else if U1.len (found_images env source_fall_dirs) =? 0
                then print NoFilesFall
                else (fall_files <- U1.shuffle env
                                      (found_images env source_fall_dirs) ;;
                      no_fall_files <- U1.shuffle env
                                         (found_images env
                                            source_no_fall_dirs) ;;
                      U1.split_and_copy dest_base_dir train_ratio val_ratio
                        fall_files no_fall_files)) w2
          = print last_msg w2) as ->.
  { unfold last_msg, U1.len.
    destruct (found_images env source_no_fall_dirs) as [|g no_fall].
    - by rewrite decide_True.
    - rewrite decide_False by done.
      destruct Hempty as [Hfall|?]; [|done]. rewrite Hfall.
      by destruct (Z.eqb_spec (Z.of_nat (length (g :: no_fall))) 0). }
  eexists. split; [apply print_eq|]. repeat split.
  exists (msgs1 ++ msgs2). split.
  - unfold printed_since, w2, w1. cbn [stdout set_stdout].
    rewrite <- !app_assoc. by rewrite drop_app_length.
  - by apply Forall_app.
Qed.

Lemma C6_empty_list_aborts_witness :
  exists w',
    U1.split_data demo_env ["falls"] ["nowhere"] "out" Float.f0_7 Float.f0_15
      demo_world = Normal tt w'
    /\ disk w' = disk demo_world
    /\ stdout w' = [FoundImages 4 "falls"; FoundImages 0 "nowhere";
                    NoFilesNoFall].
Proof.
  destruct (C6_empty_list_aborts demo_env ["falls"] ["nowhere"] "out"
              Float.f0_7 Float.f0_15 demo_world)
    as (w' & Hrun & Hdisk & _); [by right|].
  exists w'. split; [exact Hrun|]. split; [exact Hdisk|].
  revert Hrun. vm_compute. by intros [= <-].
Defined.

(** ** The splitter: sizes *)

Lemma slice_lengths {A} (files : list A) train val :
  0 <= train -> 0 <= val -> train + val <= U1.len files ->
  U1.len (U1.train_slice files train) = train
  /\ U1.len (U1.val_slice files train val) = val
  /\ U1.len (U1.test_slice files train val) = U1.len files - train - val
  /\ U1.train_slice files train ++ U1.val_slice files train val
       ++ U1.test_slice files train val = files.
Proof.
  unfold U1.len, U1.train_slice, U1.val_slice, U1.test_slice, Py.slice,
    Py.slice_index. cbn [from_option]. intros Ht Hv Hsum.
  destruct (Z.ltb_spec train 0); [lia|].
  destruct (Z.ltb_spec (train + val) 0); [lia|].
  rewrite !Z.min_l by lia. rewrite Nat2Z.id, (take_ge files (length files)) by lia.
  change (Z.to_nat 0) with 0%nat. cbn [drop].
  rewrite !length_drop, !length_take.
  repeat split; try lia.
  rewrite drop_take_drop by lia. apply take_drop.
Qed.

(** On a float that is not negative, [int()] and [math.floor()] agree. *)
Lemma to_int_floor x : nonneg x = true -> Float.floor x = Float.to_int x.
Proof. destruct x as [s|s| |[] m e]; cbn; done. Qed.

Lemma binary_round_aux_sign s m e l :
  match binary_round_aux Float.prec Float.emax s m e l with
  | S754_finite s' _ _ | S754_zero s' | S754_infinity s' => s' = s
  | S754_nan => True
  end.
Proof.
  unfold binary_round_aux.
  destruct (shr_fexp _ _ _ _ _) as [mrs' e'].
  destruct (shr_fexp _ _ _ _ _) as [mrs'' e''].
  destruct (shr_m mrs''); [done| |done]. by destruct (_ <=? _).
Qed.

Lemma binary_round_sign s m e :
  match binary_round Float.prec Float.emax s m e with
  | S754_finite s' _ _ | S754_zero s' | S754_infinity s' => s' = s
  | S754_nan => True
  end.
Proof.
  unfold binary_round. destruct (shl_align _ _ _) as [mz ez].
  apply binary_round_aux_sign.
Qed.

Lemma of_int_nonneg total t :
  0 <= total -> Float.of_int total = Some t -> nonneg t = true.
Proof.
  unfold Float.of_int, binary_normalize. destruct total as [|p|p]; [| |lia].
  - by intros _ [= <-].
  - intros _. pose proof (binary_round_sign false p 0) as Hsign.
    destruct (binary_round _ _ _ _ _) as [s|s| |s m e];
      intros [= <-]; cbn; by subst.
Qed.

Lemma mul_nonneg x y :
  nonneg x = true -> nonneg y = true -> nonneg (Float.mul x y) = true.
Proof.
  intros Hx Hy. unfold Float.mul, SFmul.
  destruct x as [sx|sx| |sx mx ex], y as [sy|sy| |sy my ey]; try done;
    cbn in Hx, Hy; try apply negb_true_iff in Hx;
    try apply negb_true_iff in Hy; subst; try done.
  pose proof (binary_round_aux_sign (xorb false false)
                (Z.pos (mx * my)) (ex + ey) loc_Exact) as Hsign.
  destruct (binary_round_aux _ _ _ _ _ _) as [s|s| |s m e]; cbn;
    by subst.
Qed.

Lemma to_int_nonneg x n :
  nonneg x = true -> Float.to_int x = inr n -> 0 <= n.
Proof.
  destruct x as [s|s| |[] m e]; cbn; try done.
  - by intros _ [= <-].
  - intros _ [= <-]. destruct (Z.leb_spec 0 e).
    + apply Z.mul_nonneg_nonneg; [done|]. by apply Z.pow_nonneg.
    + apply Z.div_pos; [done|]. apply Z.pow_pos_nonneg; lia.
Qed.

(** For a ratio that is not negative, the size the code takes is the floor
    of the specification. *)
Lemma count_of_spec_count ratio total :
  nonneg ratio = true -> 0 <= total ->
  spec_count ratio total = U1.count_of ratio total.
Proof.
  intros Hratio Htotal. unfold spec_count, U1.count_of.
  destruct (Float.of_int total) as [t|] eqn:Ht; [|done].
  apply to_int_floor, mul_nonneg; [done|]. by eapply of_int_nonneg.
Qed.

Lemma count_of_nonneg ratio total n :
  nonneg ratio = true -> 0 <= total -> U1.count_of ratio total = inr n ->
  0 <= n.
Proof.
  intros Hratio Htotal. unfold U1.count_of.
  destruct (Float.of_int total) as [t|] eqn:Ht; [|done].
  apply to_int_nonneg, mul_nonneg; [done|]. by eapply of_int_nonneg.
Qed.

(** ** The splitter: what a run leaves alone *)

Section FinalWorld.

Variable R : World -> World -> Prop.
Hypothesis R_refl : forall w, R w w.
Hypothesis R_trans : forall w1 w2 w3, R w1 w2 -> R w2 w3 -> R w1 w3.

Lemma final_bind {A B} (m : M A) (k : A -> M B) w :
  R w (final (m w)) ->
  (forall a w', R w' (final (k a w'))) ->
  R w (final (bind m k w)).
Proof.
  intros Hm Hk. unfold bind. destruct (m w) as [a w'|e w']; [|done].
  eapply R_trans; [exact Hm|apply Hk].
Qed.

Lemma final_for_each {A} (body : A -> M unit) (xs : list A) :
  (forall x w, x ∈ xs -> R w (final (body x w))) ->
  forall w, R w (final (for_each body xs w)).
Proof.
  induction xs as [|x xs IH]; intros Hbody w; cbn [for_each].
  - apply R_refl.
  - apply final_bind.
    + apply Hbody. by left.
    + intros _ w'. apply IH. intros y w'' Hy. apply Hbody. by right.
Qed.

Lemma final_lift_exn {A} (r : Exn + A) w : R w (final (lift_exn r w)).
Proof. destruct r; apply R_refl. Qed.

End FinalWorld.

(** A copy changes one file of the disk, its target, and nothing else of the
    world; the target is the destination unless that is a directory. *)
Lemma shutil_copy_final src dst w :
  final (U1.shutil_copy src dst w) = w
  \/ exists target content,
       (dst ∉ dirs w -> target = dst)
       /\ disk w !! src = Some content /\ src <> target
       /\ U1.shutil_copy src dst w
          = Normal tt (set_disk (<[target := content]> (disk w)) w).
Proof.
  unfold U1.shutil_copy.
  set (target := if bool_decide (dst ∈ dirs w) then _ else dst).
  destruct (bool_decide (src ∈ dirs w)); [by left|].
  destruct (disk w !! src) as [content|]; [|by left].
  destruct (decide (src = target)); [by left|].
  destruct (bool_decide (target ∈ dirs w)); [by left|].
  destruct (_ || _); [|by left].
  right. exists target, content. split; [|done].
  intros Hdst. unfold target. by rewrite bool_decide_eq_false_2.
Qed.

(** A copy that can be made, of a file that exists to another name. *)
Lemma shutil_copy_file src dst content w :
  copy_ready w src dst -> disk w !! src = Some content -> src <> dst ->
  U1.shutil_copy src dst w
  = Normal tt (set_disk (<[dst := content]> (disk w)) w).
Proof.
  intros (Hsrc & Hdst & Hdir) Hcontent Hne. unfold U1.shutil_copy.
  rewrite !(bool_decide_eq_false_2 (dst ∈ dirs w)) by done.
  rewrite (bool_decide_eq_false_2 (src ∈ dirs w)) by done.
  rewrite Hcontent. destruct (decide (src = dst)); [done|].
  by rewrite Hdir.
Qed.

Lemma copy_ready_set_disk d w src dst :
  copy_ready (set_disk d w) src dst <-> copy_ready w src dst.
Proof. done. Qed.

Lemma copy_all_stdout dest_base_dir split label files w :
  stdout (final (U1.copy_all dest_base_dir split label files w))
  = stdout w.
Proof.
  unfold U1.copy_all.
  apply (final_for_each (fun w w' => stdout w' = stdout w)); try done.
  - intros w1 w2 w3 H12 H23. by rewrite H23.
  - intros file w' _.
    by destruct (shutil_copy_final file
                   (U1.destination dest_base_dir split label file) w')
      as [->|(t & c & _ & _ & _ & ->)].
Qed.

Lemma bind_lift_inr {A B} (a : A) (k : A -> M B) w :
  bind (lift_exn (inr a)) k w = k a w.
Proof. reflexivity. Qed.

(** The three summary lines are the last thing [split_and_copy] prints. *)
Lemma split_and_copy_stdout dest_base_dir train_ratio val_ratio
    fall_files no_fall_files train_fall val_fall train_no_fall val_no_fall w :
  U1.count_of train_ratio (U1.len fall_files) = inr train_fall ->
  U1.count_of val_ratio (U1.len fall_files) = inr val_fall ->
  U1.count_of train_ratio (U1.len no_fall_files) = inr train_no_fall ->
  U1.count_of val_ratio (U1.len no_fall_files) = inr val_no_fall ->
  stdout (final (U1.split_and_copy dest_base_dir train_ratio val_ratio
                   fall_files no_fall_files w))
  = stdout w
    ++ [TrainingSet (U1.len (U1.train_slice fall_files train_fall))
          (U1.len (U1.train_slice no_fall_files train_no_fall));
        ValidationSet (U1.len (U1.val_slice fall_files train_fall val_fall))
          (U1.len (U1.val_slice no_fall_files train_no_fall val_no_fall));
        TestSet (U1.len (U1.test_slice fall_files train_fall val_fall))
          (U1.len (U1.test_slice no_fall_files train_no_fall val_no_fall))].
Proof.
  intros H1 H2 H3 H4. unfold U1.split_and_copy.
  rewrite H1, bind_lift_inr, H2, bind_lift_inr, H3, bind_lift_inr, H4,
    bind_lift_inr.
  erewrite bind_normal by apply print_eq.
  erewrite bind_normal by apply print_eq.
  erewrite bind_normal by apply print_eq.
  set (w3 := set_stdout _ _).
  transitivity (stdout w3); [|unfold w3; cbn; by rewrite <- !app_assoc].
  generalize w3. clear w3. intros w3.
  match goal with
  | |- stdout (final ?o) = stdout ?w => change (same_stdout w (final o))
  end.
  repeat (apply (final_bind same_stdout);
          [unfold same_stdout; by intros ? ? ? ? ->
          |apply copy_all_stdout
          |intros _ ?]).
  apply copy_all_stdout.
Qed.

Lemma exact_cut_intro files train val :
  0 <= train -> 0 <= val -> train + val <= U1.len files ->
  exact_cut files train val.
Proof.
  intros Ht Hv Hsum.
  destruct (slice_lengths files train val Ht Hv Hsum) as (H1 & H2 & H3 & H4).
  unfold exact_cut. rewrite H1, H2, H3. repeat split; (done || lia).
Qed.

Lemma len_Permutation {A} (l l' : list A) : l ≡ₚ l' -> U1.len l = U1.len l'.
Proof. unfold U1.len. by intros ->. Qed.

(** With two lists that are not empty, a run of [split_data] is
    [split_and_copy] on a permutation of each, after the two collections
    printed their lines and the random generator was used. *)
Lemma split_data_run env source_fall_dirs source_no_fall_dirs dest_base_dir
    train_ratio val_ratio w :
  found_images env source_fall_dirs <> [] ->
  found_images env source_no_fall_dirs <> [] ->
  exists fall_files no_fall_files msgs n,
    fall_files ≡ₚ found_images env source_fall_dirs
    /\ no_fall_files ≡ₚ found_images env source_no_fall_dirs
    /\ U1.split_data env source_fall_dirs source_no_fall_dirs dest_base_dir
         train_ratio val_ratio w
       = U1.split_and_copy dest_base_dir train_ratio val_ratio
           fall_files no_fall_files
           (set_rng_calls n (set_stdout (stdout w ++ msgs) w)).
Proof.
  intros Hfall Hno. unfold U1.split_data.
  destruct (collect_images_from_dirs_spec env source_fall_dirs w)
    as [msgs1 Heq1].
  erewrite bind_normal by exact Heq1.
  destruct (collect_images_from_dirs_spec env source_no_fall_dirs
              (set_stdout (stdout w ++ msgs1) w)) as [msgs2 Heq2].
  erewrite bind_normal by exact Heq2.
  rewrite set_stdout_set_stdout. cbn [stdout set_stdout].
  unfold U1.len.
  destruct (Z.eqb_spec (Z.of_nat (length (found_images env
                                            source_no_fall_dirs))) 0)
    as [Hz|_].
  { by destruct (found_images env source_no_fall_dirs). }
  destruct (Z.eqb_spec (Z.of_nat (length (found_images env
                                            source_fall_dirs))) 0)
    as [Hz|_].
  { by destruct (found_images env source_fall_dirs). }
  set (w1 := set_stdout _ w).
  destruct (shuffle_spec env (found_images env source_fall_dirs) w1)
    as (fall_files & n1 & Hs1 & Hp1).
  erewrite bind_normal by exact Hs1.
  destruct (shuffle_spec env (found_images env source_no_fall_dirs)
              (set_rng_calls n1 w1)) as (no_fall_files & n2 & Hs2 & Hp2).
  erewrite bind_normal by exact Hs2.
  exists fall_files, no_fall_files, (msgs1 ++ msgs2), n2.
  repeat split; try done. unfold w1. by rewrite <- app_assoc.
Qed.

Ltac count_nonneg :=
  match goal with
  | H : U1.count_of ?r ?t = inr ?n |- 0 <= ?n =>
      apply (count_of_nonneg r t n); [done|done|exact H]
  end.

(** C2, as amended.  Let both collected lists be non-empty, let neither
    ratio be negative, and for each label let floor(train_ratio * total)
    plus floor(val_ratio * total) be at most the label's total (the products
    being those of Python floats).  Then [split_data] cuts a permutation of
    each list, each on its own: the train slice has exactly
    floor(train_ratio * total) elements, the val slice exactly
    floor(val_ratio * total), the test slice the rest, the three lengths sum
    to the total and the three slices are the list cut in three; and these
    are the sizes that the run prints. *)
Theorem C2_split_sizes env source_fall_dirs source_no_fall_dirs dest_base_dir
    train_ratio val_ratio w train_fall val_fall train_no_fall val_no_fall :
  let fall := found_images env source_fall_dirs in
  let no_fall := found_images env source_no_fall_dirs in
  fall <> [] -> no_fall <> [] ->
  nonneg train_ratio = true -> nonneg val_ratio = true ->
  spec_count train_ratio (U1.len fall) = inr train_fall ->
  spec_count val_ratio (U1.len fall) = inr val_fall ->
  spec_count train_ratio (U1.len no_fall) = inr train_no_fall ->
  spec_count val_ratio (U1.len no_fall) = inr val_no_fall ->
  train_fall + val_fall <= U1.len fall ->
  train_no_fall + val_no_fall <= U1.len no_fall ->
  exists fall_files no_fall_files w1 msgs,
    fall_files ≡ₚ fall /\ no_fall_files ≡ₚ no_fall
    /\ U1.split_data env source_fall_dirs source_no_fall_dirs dest_base_dir
         train_ratio val_ratio w
       = U1.split_and_copy dest_base_dir train_ratio val_ratio
           fall_files no_fall_files w1
    /\ disk w1 = disk w
    /\ U1.count_of train_ratio (U1.len fall_files) = inr train_fall
    /\ U1.count_of val_ratio (U1.len fall_files) = inr val_fall
    /\ U1.count_of train_ratio (U1.len no_fall_files) = inr train_no_fall
    /\ U1.count_of val_ratio (U1.len no_fall_files) = inr val_no_fall
    /\ exact_cut fall_files train_fall val_fall
    /\ exact_cut no_fall_files train_no_fall val_no_fall
    /\ printed_since w
         (final (U1.split_data env source_fall_dirs source_no_fall_dirs
                   dest_base_dir train_ratio val_ratio w))
       = msgs ++ [TrainingSet train_fall train_no_fall;
                  ValidationSet val_fall val_no_fall;
                  TestSet (U1.len fall - train_fall - val_fall)
                    (U1.len no_fall - train_no_fall - val_no_fall)].
Proof.
  intros fall no_fall Hfall Hno Htr Hvr Htf Hvf Htn Hvn Hsf Hsn.
  destruct (split_data_run env source_fall_dirs source_no_fall_dirs
              dest_base_dir train_ratio val_ratio w Hfall Hno)
    as (fall_files & no_fall_files & msgs & n & Hpf & Hpn & Hrun).
  fold fall in Hpf. fold no_fall in Hpn.
  assert (0 <= U1.len fall /\ 0 <= U1.len no_fall) as [? ?]
    by (unfold U1.len; lia).
  rewrite count_of_spec_count in Htf, Hvf, Htn, Hvn by done.
  pose proof (len_Permutation _ _ Hpf) as Hlf.
  pose proof (len_Permutation _ _ Hpn) as Hln.
  assert (exact_cut fall_files train_fall val_fall) as Hcf.
  { apply exact_cut_intro; rewrite ?Hlf; try done; count_nonneg. }
  assert (exact_cut no_fall_files train_no_fall val_no_fall) as Hcn.
  { apply exact_cut_intro; rewrite ?Hln; try done; count_nonneg. }
  exists fall_files, no_fall_files,
    (set_rng_calls n (set_stdout (stdout w ++ msgs) w)), msgs.
  rewrite Hlf, Hln. repeat split; try done; try apply Hcf; try apply Hcn.
  rewrite Hrun. unfold printed_since.
  rewrite (split_and_copy_stdout _ _ _ _ _ train_fall val_fall train_no_fall
             val_no_fall) by by rewrite ?Hlf, ?Hln.
  cbn [stdout set_rng_calls set_stdout].
  rewrite <- app_assoc, drop_app_length.
  destruct Hcf as (-> & -> & -> & _), Hcn as (-> & -> & -> & _).
  by rewrite Hlf, Hln.
Qed.

Lemma C2_split_sizes_witness :
  exists msgs,
    printed_since demo_world
      (final (U1.split_data demo_env ["falls"] ["walks"] "out" Float.f0_7
                Float.f0_15 demo_world))
    = msgs ++ [TrainingSet 2 1; ValidationSet 0 0; TestSet 2 1].
Proof.
  destruct (C2_split_sizes demo_env ["falls"] ["walks"] "out" Float.f0_7
              Float.f0_15 demo_world 2 0 1 0)
    as (fall_files & no_fall_files & w1 & msgs & Hrest);
    try (vm_compute; (reflexivity || discriminate)).
  exists msgs. apply Hrest.
Defined.

(** C2 as stated fails when the two ratios sum to more than 1: with four
    fall images, [train_ratio = 0.8] and [val_ratio = 0.5], the train slice
    takes floor(0.8 * 4) = 3 images and only one is left for the val slice,
    where floor(0.5 * 4) = 2; the run prints these sizes. *)
Lemma C2_val_slice_short_of_floor :
  let fall := found_images demo_env ["falls"] in
  U1.len fall = 4
  /\ spec_count Float.f0_8 4 = inr 3
  /\ spec_count Float.f0_5 4 = inr 2
  /\ U1.count_of Float.f0_8 4 = inr 3
  /\ U1.count_of Float.f0_5 4 = inr 2
  /\ U1.len (U1.val_slice fall 3 2) = 1
  /\ printed_since demo_world
       (final (U1.split_data demo_env ["falls"] ["walks"] "out" Float.f0_8
                 Float.f0_5 demo_world))
     = [FoundImages 4 "falls"; FoundImages 2 "walks";
        TrainingSet 3 1; ValidationSet 1 1; TestSet 0 0].
Proof. vm_compute. repeat split; reflexivity. Qed.

(** ** The splitter: copies *)

Lemma contains_rev_app c s acc :
  Py.contains c (String.rev_app s acc) = Py.contains c s || Py.contains c acc.
Proof.
  revert acc. induction s as [|a s IH]; intros acc; cbn; [done|].
  rewrite IH. cbn. destruct (Ascii.eqb a c), (Py.contains c s); done.
Qed.

Lemma split_go_fields sep cur s :
  Py.contains sep cur = false ->
  Forall (fun field => Py.contains sep field = false) (Py.split_go sep cur s).
Proof.
  revert cur. induction s as [|a s IH]; intros cur Hcur; cbn.
  - apply Forall_cons_2; [|done]. unfold String.rev.
    by rewrite contains_rev_app, Hcur.
  - destruct (Ascii.eqb a sep) eqn:Ha.
    + apply Forall_cons_2; [|by apply IH]. unfold String.rev.
      by rewrite contains_rev_app, Hcur.
    + apply IH. cbn. by rewrite Ha.
Qed.

(** A base name holds no separator. *)
Lemma basename_no_slash p : Py.contains "/" (Py.basename p) = false.
Proof.
  unfold Py.basename, Py.split.
  pose proof (split_go_fields "/" EmptyString p eq_refl) as Hall.
  induction Hall as [|x l Hx Hl IH]; [done|].
  destruct l; [done|]. exact IH.
Qed.

(** [os.path.basename] of a destination is that of the copied file: two
    files of a group go to the same destination exactly when they share
    their base name. *)
Lemma destination_basename dest_base_dir split label file :
  Py.basename (U1.destination dest_base_dir split label file)
  = Py.basename file.
Proof.
  unfold U1.destination.
  apply (basename_join dest_base_dir [split; label]), basename_no_slash.
Qed.

Lemma for_each_app {A} (body : A -> M unit) xs ys w :
  for_each body (xs ++ ys) w
  = bind (for_each body xs) (fun _ => for_each body ys) w.
Proof.
  revert w. induction xs as [|x xs IH]; intros w; cbn [for_each app].
  - reflexivity.
  - unfold bind. destruct (body x w) as [[] w'|e w']; [|done]. apply IH.
Qed.

Section CopyGroup.

Variables dest_base_dir split label : string.

Let dst := U1.destination dest_base_dir split label.

(** A group whose files all exist, none of which is the destination of
    one of them, and whose copies can be made, is copied to the end; the
    disk changes at destinations only. *)
Lemma copy_all_spec files : forall w,
  (forall f, f ∈ files -> is_Some (disk w !! f)) ->
  (forall f g, f ∈ files -> g ∈ files -> dst g <> f) ->
  (forall f, f ∈ files -> copy_ready w f (dst f)) ->
  exists w',
    U1.copy_all dest_base_dir split label files w = Normal tt w'
    /\ forall p, (forall g, g ∈ files -> dst g <> p) ->
                 disk w' !! p = disk w !! p.
Proof.
  unfold U1.copy_all.
  induction files as [|x files IH]; intros w Hexist Hdisj Hready;
    cbn [for_each].
  - by exists w.
  - destruct (Hexist x) as [content Hx]; [by left|].
    assert (x <> dst x) as Hxd.
    { intros Heq. eapply (Hdisj x x); [by left..|done]. }
    unfold bind. fold dst.
    rewrite (shutil_copy_file x (dst x) content w)
      by (done || apply Hready; by left).
    destruct (IH (set_disk (<[dst x := content]> (disk w)) w))
      as (w' & Heq & Hrest).
    + intros f Hf. cbn. rewrite lookup_insert_ne; [apply Hexist; by right|].
      apply Hdisj; [by right|by left].
    + intros f g Hf Hg. apply Hdisj; by right.
    + intros f Hf. apply copy_ready_set_disk, Hready. by right.
    + exists w'. split; [exact Heq|]. intros p Hp.
      rewrite Hrest by (intros g Hg; apply Hp; by right).
      cbn. apply lookup_insert_ne, Hp. by left.
Qed.

(** The last file of a group that goes to a destination decides what the
    destination holds. *)
Lemma copy_all_last before file after w :
  let files := before ++ file :: after in
  (forall f, f ∈ files -> is_Some (disk w !! f)) ->
  (forall f g, f ∈ files -> g ∈ files -> dst g <> f) ->
  (forall f, f ∈ files -> copy_ready w f (dst f)) ->
  Forall (fun f => dst f <> dst file) after ->
  exists w',
    U1.copy_all dest_base_dir split label files w = Normal tt w'
    /\ disk w' !! dst file = disk w !! file
    /\ forall f, f ∈ files -> disk w' !! f = disk w !! f.
Proof.
  intros files Hexist Hdisj Hready Hafter.
  destruct (copy_all_spec files w Hexist Hdisj Hready) as (w' & Heq & Hrest).
  exists w'. split; [exact Heq|]. split.
  2:{ intros f Hf. apply Hrest. intros g Hg. by apply Hdisj. }
  unfold files, U1.copy_all in Heq. rewrite for_each_app in Heq.
  destruct (copy_all_spec before w) as (w1 & Heq1 & Hrest1).
  { intros f Hf. apply Hexist, elem_of_app. by left. }
  { intros f g Hf Hg. apply Hdisj; apply elem_of_app; by left. }
  { intros f Hf. apply Hready, elem_of_app. by left. }
  assert (dirs w1 = dirs w) as Hdirs1.
  { pose proof (f_equal final Heq1) as Hfin. cbn [final] in Hfin.
    rewrite <- Hfin. unfold U1.copy_all.
    apply (final_for_each (fun w w' => dirs w' = dirs w)); try done.
    - intros wa wb wc Hab Hbc. by rewrite Hbc.
    - intros g wg _.
      by destruct (shutil_copy_final g
                     (U1.destination dest_base_dir split label g) wg)
        as [->|(t & c & _ & _ & _ & ->)]. }
  unfold U1.copy_all in Heq1. erewrite bind_normal in Heq by exact Heq1.
  cbn [for_each] in Heq. fold dst in Heq.
  assert (file ∈ files) as Hfile
    by (apply elem_of_app; right; by left).
  assert (disk w1 !! file = disk w !! file) as Hw1.
  { apply Hrest1. intros g Hg. apply Hdisj; [done|].
    apply elem_of_app. by left. }
  destruct (Hexist file Hfile) as [content Hcontent].
  assert (file <> dst file) as Hne.
  { intros Hbad. by eapply (Hdisj file file). }
  assert (forall f, f ∈ files -> copy_ready w1 f (dst f)) as Hready1.
  { intros f Hf. unfold copy_ready, U1.isdir. rewrite Hdirs1.
    by apply Hready. }
  unfold bind in Heq.
  rewrite (shutil_copy_file file (dst file) content w1) in Heq
    by (done || by (rewrite Hw1) || by apply Hready1).
  destruct (copy_all_spec after
              (set_disk (<[dst file := content]> (disk w1)) w1))
    as (w2 & Heq2 & Hrest2).
  { intros f Hf. cbn.
    assert (f ∈ files) by (apply elem_of_app; right; by right).
    rewrite lookup_insert_ne by by apply Hdisj.
    rewrite Hrest1; [by apply Hexist|].
    intros g Hg. apply Hdisj; [done|]. apply elem_of_app. by left. }
  { intros f g Hf Hg. apply Hdisj; apply elem_of_app; right; by right. }
  { intros f Hf. apply copy_ready_set_disk, Hready1.
    apply elem_of_app; right; by right. }
  unfold U1.copy_all in Heq2. fold dst in Heq2. rewrite Heq2 in Heq.
  injection Heq as <-.
  rewrite Hrest2.
  - cbn. by rewrite lookup_insert_eq.
  - intros g Hg. by apply (proj1 (Forall_forall _ _) Hafter).
Qed.

End CopyGroup.

Lemma keeps_refl files w : keeps files w w.
Proof. by intros f _. Qed.

Lemma keeps_trans files w1 w2 w3 :
  keeps files w1 w2 -> keeps files w2 w3 -> keeps files w1 w3.
Proof. intros H12 H23 f Hf. by rewrite H23, H12. Qed.

Lemma keeps_print files msg w : keeps files w (final (print msg w)).
Proof. by intros f _. Qed.

Lemma slice_subseteq {A} (l : list A) start stop x :
  x ∈ Py.slice l start stop -> x ∈ l.
Proof.
  unfold Py.slice. intros Hx%subseteq_drop. by apply subseteq_take in Hx.
Qed.

(** Membership in a list that is written out. *)
Ltac in_list :=
  repeat first [apply list_elem_of_here | apply list_elem_of_further].

Section KeepsSources.

Variable existing : gset string.
Variable sources : list string.
Variable dest_base_dir : string.

Hypothesis apart : forall f g split label,
  split ∈ U1.splits -> label ∈ U1.categories ->
  f ∈ sources -> g ∈ sources ->
  U1.destination dest_base_dir split label g <> f.
Hypothesis no_directory : forall g split label,
  split ∈ U1.splits -> label ∈ U1.categories -> g ∈ sources ->
  U1.destination dest_base_dir split label g ∉ existing.

(** From a world with the directories [existing], a step leads to such a
    world and keeps the sources. *)
Let kept (w w' : World) : Prop :=
  dirs w = existing -> dirs w' = existing /\ keeps sources w w'.

Lemma kept_refl w : kept w w.
Proof. intros Hd. split; [done|apply keeps_refl]. Qed.

Lemma kept_trans w1 w2 w3 : kept w1 w2 -> kept w2 w3 -> kept w1 w3.
Proof.
  intros H12 H23 Hd. destruct (H12 Hd) as [Hd2 Hk12].
  destruct (H23 Hd2) as [Hd3 Hk23]. split; [done|by eapply keeps_trans].
Qed.

Lemma kept_print msg w : kept w (final (print msg w)).
Proof. intros Hd. split; [done|apply keeps_print]. Qed.

(** Copying files of [sources] keeps [sources], when no destination is one
    of them or a directory. *)
Lemma copy_all_kept split label files w :
  split ∈ U1.splits -> label ∈ U1.categories ->
  (forall g, g ∈ files -> g ∈ sources) ->
  kept w (final (U1.copy_all dest_base_dir split label files w)).
Proof.
  intros Hs Hl Hsub. unfold U1.copy_all.
  apply (final_for_each kept); [apply kept_refl|apply kept_trans|].
  intros g w' Hg Hd.
  destruct (shutil_copy_final g
              (U1.destination dest_base_dir split label g) w')
    as [->|(target & content & Htarget & _ & _ & ->)];
    [split; [done|apply keeps_refl]|].
  split; [done|]. rewrite Htarget.
  - intros f Hf. cbn. apply lookup_insert_ne, apart; [done..|]. by apply Hsub.
  - rewrite Hd. apply no_directory; [done..|]. by apply Hsub.
Qed.

Lemma split_and_copy_kept train_ratio val_ratio fall_files no_fall_files w :
  (forall g, g ∈ fall_files -> g ∈ sources) ->
  (forall g, g ∈ no_fall_files -> g ∈ sources) ->
  kept w
    (final (U1.split_and_copy dest_base_dir train_ratio val_ratio fall_files
              no_fall_files w)).
Proof.
  intros Hfall Hno. unfold U1.split_and_copy.
  unfold U1.train_slice, U1.val_slice, U1.test_slice.
  repeat (apply (final_bind kept);
          [apply kept_trans
          |first [apply final_lift_exn, kept_refl
                 |apply kept_print
                 |apply copy_all_kept;
                  [in_list|in_list|intros g Hg%slice_subseteq; by auto]]
          |intros ? ?]).
  apply copy_all_kept; [in_list|in_list|].
  intros g Hg%slice_subseteq. by auto.
Qed.

End KeepsSources.

Lemma split_data_keeps env source_fall_dirs source_no_fall_dirs dest_base_dir
    train_ratio val_ratio w :
  let sources := found_images env source_fall_dirs
                 ++ found_images env source_no_fall_dirs in
  (forall f g split label,
     split ∈ U1.splits -> label ∈ U1.categories ->
     f ∈ sources -> g ∈ sources ->
     U1.destination dest_base_dir split label g <> f) ->
  (forall g split label,
     split ∈ U1.splits -> label ∈ U1.categories -> g ∈ sources ->
     U1.destination dest_base_dir split label g ∉ dirs w) ->
  keeps sources w
    (final (U1.split_data env source_fall_dirs source_no_fall_dirs
              dest_base_dir train_ratio val_ratio w)).
Proof.
  intros sources Hdisj Hnodir.
  destruct (decide (found_images env source_fall_dirs = [])) as [Hf|Hf].
  { edestruct split_data_empty as (msgs & ->); [by left|].
    by intros f _. }
  destruct (decide (found_images env source_no_fall_dirs = [])) as [Hn|Hn].
  { edestruct split_data_empty as (msgs & ->); [by right|].
    by intros f _. }
  destruct (split_data_run env source_fall_dirs source_no_fall_dirs
              dest_base_dir train_ratio val_ratio w Hf Hn)
    as (fall_files & no_fall_files & msgs & n & Hpf & Hpn & ->).
  eapply keeps_trans;
    [|eapply (split_and_copy_kept (dirs w) sources dest_base_dir Hdisj Hnodir)].
  - by intros f _.
  - intros g Hg. rewrite Hpf in Hg. apply elem_of_app. by left.
  - intros g Hg. rewrite Hpn in Hg. apply elem_of_app. by right.
  - done.
Qed.



(** Case analysis on membership in a list that is written out. *)
Ltac list_cases H :=
  repeat (apply elem_of_cons in H as [->|H]); try (by apply elem_of_nil in H).


(** * Further properties *)

(** ** When the extractors raise *)

(** A run of [data.py] over a file whose header is in order returns. *)
Lemma Data_crop_frames_header_ok env video_path annotation_path
    fall_save_path no_fall_save_path image_size video file w :
  video_capture env video_path = Some video ->
  text_file env annotation_path = Some file ->
  header_ok file = true ->
  exists w',
    Data.crop_frames_using_annotations env video_path annotation_path
      fall_save_path no_fall_save_path image_size w = Normal tt w'.
Proof.
  intros Hvideo Hfile Hok.
  destruct file as [|head1 [|head2 records]]; cbn in Hok.
  - unfold Data.crop_frames_using_annotations. rewrite Hvideo, Hfile.
    by eexists.
  - apply andb_true_iff in Hok as [[n Hn]%bool_decide_eq_true _].
    unfold Data.crop_frames_using_annotations. rewrite Hvideo, Hfile.
    cbn [for_enumerate]. unfold Data.loop_body. cbn [Z.eqb Pos.eqb].
    rewrite Hn. by eexists.
  - apply andb_true_iff in Hok
      as [[n1 Hn1]%bool_decide_eq_true [n2 Hn2]%bool_decide_eq_true].
    eexists. by eapply Data_crop_frames_run.
Qed.



(** ** The fields of a record that are not read *)

Lemma parse_record_ext annotations annotations' :
  (forall i, i ∈ [0; 2; 3; 4; 5]%nat ->
             nth i annotations EmptyString = nth i annotations' EmptyString) ->
  parse_record annotations = parse_record annotations'.
Proof.
  intros Hsame. unfold parse_record.
  rewrite (Hsame 0%nat), (Hsame 2%nat), (Hsame 3%nat), (Hsame 4%nat),
    (Hsame 5%nat) by in_list.
  done.
Qed.

Lemma six_fields_not_blank line :
  (6 <= length (fields_of line))%nat ->
  String.eqb (Py.strip line) "" = false.
Proof.
  intros Hlen. destruct (String.eqb_spec (Py.strip line) "") as [Hblank|];
    [|done].
  unfold fields_of in Hlen. rewrite Hblank in Hlen. cbn in Hlen. lia.
Qed.

Lemma process_annotation_ext env video video_path annotation_path
    save_path_for image_size line_num line line' w :
  (6 <= length (fields_of line))%nat ->
  (6 <= length (fields_of line'))%nat ->
  (forall i, i ∈ [0; 2; 3; 4; 5]%nat ->
             nth i (fields_of line) EmptyString
             = nth i (fields_of line') EmptyString) ->
  process_annotation env video video_path annotation_path save_path_for
    image_size line_num line w
  = process_annotation env video video_path annotation_path save_path_for
      image_size line_num line' w.
Proof.
  intros Hlen Hlen' Hsame. unfold process_annotation.
  destruct (Nat.ltb_spec (length (fields_of line)) 6); [lia|].
  destruct (Nat.ltb_spec (length (fields_of line')) 6); [lia|].
  by rewrite (parse_record_ext _ _ Hsame).
Qed.



(** ** The three-way cut for any ratios that are not negative *)

Lemma slices_cover {A} (files : list A) train val :
  0 <= train -> 0 <= val ->
  let n := U1.len files in
  U1.train_slice files train ++ U1.val_slice files train val
    ++ U1.test_slice files train val = files
  /\ U1.len (U1.train_slice files train) = Z.min train n
  /\ U1.len (U1.val_slice files train val)
     = Z.min (train + val) n - Z.min train n
  /\ U1.len (U1.test_slice files train val) = n - Z.min (train + val) n.
Proof.
  unfold U1.len, U1.train_slice, U1.val_slice, U1.test_slice, Py.slice,
    Py.slice_index. cbn [from_option]. intros Ht Hv.
  destruct (Z.ltb_spec train 0); [lia|].
  destruct (Z.ltb_spec (train + val) 0); [lia|].
  rewrite Nat2Z.id, (take_ge files (length files)) by lia.
  change (Z.to_nat 0) with 0%nat. cbn [drop].
  rewrite !length_drop, !length_take.
  split; [|lia].
  rewrite drop_take_drop by lia. apply take_drop.
Qed.

(** X5.  Whatever the two ratios are, as long as neither is negative, the
    three slices [split_data] takes of a list are the list cut in three: no
    file is left out and none is taken twice, also when the ratios sum to
    more than 1.  The sizes are then clamped: the train slice has
    min(train, total) elements, the val slice what is left of
    min(train + val, total), the test slice the rest. *)
Theorem X5_cut_loses_no_file (files : list string) train_ratio val_ratio
    train val :
  nonneg train_ratio = true -> nonneg val_ratio = true ->
  U1.count_of train_ratio (U1.len files) = inr train ->
  U1.count_of val_ratio (U1.len files) = inr val ->
  let total := U1.len files in
  U1.train_slice files train ++ U1.val_slice files train val
    ++ U1.test_slice files train val = files
  /\ U1.len (U1.train_slice files train) = Z.min train total
  /\ U1.len (U1.val_slice files train val)
     = Z.min (train + val) total - Z.min train total
  /\ U1.len (U1.test_slice files train val)
     = total - Z.min (train + val) total.
Proof.
  intros Htr Hvr Ht Hv. apply slices_cover.
  - eapply count_of_nonneg; [exact Htr| |exact Ht]. unfold U1.len. lia.
  - eapply count_of_nonneg; [exact Hvr| |exact Hv]. unfold U1.len. lia.
Qed.

Lemma X5_cut_loses_no_file_witness :
  let files := ["a"; "b"; "c"; "d"] in
  U1.train_slice files 3 ++ U1.val_slice files 3 2 ++ U1.test_slice files 3 2
  = files
  /\ U1.len (U1.val_slice files 3 2) = 1.
Proof.
  destruct (X5_cut_loses_no_file ["a"; "b"; "c"; "d"] Float.f0_8 Float.f0_5
              3 2) as (Hcover & _ & Hval & _); [by vm_compute..|].
  split; [exact Hcover|exact Hval].
Defined.

(** ** What [collect_images_from_dirs] returns and prints *)

Lemma collect_into_lines env directories : forall files w,
  U1.collect_into env files directories w
  = Normal (files ++ found_images env directories)
      (set_stdout (stdout w ++ found_lines env (length files) directories) w).
Proof.
  induction directories as [|directory rest IH]; intros files w;
    cbn [U1.collect_into found_lines].
  - unfold ret, found_images. cbn. rewrite !app_nil_r. by destruct w.
  - erewrite bind_normal by apply print_eq. rewrite IH.
    rewrite found_images_cons, set_stdout_set_stdout, length_app.
    cbn [stdout set_stdout]. by rewrite <- !app_assoc.
Qed.

Lemma images_under_spec env directory path :
  path ∈ U1.images_under env directory
  <-> exists root filenames file,
        (root, filenames) ∈ walk env directory
        /\ file ∈ filenames
        /\ U1.has_extension file = true
        /\ path = Py.join root [file].
Proof.
  unfold U1.images_under. rewrite list_elem_of_bind. split.
  - intros ([root filenames] & Hpath & Hwalk).
    apply list_elem_of_bind in Hpath as (file & Hpath & Hfile).
    apply list_elem_of_singleton in Hpath.
    apply list_elem_of_filter in Hfile as [Hext Hfile].
    by exists root, filenames, file.
  - intros (root & filenames & file & Hwalk & Hfile & Hext & ->).
    exists (root, filenames). split; [|done].
    apply list_elem_of_bind. exists file. split.
    + by apply list_elem_of_singleton.
    + by apply list_elem_of_filter.
Qed.

(** X6.  [collect_images_from_dirs] returns, in the order of the
    directories and of the walk, the path [join(root, file)] of every file
    the walk of one of the directories lists whose lower-cased name ends in
    [.jpg] or [.png], and of no other file.  It changes nothing but
    standard output, where it prints one line per directory; the count in
    the line of a directory is the number of images found so far, those of
    the directories before it included. *)
Theorem X6_collect_images env directories w :
  U1.collect_images_from_dirs env directories w
  = Normal (found_images env directories)
      (set_stdout (stdout w ++ found_lines env 0 directories) w)
  /\ (forall path,
        path ∈ found_images env directories
        <-> exists directory root filenames file,
              directory ∈ directories
              /\ (root, filenames) ∈ walk env directory
              /\ file ∈ filenames
              /\ (Py.endswith (Py.lower file) ".jpg" = true
                  \/ Py.endswith (Py.lower file) ".png" = true)
              /\ path = Py.join root [file]).
Proof.
  split; [apply (collect_into_lines env directories [] w)|].
  intros path. unfold found_images. rewrite list_elem_of_bind.
  assert (forall file,
            U1.has_extension file = true
            <-> Py.endswith (Py.lower file) ".jpg" = true
                \/ Py.endswith (Py.lower file) ".png" = true) as Hext.
  { intros file. unfold U1.has_extension, U1.extensions. cbn [existsb].
    rewrite orb_false_r. apply orb_true_iff. }
  split.
  - intros (directory & (root & filenames & file & ? & ? & ? & ->)
                          %images_under_spec & Hdir).
    exists directory, root, filenames, file. by rewrite <- Hext.
  - intros (directory & root & filenames & file & ? & ? & ? & ? & ->).
    exists directory. split; [|done]. apply images_under_spec.
    exists root, filenames, file. by rewrite Hext.
Qed.

(** The splitter's demo directories: a text file is left out, an upper-case
    extension is taken, and the second count is the running total. *)
Example collect_demo :
  U1.collect_images_from_dirs demo_env ["falls"; "walks"] world0
  = Normal ["falls/a/15.jpg"; "falls/a/16.jpg"; "falls/b/15.jpg";
            "falls/b/17.PNG"; "walks/a/25.jpg"; "walks/a/26.jpg"]
      (set_stdout [FoundImages 4 "falls"; FoundImages 6 "walks"] world0).
Proof. reflexivity. Qed.

(** ** Where [utils.py] looks for the annotation files *)

Lemma app_nil_r_string (s : string) : s +:+ EmptyString = s.
Proof.
  induction s as [|a s IH]; [done|]. rewrite app_cons_string. by rewrite IH.
Qed.

Lemma rev_app_app s t acc :
  String.rev_app (s +:+ t) acc = String.rev_app t (String.rev_app s acc).
Proof.
  revert acc. induction s as [|a s IH]; intros acc; [done|].
  rewrite app_cons_string. cbn. apply IH.
Qed.

Lemma rev_app_rev_app s a b :
  String.rev_app (String.rev_app s a) b = String.rev_app a (s +:+ b).
Proof.
  revert a b. induction s as [|c s IH]; intros a b; [done|].
  cbn. rewrite IH. by rewrite app_cons_string.
Qed.

Lemma rev_rev_string s : String.rev (String.rev s) = s.
Proof.
  unfold String.rev. rewrite rev_app_rev_app. cbn. apply app_nil_r_string.
Qed.

Lemma substring_all s : String.substring 0 (String.length s) s = s.
Proof. induction s as [|a s IH]; cbn; [done|]. by rewrite IH. Qed.

Lemma string_snoc s :
  s <> EmptyString -> exists s' c, s = s' +:+ String c EmptyString.
Proof.
  induction s as [|a s IH]; [done|]. intros _.
  destruct s as [|b s].
  - by exists EmptyString, a.
  - destruct IH as (s' & c & ->); [done|]. by exists (String a s'), c.
Qed.

Lemma endswith_snoc s c :
  Py.endswith (s +:+ String c EmptyString) (String c EmptyString) = true.
Proof.
  induction s as [|a s IH].
  - rewrite app_nil_string. cbn. by rewrite Ascii.eqb_refl.
  - rewrite app_cons_string. cbn [Py.endswith]. rewrite IH.
    apply orb_true_r.
Qed.

(** [os.path.dirname] of a path with one trailing separator: the path
    without it. *)
Lemma dirname_trailing_slash d :
  d <> EmptyString -> Py.endswith d "/" = false -> Py.dirname (d +:+ "/") = d.
Proof.
  intros Hd Hend. unfold Py.dirname.
  rewrite (basename_app d EmptyString) by done. cbn [String.length].
  rewrite Nat.sub_0_r, substring_all.
  destruct (string_snoc d Hd) as (d' & c & ->).
  assert (Ascii.eqb c "/" = false) as Hc.
  { destruct (Ascii.eqb_spec c "/") as [->|]; [|done].
    by rewrite endswith_snoc in Hend. }
  unfold String.rev at 1. rewrite !rev_app_app. cbn [String.rev_app].
  cbn [Py.rstrip_char]. rewrite Ascii.eqb_refl. cbn [Py.rstrip_char].
  rewrite Hc.
  change (String c (String.rev_app d' EmptyString))
    with (String.rev_app (String c EmptyString)
            (String.rev_app d' EmptyString)).
  rewrite <- rev_app_app. apply rev_rev_string.
Qed.

(** [os.path.dirname] of a path that ends in a component: what precedes
    the separator. *)
Lemma dirname_component x name :
  x <> EmptyString -> Py.endswith x "/" = false ->
  Py.contains "/" name = false ->
  Py.dirname (x +:+ "/" +:+ name) = x.
Proof.
  intros Hx Hend Hname. unfold Py.dirname.
  change (x +:+ "/" +:+ name) with (x +:+ String "/" name).
  rewrite (basename_app x name) by done.
  assert (String.substring 0
            (String.length (x +:+ String "/" name) - String.length name)
            (x +:+ String "/" name) = x +:+ "/") as ->.
  { rewrite length_app_string. cbn [String.length].
    replace (String.length x + S (String.length name) - String.length name)%nat
      with (String.length x + 1)%nat by lia.
    clear. induction x as [|a x IH].
    - rewrite !app_nil_string. cbn. by destruct name.
    - rewrite !app_cons_string. cbn. by rewrite IH. }
  fold (Py.dirname (x +:+ "/")) in |- *.
  pose proof (dirname_trailing_slash x Hx Hend) as Hdir.
  unfold Py.dirname in Hdir.
  rewrite (basename_app x EmptyString) in Hdir by done.
  cbn [String.length] in Hdir. rewrite Nat.sub_0_r, substring_all in Hdir.
  exact Hdir.
Qed.

(** X7.  The batch driver of [utils.py] takes the annotation folder to be
    [os.path.join(os.path.dirname(video_path), "Annotation_files")].  For a
    video folder given with its trailing separator, as all the folders of
    the script are, [dirname] only drops the separator: the annotation
    files are looked for in [{video folder}/Annotation_files], inside the
    video folder.  Given without trailing separator, [dirname] drops the
    last component and the annotation folder is the one beside the video
    folder. *)
Theorem X7_utils_annotation_folder env d name frame_save_path image_size w :
  d <> EmptyString -> Py.endswith d "/" = false ->
  name <> EmptyString -> Py.contains "/" name = false ->
  let batch video_path annotation_path :=
    (print (ProcessingVideos
              (Z.of_nat (length (filter (fun f => Py.endswith f ".avi" = true)
                                        (listdir env video_path))))
              video_path) ;;
     for_each (Utils.process_video env frame_save_path annotation_path
                 video_path image_size)
       (filter (fun f => Py.endswith f ".avi" = true)
               (listdir env video_path)) ;;
     ret tt) w in
  Utils.process_all_rooms env [(d +:+ "/" +:+ name +:+ "/", frame_save_path)]
    image_size w
  = batch (d +:+ "/" +:+ name +:+ "/")
          (d +:+ "/" +:+ name +:+ "/Annotation_files")
  /\ Utils.process_all_rooms env [(d +:+ "/" +:+ name, frame_save_path)]
       image_size w
     = batch (d +:+ "/" +:+ name) (d +:+ "/Annotation_files").
Proof.
  intros Hd Hend Hn Hname batch. unfold batch, Utils.process_all_rooms.
  cbn [for_each].
  assert (forall x, x <> EmptyString -> Py.endswith x "/" = false ->
                    Py.join x ["Annotation_files"]
                    = x +:+ "/Annotation_files") as Hjoin.
  { intros x Hx Hxe. unfold Py.join. cbn [foldl]. unfold Py.join2.
    cbn [String.prefix]. rewrite Hxe.
    by destruct (String.eqb_spec x ""). }
  assert (d +:+ "/" +:+ name <> EmptyString
          /\ Py.endswith (d +:+ "/" +:+ name) "/" = false) as [Hne Hne'].
  { split.
    - destruct d; [done|]. by rewrite app_cons_string.
    - destruct (string_snoc name Hn) as (n' & c & ->).
      destruct (Py.endswith (d +:+ _) "/") eqn:He; [|done].
      apply endswith_slash in He as [x Hx].
      rewrite contains_app in Hname. cbn in Hname.
      apply orb_false_iff in Hname as [_ Hc].
      rewrite orb_false_r in Hc.
      assert (x +:+ "/" = (d +:+ "/" +:+ n') +:+ String c EmptyString)
        as Heq by by rewrite <- Hx, !app_assoc_string.
      apply (f_equal String.rev) in Heq. unfold String.rev in Heq.
      rewrite !rev_app_app in Heq. cbn [String.rev_app] in Heq.
      injection Heq as Hc' _. rewrite <- Hc' in Hc.
      by rewrite Ascii.eqb_refl in Hc. }
  split.
  - replace (d +:+ "/" +:+ name +:+ "/")
      with ((d +:+ "/" +:+ name) +:+ "/") by by rewrite !app_assoc_string.
    rewrite (dirname_trailing_slash (d +:+ "/" +:+ name)) by done.
    rewrite Hjoin by done. by rewrite !app_assoc_string.
  - rewrite dirname_component by done. by rewrite Hjoin.
Qed.

Lemma X7_utils_annotation_folder_witness :
  Utils.process_all_rooms demo_env
    [("datasets/Home_01/Videos/", "out")] 224 world0
  = (print (ProcessingVideos
              (Z.of_nat (length (filter (fun f => Py.endswith f ".avi" = true)
                                   (listdir demo_env
                                      "datasets/Home_01/Videos/"))))
              "datasets/Home_01/Videos/") ;;
     for_each (Utils.process_video demo_env "out"
                 "datasets/Home_01/Videos/Annotation_files"
                 "datasets/Home_01/Videos/" 224)
       (filter (fun f => Py.endswith f ".avi" = true)
               (listdir demo_env "datasets/Home_01/Videos/")) ;;
     ret tt) world0.
Proof.
  destruct (X7_utils_annotation_folder demo_env "datasets/Home_01" "Videos"
              "out" 224 world0) as [Hinside _];
    [done|reflexivity|done|reflexivity|exact Hinside].
Defined.

(** ** The files a run writes *)

Lemma touches_refl P w : touches P w w.
Proof.
  split; [|done]. exists []. by rewrite app_nil_r.
Qed.

Lemma touches_trans P w1 w2 w3 :
  touches P w1 w2 -> touches P w2 w3 -> touches P w1 w3.
Proof.
  intros [(new1 & Hc1 & Hn1) Hd1] [(new2 & Hc2 & Hn2) Hd2]. split.
  - exists (new1 ++ new2). rewrite Hc2, Hc1, app_assoc. split; [done|].
    by apply Forall_app.
  - intros path Hpath. rewrite Hd2 by done. by apply Hd1.
Qed.

Lemma touches_mono (P Q : string -> Prop) w w' :
  (forall path, P path -> Q path) -> touches P w w' -> touches Q w w'.
Proof.
  intros HPQ [(new & Hc & Hn) Hd]. split.
  - exists new. split; [done|]. eapply Forall_impl; [exact Hn|].
    intros call. apply HPQ.
  - intros path Hpath. apply Hd. intros HP. by apply Hpath, HPQ.
Qed.

Lemma touches_print P msg w : touches P w (final (print msg w)).
Proof.
  split; [|done]. exists []. by rewrite app_nil_r.
Qed.

Lemma touches_for_enumerate {A L} P (body : L -> Z -> A -> M L) :
  (forall loc n x w, touches P w (final (body loc n x w))) ->
  forall xs start loc w,
    touches P w (final (for_enumerate body start xs loc w)).
Proof.
  intros Hbody. induction xs as [|x xs IH]; intros start loc w; cbn.
  - apply touches_refl.
  - apply (final_bind (touches P)); [apply touches_trans|apply Hbody|].
    intros. apply IH.
Qed.

Lemma record_outcome_touches env video save_path_for image_size line
    (P : string -> Prop) w w' :
  (forall n path, save_path_for n = inr path -> P path) ->
  record_outcome env video save_path_for image_size line w w' ->
  touches P w w'.
Proof.
  intros HP
    [[msg ->]|(f & x & y & wd & ht & frame & p & _ & _ & _ & _ & Hp & Hw)].
  - apply (touches_print _ msg).
  - apply wrote_effect in Hw as (Hcalls & _ & _ & Hdisk). split.
    + eexists. split; [exact Hcalls|].
      apply Forall_cons_2; [|apply Forall_nil_2]. cbn. by eapply HP.
    + intros path Hpath. rewrite Hdisk.
      destruct (imwrite_result env p); try done.
      apply lookup_insert_ne. intros ->. apply Hpath. by eapply HP.
Qed.

Lemma Data_crop_frames_touches env video_path annotation_path fall_save_path
    no_fall_save_path image_size w :
  touches (fun path => frame_file fall_save_path path
                       \/ frame_file no_fall_save_path path) w
    (final (Data.crop_frames_using_annotations env video_path annotation_path
              fall_save_path no_fall_save_path image_size w)).
Proof.
  unfold Data.crop_frames_using_annotations.
  destruct (video_capture env video_path) as [video|]; [|apply touches_print].
  destruct (text_file env annotation_path) as [file|]; [|apply touches_refl].
  apply (final_bind (touches _)); [apply touches_trans| |intros; apply touches_refl].
  apply touches_for_enumerate. intros loc n line w1.
  destruct (decide (n = 1 \/ n = 2)) as [Hhead|Hrec].
  - rewrite Data_loop_body_header by done. apply touches_refl.
  - edestruct Data_loop_body_inv as (w' & -> & Hout); [lia..|].
    eapply record_outcome_touches; [|exact Hout].
    intros m path. unfold Data.img_save_path.
    destruct (Data.in_fall_interval loc m) as [|[]]; [done|..];
      intros [= <-]; [left|right]; by exists m.
Qed.

Lemma Utils_crop_frames_touches env video_path annotation_path save_path
    image_size w :
  touches (frame_file save_path) w
    (final (Utils.crop_frames_using_annotations env video_path annotation_path
              save_path image_size w)).
Proof.
  unfold Utils.crop_frames_using_annotations.
  destruct (video_capture env video_path) as [video|]; [|apply touches_print].
  destruct (text_file env annotation_path) as [file|]; [|apply touches_refl].
  apply touches_for_enumerate. intros [] n line w1.
  edestruct Utils_loop_body_inv as (w' & -> & Hout).
  eapply record_outcome_touches; [|exact Hout].
  intros m path [= <-]. by exists m.
Qed.


(** ** The disk after a run, and the order of the records *)

Lemma apply_write_comm a b (d : gmap string Image) :
  (forall p i q j, a = Some (p, i) -> b = Some (q, j) -> p <> q) ->
  apply_write a (apply_write b d) = apply_write b (apply_write a d).
Proof.
  intros Hne. destruct a as [[p i]|], b as [[q j]|]; cbn; try done.
  apply insert_insert_ne. by eapply Hne.
Qed.

Lemma apply_writes_perm (write : string -> option (string * Image)) xs ys :
  xs ≡ₚ ys ->
  NoDup (omap (fun line => fst <$> write line) xs) ->
  forall d, apply_writes write xs d = apply_writes write ys d.
Proof.
  unfold apply_writes.
  induction 1 as [|x xs ys Hperm IH|x y xs|xs ys zs Hxy IH1 Hyz IH2];
    intros Hnodup d.
  - done.
  - cbn. apply IH. cbn in Hnodup.
    destruct (write x) as [[p i]|]; cbn in Hnodup; [|done].
    by apply NoDup_cons in Hnodup as [_ ?].
  - cbn. f_equal. apply apply_write_comm. intros p i q j Hx Hy ->.
    cbn in Hnodup. rewrite Hx, Hy in Hnodup. cbn in Hnodup.
    apply NoDup_cons in Hnodup as [Hin _]. apply Hin. by left.
  - rewrite IH1 by done. apply IH2.
    eapply NoDup_Permutation_proper; [|exact Hnodup].
    symmetry. by apply omap_Permutation.
Qed.

Section DiskOfRun.

Variable env : Env.
Variable video : Z -> option Image.
Variables video_path annotation_path : string.
Variable save_path_for : Z -> Exn + string.
Variable image_size : Z.
Variable step : Z -> string -> World -> World.
Variable lo : Z.

Hypothesis step_outcome : forall n line w,
  lo <= n -> record_outcome env video save_path_for image_size line w (step n line w).
Hypothesis step_valid : forall n line w r,
  lo <= n -> valid_record line = Some r ->
  step n line w
  = final (process_annotation env video video_path annotation_path
             save_path_for image_size n line w).
Hypothesis save_path_inj : forall n m path,
  save_path_for n = inr path -> save_path_for m = inr path -> n = m.

(** With a target size [cv.resize] refuses, a line only prints. *)
Lemma process_annotation_unresizable line_num line w :
  resizable env image_size image_size = false ->
  exists msg,
    process_annotation env video video_path annotation_path save_path_for
      image_size line_num line w
    = Normal tt (set_stdout (stdout w ++ [msg]) w).
Proof.
  intros Hsize. unfold process_annotation.
  destruct (length (fields_of line) <? 6)%nat; [by eexists|].
  destruct (parse_record (fields_of line)) as [bad|[[[[f x] y] wd] ht]];
    [by eexists|].
  destruct ((wd <=? 0) || (ht <=? 0)); [by eexists|].
  destruct (video (f - 1)) as [frame|]; [|by eexists].
  destruct (shape frame) as [height_frame width_frame].
  destruct (crop_box x y wd ht height_frame width_frame)
    as [[[x_start y_start] x_end] y_end].
  destruct ((x_start >=? x_end) || (y_start >=? y_end)); [by eexists|].
  unfold try_except, bind, cv_resize.
  destruct (shape (Slice frame y_start y_end x_start x_end)) as [rows cols].
  rewrite Hsize, andb_false_r. by eexists.
Qed.

(** What a line does to the disk: the write of its record, if it has one. *)
Lemma step_disk n line w :
  lo <= n ->
  disk (step n line w)
  = apply_write (record_write env video save_path_for image_size line)
      (disk w).
Proof.
  intros Hlo.
  assert (record_write env video save_path_for image_size line = None ->
          disk (step n line w) = disk w) as Hnone.
  { intros Hnone.
    destruct (step_outcome n line w Hlo)
      as [Hs|(f & x & y & wd & ht & frame & p & Hv & Hvideo & Hbox & Hsize
              & Hp & Hw)].
    - by apply skipped_effect in Hs as (_ & -> & _).
    - destruct (resizable env image_size image_size) eqn:Hfits.
      + apply wrote_effect in Hw as (_ & _ & _ & ->).
        unfold record_write in Hnone.
        rewrite Hv, Hvideo, Hp, Hbox, Hfits in Hnone. cbn [andb] in Hnone.
        by destruct (imwrite_result env p).
      + rewrite (step_valid _ _ _ _ Hlo Hv).
        by destruct (process_annotation_unresizable n line w Hfits)
          as [msg ->]. }
  destruct (record_write env video save_path_for image_size line)
    as [[path img]|] eqn:Hwrite; [|by apply Hnone].
  clear Hnone. unfold record_write in Hwrite.
  destruct (valid_record line) as [[[[[f x] y] wd] ht]|] eqn:Hv; [|done].
  destruct (video (f - 1)) as [frame|] eqn:Hvideo; [|done].
  destruct (save_path_for f) as [e|p] eqn:Hpath; [done|].
  destruct (proper_box frame x y wd ht) eqn:Hbox; [|done].
  destruct (resizable env image_size image_size) eqn:Hsize; [|done].
  cbn [andb] in Hwrite.
  rewrite (step_valid _ _ _ _ Hlo Hv).
  destruct (process_annotation_valid env video video_path annotation_path
              save_path_for image_size n line w _ _ _ _ _ _ _
              Hv Hvideo Hbox Hsize Hpath) as (w' & -> & Hw).
  cbn [final]. apply wrote_effect in Hw as (_ & _ & _ & ->).
  destruct (imwrite_result env p); try done.
  by injection Hwrite as <- <-.
Qed.

Lemma steps_disk xs : forall start w,
  lo <= start ->
  disk (steps step start xs w)
  = apply_writes (record_write env video save_path_for image_size) xs
      (disk w).
Proof.
  unfold apply_writes.
  induction xs as [|x xs IH]; intros start w Hlo; cbn; [done|].
  rewrite IH by lia. by rewrite step_disk.
Qed.

Lemma record_write_Some line path img :
  record_write env video save_path_for image_size line = Some (path, img) ->
  exists frame_num x_center y_center width height frame,
    valid_record line = Some (frame_num, x_center, y_center, width, height)
    /\ video (frame_num - 1) = Some frame
    /\ save_path_for frame_num = inr path
    /\ img = cropped_image frame x_center y_center width height image_size.
Proof.
  unfold record_write.
  destruct (valid_record line) as [[[[[f x] y] wd] ht]|]; [|done].
  destruct (video (f - 1)) as [frame|] eqn:Hvideo; [|done].
  destruct (save_path_for f) as [e|p] eqn:Hpath; [done|].
  destruct (_ && _); [|done].
  destruct (imwrite_result env p); try done.
  intros [= <- <-]. by exists f, x, y, wd, ht, frame.
Qed.

(** Records with pairwise distinct frame numbers write pairwise distinct
    files. *)
Lemma distinct_frames_distinct_files xs :
  NoDup (omap frame_number xs) ->
  NoDup (omap (fun line =>
                 fst <$> record_write env video save_path_for image_size line)
              xs).
Proof.
  induction xs as [|x xs IH]; cbn; [constructor|]. intros Hnodup.
  assert (NoDup (omap frame_number xs)) as Hrest.
  { destruct (frame_number x); [|done].
    by apply NoDup_cons in Hnodup as [_ ?]. }
  destruct (record_write env video save_path_for image_size x)
    as [[p img]|] eqn:Hx; cbn; [|by apply IH].
  apply NoDup_cons. split; [|by apply IH].
  intros (line & Hline & Hw)%list_elem_of_omap.
  destruct (record_write env video save_path_for image_size line)
    as [[q img']|] eqn:Hl; [|done].
  cbn in Hw. injection Hw as ->.
  apply record_write_Some in Hx as (n & ? & ? & ? & ? & ? & Hvx & _ & Hpx & _).
  apply record_write_Some in Hl as (m & ? & ? & ? & ? & ? & Hvl & _ & Hpl & _).
  apply valid_record_frame_number in Hvx, Hvl.
  rewrite (save_path_inj _ _ _ Hpx Hpl) in Hvx.
  rewrite Hvx in Hnodup. apply NoDup_cons in Hnodup as [Hin _].
  apply Hin. apply list_elem_of_omap. by exists line.
Qed.

(** With pairwise distinct frame numbers, the file of a record that is
    saved holds the crop of that record at the end. *)
Lemma steps_disk_record xs start w line frame_num x_center y_center width
    height frame path :
  lo <= start ->
  line ∈ xs -> NoDup (omap frame_number xs) ->
  valid_record line = Some (frame_num, x_center, y_center, width, height) ->
  video (frame_num - 1) = Some frame ->
  proper_box frame x_center y_center width height = true ->
  resizable env image_size image_size = true ->
  save_path_for frame_num = inr path ->
  imwrite_result env path = Saved ->
  disk (steps step start xs w) !! path
  = Some (cropped_image frame x_center y_center width height image_size).
Proof.
  intros Hlo (pre & post & ->)%list_elem_of_split Hnodup Hv Hvideo Hbox Hsize
    Hpath Hsaved.
  rewrite steps_disk by done.
  rewrite (apply_writes_perm _ _ ((pre ++ post) ++ [line])).
  - unfold apply_writes. rewrite foldl_app. cbn [foldl].
    unfold record_write at 1. rewrite Hv, Hvideo, Hpath, Hbox, Hsize.
    cbn [andb].
    rewrite Hsaved. cbn [apply_write]. apply lookup_insert_eq.
  - rewrite <- app_assoc. apply Permutation_app_head.
    apply Permutation_cons_append.
  - by apply distinct_frames_distinct_files.
Qed.

End DiskOfRun.

Lemma Data_crop_frames_bad_header env video_path annotation_path
    fall_save_path no_fall_save_path image_size video head1 head2 records w :
  video_capture env video_path = Some video ->
  text_file env annotation_path = Some (head1 :: head2 :: records) ->
  Py.int (Py.strip head1) = None \/ Py.int (Py.strip head2) = None ->
  final (Data.crop_frames_using_annotations env video_path annotation_path
           fall_save_path no_fall_save_path image_size w) = w.
Proof.
  intros Hvideo Hfile Hbad. unfold Data.crop_frames_using_annotations.
  rewrite Hvideo, Hfile. cbn [for_enumerate].
  unfold Data.loop_body at 1. cbn [Z.eqb Pos.eqb].
  destruct (Py.int (Py.strip head1)) as [n1|]; [|done].
  destruct Hbad as [|Hbad]; [done|].
  unfold bind at 2. cbn [ret].
  unfold Data.loop_body at 1. cbn [Z.eqb Pos.eqb Z.add Pos.add].
  by rewrite Hbad.
Qed.

Lemma Utils_crop_frames_disk env video_path annotation_path save_path
    image_size video file w :
  video_capture env video_path = Some video ->
  text_file env annotation_path = Some file ->
  disk (final (Utils.crop_frames_using_annotations env video_path
                 annotation_path save_path image_size w))
  = apply_writes
      (record_write env video (Utils.img_save_path save_path) image_size)
      file (disk w).
Proof.
  intros Hvideo Hfile.
  rewrite (Utils_crop_frames_run _ _ _ _ _ _ _ _ Hvideo Hfile). cbn [final].
  eapply (steps_disk env video video_path annotation_path _ image_size _ 1).
  - intros. apply utils_line_outcome.
  - intros. by eapply utils_line_valid.
  - lia.
Qed.

Lemma Data_crop_frames_disk env video_path annotation_path fall_save_path
    no_fall_save_path image_size video head1 head2 records fall_start
    fall_end w :
  video_capture env video_path = Some video ->
  text_file env annotation_path = Some (head1 :: head2 :: records) ->
  Py.int (Py.strip head1) = Some fall_start ->
  Py.int (Py.strip head2) = Some fall_end ->
  disk (final (Data.crop_frames_using_annotations env video_path
                 annotation_path fall_save_path no_fall_save_path
                 image_size w))
  = apply_writes
      (record_write env video
         (Data.img_save_path fall_save_path no_fall_save_path
            (Data.mkLocals (Some fall_start) (Some fall_end)))
         image_size)
      records (disk w).
Proof.
  intros Hvideo Hfile H1 H2.
  rewrite (Data_crop_frames_run _ _ _ _ _ _ _ _ _ _ _ _ _ Hvideo Hfile H1 H2).
  cbn [final].
  eapply (steps_disk env video video_path annotation_path _ image_size _ 3).
  - intros. by apply data_line_outcome.
  - intros. by eapply data_line_valid.
  - lia.
Qed.





(** ** The two extractors side by side *)

Lemma process_annotation_save_ext env video video_path annotation_path
    (save_path_for save_path_for' : Z -> Exn + string) image_size line_num
    line w :
  (forall frame_num, frame_number line = Some frame_num ->
                     save_path_for frame_num = save_path_for' frame_num) ->
  process_annotation env video video_path annotation_path save_path_for
    image_size line_num line w
  = process_annotation env video video_path annotation_path save_path_for'
      image_size line_num line w.
Proof.
  intros Hsame. unfold process_annotation.
  destruct (length (fields_of line) <? 6)%nat; [done|].
  destruct (parse_record (fields_of line)) as [bad|[[[[f x] y] wd] ht]] eqn:Hp;
    [done|].
  apply parse_record_inr in Hp as (Hf & _).
  destruct ((wd <=? 0) || (ht <=? 0)); [done|].
  destruct (video (f - 1)) as [frame|]; [|done].
  destruct (shape frame) as [height_frame width_frame].
  destruct (crop_box x y wd ht height_frame width_frame)
    as [[[x_start y_start] x_end] y_end].
  destruct ((x_start >=? x_end) || (y_start >=? y_end)); [done|].
  by rewrite (Hsame f Hf).
Qed.

Lemma apply_writes_ext (write write' : string -> option (string * Image))
    lines :
  (forall line, write line = write' line) ->
  forall d, apply_writes write lines d = apply_writes write' lines d.
Proof.
  intros Hsame. unfold apply_writes.
  induction lines as [|line lines IH]; intros d; cbn; [done|].
  by rewrite Hsame, IH.
Qed.



(** ** The splitter: every file reaches its folder *)

Lemma app_inv_head_string (a b c : string) : a +:+ b = a +:+ c -> b = c.
Proof.
  induction a as [|x a IH]; [by rewrite !app_nil_string|].
  rewrite !app_cons_string. intros [= ?]. by apply IH.
Qed.

Lemma endswith_slash_app y b :
  b <> EmptyString -> Py.contains "/" b = false ->
  Py.endswith (y +:+ b) "/" = false.
Proof.
  intros Hb Hno. destruct (string_snoc b Hb) as (b' & c & ->).
  destruct (Py.endswith (y +:+ _) "/") eqn:He; [|done].
  apply endswith_slash in He as [x Hx].
  rewrite contains_app in Hno. cbn in Hno.
  apply orb_false_iff in Hno as [_ Hc]. rewrite orb_false_r in Hc.
  assert (x +:+ "/" = (y +:+ b') +:+ String c EmptyString) as Heq
    by by rewrite <- Hx, !app_assoc_string.
  apply (f_equal String.rev) in Heq. unfold String.rev in Heq.
  rewrite !rev_app_app in Heq. cbn [String.rev_app] in Heq.
  injection Heq as Hc' _. rewrite <- Hc' in Hc.
  by rewrite Ascii.eqb_refl in Hc.
Qed.

(** [os.path.join(x, b)] for a component without separator: [b] appended
    to a prefix that depends on [x] only. *)
Lemma join2_prefix x :
  exists pre, forall b, Py.contains "/" b = false -> Py.join2 x b = pre +:+ b.
Proof.
  unfold Py.join2.
  destruct (String.eqb x "" || Py.endswith x "/") eqn:Hx.
  - exists x. intros b Hb. by rewrite prefix_slash_no_sep.
  - exists (x +:+ "/"). intros b Hb. rewrite prefix_slash_no_sep by done.
    by rewrite app_assoc_string.
Qed.

Lemma join2_component x b :
  b <> EmptyString -> Py.contains "/" b = false ->
  Py.join2 x b <> EmptyString /\ Py.endswith (Py.join2 x b) "/" = false.
Proof.
  intros Hb Hno. destruct (join2_prefix x) as [pre Hpre].
  rewrite Hpre by done. split; [|by apply endswith_slash_app].
  intros Hempty. apply (f_equal String.length) in Hempty.
  rewrite length_app_string in Hempty. destruct b; [done|].
  cbn in Hempty. lia.
Qed.

Lemma join2_slash x b :
  x <> EmptyString -> Py.endswith x "/" = false ->
  Py.contains "/" b = false ->
  Py.join2 x b = x +:+ String "/" b.
Proof.
  intros Hx He Hb. unfold Py.join2. rewrite prefix_slash_no_sep by done.
  rewrite He. by destruct (String.eqb_spec x "").
Qed.

Lemma app_slash_inj x x' b b' :
  Py.contains "/" b = false -> Py.contains "/" b' = false ->
  x +:+ String "/" b = x' +:+ String "/" b' -> x = x' /\ b = b'.
Proof.
  intros Hb Hb' Heq. assert (b = b') as <-.
  { apply (f_equal Py.basename) in Heq. by rewrite !basename_app in Heq. }
  split; [|done]. by eapply app_inv_tail_string.
Qed.

(** The destinations of the six folders are apart, and within a folder
    they are told apart by the base name. *)
Lemma destination_inj dest_base_dir split split' label label' f g :
  split ∈ U1.splits -> split' ∈ U1.splits ->
  label ∈ U1.categories -> label' ∈ U1.categories ->
  U1.destination dest_base_dir split label f
  = U1.destination dest_base_dir split' label' g ->
  split = split' /\ label = label' /\ Py.basename f = Py.basename g.
Proof.
  intros Hs Hs' Hl Hl'.
  assert (forall s, s ∈ U1.splits ->
                    s <> EmptyString /\ Py.contains "/" s = false) as Hsplit.
  { intros s H. unfold U1.splits in H. list_cases H; done. }
  assert (forall l, l ∈ U1.categories ->
                    l <> EmptyString /\ Py.contains "/" l = false) as Hcat.
  { intros l H. unfold U1.categories in H. list_cases H; done. }
  destruct (Hsplit _ Hs) as [Hs1 Hs2], (Hsplit _ Hs') as [Hs1' Hs2'].
  destruct (Hcat _ Hl) as [Hl1 Hl2], (Hcat _ Hl') as [Hl1' Hl2'].
  unfold U1.destination, Py.join. cbn [foldl].
  destruct (join2_component dest_base_dir split Hs1 Hs2) as [HY1 HY2].
  destruct (join2_component dest_base_dir split' Hs1' Hs2') as [HY1' HY2'].
  destruct (join2_component (Py.join2 dest_base_dir split) label Hl1 Hl2)
    as [HX1 HX2].
  destruct (join2_component (Py.join2 dest_base_dir split') label' Hl1' Hl2')
    as [HX1' HX2'].
  rewrite !(join2_slash (Py.join2 (Py.join2 dest_base_dir _) _))
    by (done || apply basename_no_slash).
  intros [HX Hb]%app_slash_inj; [|apply basename_no_slash..].
  rewrite !(join2_slash (Py.join2 dest_base_dir _)) in HX by done.
  apply app_slash_inj in HX as [HY Hlabel]; [|done..].
  destruct (join2_prefix dest_base_dir) as [pre Hpre].
  rewrite !Hpre in HY by done. by apply app_inv_head_string in HY.
Qed.

(** A sequence of copies that can be made, none of which overwrites a
    source and where no destination is shared by two sources: every
    destination ends up with the content of its source, and no other file
    changes. *)
Lemma copy_pairs_spec (pairs : list (string * string)) : forall w,
  (forall s d, (s, d) ∈ pairs -> is_Some (disk w !! s)) ->
  (forall s d s' d', (s, d) ∈ pairs -> (s', d') ∈ pairs -> d <> s') ->
  (forall s d s', (s, d) ∈ pairs -> (s', d) ∈ pairs -> s = s') ->
  (forall s d, (s, d) ∈ pairs -> copy_ready w s d) ->
  exists w',
    for_each (fun p => U1.shutil_copy p.1 p.2) pairs w = Normal tt w'
    /\ (forall s d, (s, d) ∈ pairs -> disk w' !! d = disk w !! s)
    /\ (forall p, (forall s, (s, p) ∉ pairs) -> disk w' !! p = disk w !! p).
Proof.
  induction pairs as [|[s d] pairs IH]; intros w Hex Hsrc Hfun Hready.
  - exists w. split; [done|]. split; [|done].
    intros s d H. by apply elem_of_nil in H.
  - destruct (Hex s d) as [c Hc]; [by left|].
    assert (s <> d) as Hsd.
    { intros ->. by apply (Hsrc d d d d); [left|left|]. }
    cbn [for_each]. unfold bind. cbn [fst snd].
    rewrite (shutil_copy_file s d c w) by (done || apply Hready; by left).
    set (w1 := set_disk _ w).
    assert (forall s' d', (s', d') ∈ pairs -> disk w1 !! s' = disk w !! s')
      as Hkept.
    { intros s' d' Hin. unfold w1. cbn. apply lookup_insert_ne.
      eapply (Hsrc s d s' d'); [by left|by right]. }
    destruct (IH w1) as (w' & Hrun & Hcopied & Hother).
    + intros s' d' Hin. rewrite (Hkept s' d') by done. eapply Hex. by right.
    + intros s1 d1 s2 d2 H1 H2. eapply Hsrc; by right.
    + intros s1 d1 s2 H1 H2. eapply Hfun; by right.
    + intros s1 d1 H1. apply copy_ready_set_disk, Hready. by right.
    + exists w'. split; [done|]. split.
      * intros s' d' [[= -> ->]|Hin]%elem_of_cons.
        -- destruct (decide (d ∈ pairs.*2)) as [Hd|Hd].
           ++ apply list_elem_of_fmap in Hd as ([s'' d''] & -> & Hin).
              cbn [snd] in *.
              rewrite (Hcopied s'' d'') by done.
              rewrite (Hkept s'' d'') by done.
              f_equal. eapply Hfun; [by right|by left].
           ++ rewrite Hother.
              ** unfold w1. cbn. by rewrite lookup_insert_eq.
              ** intros s'' Hin. apply Hd. apply list_elem_of_fmap.
                 by exists (s'', d).
        -- rewrite (Hcopied s' d') by done. by apply (Hkept s' d').
      * intros p Hp. rewrite Hother.
        -- unfold w1. cbn. apply lookup_insert_ne. intros ->.
           apply (Hp s). by left.
        -- intros s' Hin. apply (Hp s'). by right.
Qed.

Lemma copy_all_pairs dest_base_dir split label files w :
  U1.copy_all dest_base_dir split label files w
  = for_each (fun p => U1.shutil_copy p.1 p.2)
      ((fun file => (file, U1.destination dest_base_dir split label file))
         <$> files) w.
Proof.
  unfold U1.copy_all. revert w.
  induction files as [|f files IH]; intros w; cbn; [done|].
  unfold bind. destruct (U1.shutil_copy _ _ w) as [[] w'|]; [apply IH|done].
Qed.

(** The folder of a destination. *)
Lemma dirname_destination dest_base_dir split label file :
  split ∈ U1.splits -> label ∈ U1.categories ->
  Py.dirname (U1.destination dest_base_dir split label file)
  = Py.join dest_base_dir [split; label].
Proof.
  intros Hs Hl.
  assert (split <> EmptyString /\ Py.contains "/" split = false) as [Hs1 Hs2].
  { unfold U1.splits in Hs. list_cases Hs; done. }
  assert (label <> EmptyString /\ Py.contains "/" label = false) as [Hl1 Hl2].
  { unfold U1.categories in Hl. list_cases Hl; done. }
  unfold U1.destination, Py.join. cbn [foldl].
  destruct (join2_component (Py.join2 dest_base_dir split) label Hl1 Hl2)
    as [HX1 HX2].
  rewrite (join2_slash (Py.join2 (Py.join2 dest_base_dir split) label))
    by (done || apply basename_no_slash).
  apply (dirname_component _ (Py.basename file)); [done..|].
  apply basename_no_slash.
Qed.

Lemma bind_cong {A B} (m m' : M A) (k k' : A -> M B) w :
  m w = m' w -> (forall a w', k a w' = k' a w') ->
  bind m k w = bind m' k' w.
Proof.
  intros Hm Hk. unfold bind. rewrite Hm. by destruct (m' w).
Qed.

Lemma slice_of_train {A} (files : list A) train val :
  slice_of files train val "train" = U1.train_slice files train.
Proof. reflexivity. Qed.

Lemma slice_of_val {A} (files : list A) train val :
  slice_of files train val "val" = U1.val_slice files train val.
Proof. reflexivity. Qed.

Lemma slice_of_test {A} (files : list A) train val :
  slice_of files train val "test" = U1.test_slice files train val.
Proof. reflexivity. Qed.

(** The six copy loops are one sequence of copies. *)
Lemma split_and_copy_pairs dest_base_dir train_ratio val_ratio fall_files
    no_fall_files train_fall val_fall train_no_fall val_no_fall w :
  U1.count_of train_ratio (U1.len fall_files) = inr train_fall ->
  U1.count_of val_ratio (U1.len fall_files) = inr val_fall ->
  U1.count_of train_ratio (U1.len no_fall_files) = inr train_no_fall ->
  U1.count_of val_ratio (U1.len no_fall_files) = inr val_no_fall ->
  exists w1,
    disk w1 = disk w /\ dirs w1 = dirs w
    /\ U1.split_and_copy dest_base_dir train_ratio val_ratio fall_files
         no_fall_files w
       = for_each (fun p => U1.shutil_copy p.1 p.2)
           (copy_pairs dest_base_dir fall_files no_fall_files train_fall
              val_fall train_no_fall val_no_fall) w1.
Proof.
  intros H1 H2 H3 H4. unfold U1.split_and_copy.
  rewrite H1, bind_lift_inr, H2, bind_lift_inr, H3, bind_lift_inr, H4,
    bind_lift_inr.
  erewrite bind_normal by apply print_eq.
  erewrite bind_normal by apply print_eq.
  erewrite bind_normal by apply print_eq.
  eexists. split; [|split].
  3: { unfold copy_pairs, U1.splits. cbn [mbind list_bind].
       rewrite !slice_of_train, !slice_of_val, !slice_of_test.
       rewrite !app_nil_r, <- !app_assoc.
       repeat (rewrite for_each_app;
               apply bind_cong; [apply copy_all_pairs|intros [] ?]).
       apply copy_all_pairs. }
  all: done.
Qed.

Lemma elem_of_copy_pairs dest_base_dir fall_files no_fall_files train_fall
    val_fall train_no_fall val_no_fall s d :
  (s, d) ∈ copy_pairs dest_base_dir fall_files no_fall_files train_fall
             val_fall train_no_fall val_no_fall
  <-> exists label files train val split,
        (label, files, train, val)
          ∈ [("fall", fall_files, train_fall, val_fall);
             ("no_fall", no_fall_files, train_no_fall, val_no_fall)]
        /\ split ∈ U1.splits
        /\ s ∈ slice_of files train val split
        /\ d = U1.destination dest_base_dir split label s.
Proof.
  unfold copy_pairs. rewrite list_elem_of_bind. split.
  - intros ([[[label files] train] val] & Hin & Hg).
    apply list_elem_of_bind in Hin as (split & Hin & Hs).
    apply list_elem_of_fmap in Hin as (f & [= -> ->] & Hf).
    by exists label, files, train, val, split.
  - intros (label & files & train & val & split & Hg & Hs & Hf & ->).
    exists (label, files, train, val). split; [|done].
    apply list_elem_of_bind. exists split. split; [|done].
    apply list_elem_of_fmap. by exists s.
Qed.

Lemma slice_of_subseteq {A} (files : list A) train val split f :
  f ∈ slice_of files train val split -> f ∈ files.
Proof.
  unfold slice_of, U1.train_slice, U1.val_slice, U1.test_slice.
  repeat case_match; apply slice_subseteq.
Qed.

Lemma slice_of_cover {A} (files : list A) train val f :
  0 <= train -> 0 <= val -> f ∈ files ->
  exists split, split ∈ U1.splits /\ f ∈ slice_of files train val split.
Proof.
  intros Ht Hv Hf.
  destruct (slices_cover files train val Ht Hv) as [Hcover _].
  rewrite <- Hcover in Hf.
  apply elem_of_app in Hf as [Hf|[Hf|Hf]%elem_of_app].
  - exists "train". split; [in_list|done].
  - exists "val". split; [in_list|done].
  - exists "test". split; [in_list|done].
Qed.

Lemma slice_of_disjoint {A} (files : list A) train val split split' f :
  0 <= train -> 0 <= val -> NoDup files ->
  split ∈ U1.splits -> split' ∈ U1.splits ->
  f ∈ slice_of files train val split ->
  f ∈ slice_of files train val split' ->
  split = split'.
Proof.
  intros Ht Hv Hnd Hs Hs'.
  destruct (slices_cover files train val Ht Hv) as [Hcover _].
  rewrite <- Hcover in Hnd.
  apply NoDup_app in Hnd as (_ & H12 & Hnd).
  apply NoDup_app in Hnd as (_ & H23 & _).
  unfold U1.splits in Hs, Hs'.
  list_cases Hs; list_cases Hs';
    rewrite ?slice_of_train, ?slice_of_val, ?slice_of_test;
    intros H H'; try done; exfalso.
  - apply (H12 f H). apply elem_of_app. by left.
  - apply (H12 f H). apply elem_of_app. by right.
  - apply (H12 f H'). apply elem_of_app. by left.
  - by apply (H23 f H).
  - apply (H12 f H'). apply elem_of_app. by right.
  - by apply (H23 f H').
Qed.

Lemma NoDup_fmap_eq {A B} (f : A -> B) (l : list A) x y :
  NoDup (f <$> l) -> x ∈ l -> y ∈ l -> f x = f y -> x = y.
Proof.
  induction l as [|a l IH]; cbn; intros Hnd Hx Hy Heq.
  - by apply elem_of_nil in Hx.
  - apply NoDup_cons in Hnd as [Hnotin Hnd].
    apply elem_of_cons in Hx as [->|Hx], Hy as [->|Hy]; [done|..].
    + exfalso. apply Hnotin. rewrite Heq. by apply list_elem_of_fmap_2.
    + exfalso. apply Hnotin. rewrite <- Heq. by apply list_elem_of_fmap_2.
    + by apply IH.
Qed.

(** Case analysis on the two label groups. *)
Ltac group_cases H :=
  apply elem_of_cons in H as [H|H];
  [|apply elem_of_cons in H as [H|H]; [|by apply elem_of_nil in H]];
  simplify_eq.

Lemma split_and_copy_complete dest_base_dir train_ratio val_ratio fall_files
    no_fall_files train_fall val_fall train_no_fall val_no_fall w :
  0 <= train_fall -> 0 <= val_fall -> 0 <= train_no_fall ->
  0 <= val_no_fall ->
  U1.count_of train_ratio (U1.len fall_files) = inr train_fall ->
  U1.count_of val_ratio (U1.len fall_files) = inr val_fall ->
  U1.count_of train_ratio (U1.len no_fall_files) = inr train_no_fall ->
  U1.count_of val_ratio (U1.len no_fall_files) = inr val_no_fall ->
  (forall f, f ∈ fall_files ++ no_fall_files -> is_Some (disk w !! f)) ->
  (forall f g split label,
     split ∈ U1.splits -> label ∈ U1.categories ->
     f ∈ fall_files ++ no_fall_files -> g ∈ fall_files ++ no_fall_files ->
     U1.destination dest_base_dir split label g <> f) ->
  (forall f split label,
     split ∈ U1.splits -> label ∈ U1.categories ->
     f ∈ fall_files ++ no_fall_files ->
     copy_ready w f (U1.destination dest_base_dir split label f)) ->
  NoDup (Py.basename <$> fall_files) ->
  NoDup (Py.basename <$> no_fall_files) ->
  exists w',
    U1.split_and_copy dest_base_dir train_ratio val_ratio fall_files
      no_fall_files w = Normal tt w'
    /\ forall label files,
         (label, files) ∈ [("fall", fall_files); ("no_fall", no_fall_files)] ->
         forall f, f ∈ files ->
           exists split,
             split ∈ U1.splits
             /\ disk w' !! U1.destination dest_base_dir split label f
                = disk w !! f
             /\ forall split',
                  split' ∈ U1.splits -> split' <> split ->
                  disk w' !! U1.destination dest_base_dir split' label f
                  = disk w !! U1.destination dest_base_dir split' label f.
Proof.
  intros Htf Hvf Htn Hvn H1 H2 H3 H4 Hex Hdisj Hready Hnd_fall Hnd_no.
  destruct (split_and_copy_pairs dest_base_dir train_ratio val_ratio
              fall_files no_fall_files _ _ _ _ w H1 H2 H3 H4)
    as (w1 & Hdisk & Hdirs & ->).
  set (groups := [("fall", fall_files, train_fall, val_fall);
                  ("no_fall", no_fall_files, train_no_fall, val_no_fall)]).
  assert (forall label files train val,
            (label, files, train, val) ∈ groups ->
            label ∈ U1.categories
            /\ (forall f, f ∈ files -> f ∈ fall_files ++ no_fall_files)
            /\ NoDup (Py.basename <$> files)
            /\ 0 <= train /\ 0 <= val) as Hgroup.
  { intros label files train val Hg. unfold groups in Hg. group_cases Hg.
    - split; [in_list|]. split; [|done].
      intros f Hf. apply elem_of_app. by left.
    - split; [in_list|]. split; [|done].
      intros f Hf. apply elem_of_app. by right. }
  assert (forall label files train val files' train' val',
            (label, files, train, val) ∈ groups ->
            (label, files', train', val') ∈ groups ->
            files = files' /\ train = train' /\ val = val') as Hsame.
  { intros label files train val files' train' val' Hg Hg'.
    unfold groups in Hg, Hg'. group_cases Hg; group_cases Hg'; done. }
  assert (forall s d,
            (s, d) ∈ copy_pairs dest_base_dir fall_files no_fall_files
                       train_fall val_fall train_no_fall val_no_fall ->
            s ∈ fall_files ++ no_fall_files) as Hsource.
  { intros s d (label & files & train & val & split & Hg & Hs & Hf & ->)
      %elem_of_copy_pairs.
    destruct (Hgroup _ _ _ _ Hg) as (_ & Hsub & _).
    by eapply Hsub, slice_of_subseteq. }
  destruct (copy_pairs_spec
              (copy_pairs dest_base_dir fall_files no_fall_files train_fall
                 val_fall train_no_fall val_no_fall) w1)
    as (w' & Hrun & Hcopied & Hother).
  - intros s d Hin. rewrite Hdisk. by eapply Hex, Hsource.
  - intros s d s' d' Hin Hin'. pose proof (Hsource _ _ Hin').
    apply elem_of_copy_pairs in Hin
      as (label & files & train & val & split & Hg & Hs & Hf & ->).
    destruct (Hgroup _ _ _ _ Hg) as (Hlabel & Hsub & _).
    apply Hdisj; [done..|]. by eapply Hsub, slice_of_subseteq.
  - intros s d s'
      (label & files & train & val & split & Hg & Hs & Hf & ->)
        %elem_of_copy_pairs
      (label' & files' & train' & val' & split' & Hg' & Hs' & Hf' & Heq)
        %elem_of_copy_pairs.
    destruct (Hgroup _ _ _ _ Hg) as (Hlabel & _ & Hnd & _).
    destruct (Hgroup _ _ _ _ Hg') as (Hlabel' & _).
    apply destination_inj in Heq as (_ & <- & Hbase); [|done..].
    destruct (Hsame _ _ _ _ _ _ _ Hg Hg') as (<- & _).
    eapply (NoDup_fmap_eq Py.basename files); try done;
      by eapply slice_of_subseteq.
  - intros s d Hin. pose proof (Hsource _ _ Hin) as Hs.
    apply elem_of_copy_pairs in Hin
      as (label & files & train & val & split & Hg & Hsplit & Hf & ->).
    destruct (Hgroup _ _ _ _ Hg) as (Hlabel & _).
    unfold copy_ready, U1.isdir. rewrite Hdirs. by apply Hready.
  - exists w'. split; [done|]. intros label files Hfiles f Hf.
    assert (exists train val, (label, files, train, val) ∈ groups)
      as (train & val & Hg).
    { apply elem_of_cons in Hfiles as [[= -> ->]|Hfiles].
      - exists train_fall, val_fall. unfold groups. in_list.
      - apply elem_of_cons in Hfiles as [[= -> ->]|Hfiles];
          [|by apply elem_of_nil in Hfiles].
        exists train_no_fall, val_no_fall. unfold groups. in_list. }
    destruct (Hgroup _ _ _ _ Hg) as (Hlabel & Hsub & Hnd & Ht & Hv).
    destruct (slice_of_cover files train val f Ht Hv Hf) as (split & Hs & Hin).
    exists split. split; [done|]. split.
    + rewrite <- Hdisk. apply Hcopied. apply elem_of_copy_pairs.
      by exists label, files, train, val, split.
    + intros split' Hs' Hne. rewrite <- Hdisk. apply Hother.
      intros s
        (label2 & files2 & train2 & val2 & split2 & Hg2 & Hs2 & Hf2 & Heq)
          %elem_of_copy_pairs.
      destruct (Hgroup _ _ _ _ Hg2) as (Hlabel2 & _).
      apply destination_inj in Heq as (<- & <- & Hbase); [|done..].
      destruct (Hsame _ _ _ _ _ _ _ Hg Hg2) as (<- & <- & <-).
      assert (f = s) as <-.
      { eapply (NoDup_fmap_eq Py.basename files); try done.
        by eapply slice_of_subseteq. }
      apply Hne. symmetry.
      eapply (slice_of_disjoint files train val split split' f); try done.
      by eapply NoDup_fmap_1.
Qed.


